(** * Growth-curve orchestration: a shallow embedding of [growth_curves/main.py]
      and [growth_curves/generate_output_report.py].

    Conventions of the embedding:
    - Python strings are [string]s; column names are taken to be ASCII.
    - A pandas data frame is its list of column names and its list of rows;
      a missing cell (NaN) is [None].  Sex labels and cohort names are text,
      ages and biomarker values are numbers.  A sex column coded with
      numbers is outside the embedding: [unique] reads text labels only,
      and the statements that count the sex labels of a sheet carry the
      premise [text_labels].
    - Floats are exact rationals ([Q]); their formatting is a parameter.
    - The results dictionary is a [gmap]; a dictionary whose key order the
      code iterates over is an insertion-ordered [Dict.t].  The sections of
      the report come in the order of [map_to_list] and [elements]; the
      Python dictionary is iterated in insertion order and the sets in
      hash order, so the order of the sections is not that of the code and
      no statement below relies on it.
    - A Python exception is a constructor of [exn], carried by the error
      monad [res]; code that keeps its effects when it raises returns its
      state next to the [res].
    - The R script is the opaque function [R] of the keyword arguments of a
      call: it returns a result or raises.  The conversion to R data
      frames, matplotlib, reportlab and [os.makedirs] are taken not to
      raise. *)

From Stdlib Require Import Ascii QArith.
From stdpp Require Import gmap strings list fin_maps sorting pretty.

(** ** Python string primitives *)

Module Str.

(** [s.startswith(p)] *)
Fixpoint startswith (s p : string) {struct p} : bool :=
match p, s with
| EmptyString, _ => true
| String _ _, EmptyString => false
| String a p', String b s' => Ascii.eqb a b && startswith s' p'
end.

(** [needle in hay] for two strings: a match at some offset of [hay]. *)
Fixpoint contains (hay needle : string) : bool :=
startswith hay needle ||
match hay with
| EmptyString => false
| String _ hay' => contains hay' needle
end.

(** [s.endswith(suf)]: some tail of [s] is [suf]. *)
Fixpoint endswith (s suf : string) : bool :=
String.eqb s suf ||
match s with
| EmptyString => false
| String _ s' => endswith s' suf
end.

(** [sep in s] for one character *)
Fixpoint has_char (sep : ascii) (s : string) : bool :=
match s with
| EmptyString => false
| String c s' => Ascii.eqb c sep || has_char sep s'
end.

(** [s.split(sep)] for a one-character separator: never the empty list. *)
Fixpoint split (sep : ascii) (s : string) : list string :=
match s with
| EmptyString => [EmptyString]
| String c s' =>
    if Ascii.eqb c sep then EmptyString :: split sep s'
    else match split sep s' with
         | h :: t => String c h :: t
         | [] => [String c EmptyString]
         end
end.

(** [s.split(sep)[-1]] *)
Definition last_field (sep : ascii) (s : string) : string :=
List.last (split sep s) EmptyString.

(** [s.split(sep)[0]] *)
Definition first_field (sep : ascii) (s : string) : string :=
List.hd EmptyString (split sep s).

Definition lower_ascii (c : ascii) : ascii :=
let n := Ascii.N_of_ascii c in
if ((65 <=? n) && (n <=? 90))%N then Ascii.ascii_of_N (n + 32) else c.

(** [s.lower()] on ASCII text *)
Fixpoint lower (s : string) : string :=
match s with
| EmptyString => EmptyString
| String c s' => String (lower_ascii c) (lower s')
end.

End Str.

(** ** Exceptions and the error monad *)

Inductive exn : Type :=
| KeyError (key : string)
| IndexError
| ValueError (msg : string)
| RuntimeError (msg : string)
| TypeError (msg : string)
| UnboundLocalError (name : string)
| FileNotFoundError (path : string)
| UnpicklingError
| CalledProcessError (code : Z)
| RRuntimeError (msg : string).

Inductive res (A : Type) : Type :=
| Ok (a : A)
| Raise (e : exn).
Arguments Ok {A} a.
Arguments Raise {A} e.

Global Instance res_ret : MRet res := fun A a => Ok a.
Global Instance res_bind : MBind res := fun A B k m =>
  match m with
  | Ok a => k a
  | Raise e => Raise e
  end.

Definition is_ok {A} (m : res A) : bool :=
  match m with Ok _ => true | Raise _ => false end.

(** ** The disease-column matcher (main.py, lines 149-150)

    [[col for col in disease_tissue_map.keys()
          if biomarker.split('_')[-1] in col]] *)

Definition disease_cols (disease_keys : list string) (biomarker : string)
  : list string :=
  List.filter (fun col => Str.contains col (Str.last_field "_"%char biomarker))
              disease_keys.

(** ** Sex-column detection (main.py, lines 323-326)

    [[next((col for col in input_data.columns
            if "sex" in col.lower() or "gender" in col.lower()), None)]] *)

Definition is_sex_name (col : string) : bool :=
  Str.contains (Str.lower col) "sex" || Str.contains (Str.lower col) "gender".

Definition next_or_none {A} (p : A -> bool) (l : list A) : option A :=
  List.find p l.

(** [not sex_column]: [None] and the empty string are both falsy. *)
Definition find_sex_column (cols : list string) : res string :=
  match next_or_none is_sex_name cols with
  | None => Raise (ValueError "No column found for sex/gender - check column names")
  | Some EmptyString =>
      Raise (ValueError "No column found for sex/gender - check column names")
  | Some col => Ok col
  end.

(** ** Data frames

    A cell is missing ([None], pandas' NaN) or holds text or a number.  Sex
    labels and cohort names are text; ages and biomarker values are numbers. *)

Inductive value : Type :=
| VStr (s : string)
| VNum (q : Q).

Definition cell : Type := option value.
Definition Row : Type := string -> cell.

Record DataFrame : Type := mkFrame {
  columns : list string;
  rows : list Row
}.

Definition has_column (df : DataFrame) (col : string) : bool :=
  bool_decide (col ∈ columns df).

(** [df[col]]: the cells of one column, [KeyError] for an unknown name. *)
Definition column (df : DataFrame) (col : string) : res (list cell) :=
  if has_column df col then Ok (List.map (fun r : Row => r col) (rows df))
  else Raise (KeyError col).

Definition cell_present (c : cell) : bool :=
  match c with Some _ => true | None => false end.

Definition cell_label (c : cell) : option string :=
  match c with Some (VStr s) => Some s | _ => None end.

Definition cell_number (c : cell) : option Q :=
  match c with Some (VNum q) => Some q | _ => None end.

(** The element-wise test [series == s] against a text label. *)
Definition cell_is (s : string) (c : cell) : bool :=
  match cell_label c with
  | Some x => String.eqb x s
  | None => false
  end.

(** [df[df[col] == s]] *)
Definition where_eq (df : DataFrame) (col s : string) : res DataFrame :=
  if has_column df col
  then Ok (mkFrame (columns df)
                   (List.filter (fun r : Row => cell_is s (r col)) (rows df)))
  else Raise (KeyError col).

(** [df[df[col].isin(group)]] *)
Definition where_isin (df : DataFrame) (col : string) (group : list string)
  : res DataFrame :=
  if has_column df col
  then Ok (mkFrame (columns df)
             (List.filter
                (fun r : Row => List.existsb (fun g => cell_is g (r col)) group)
                (rows df)))
  else Raise (KeyError col).

Definition row_complete (subset : list string) (r : Row) : bool :=
  List.forallb (fun col => cell_present (r col)) subset.

(** [df.dropna(subset=subset)]: keeps the rows with no missing cell among
    the named columns; pandas raises [KeyError] for a name that is not a
    column. *)
Definition dropna (df : DataFrame) (subset : list string) : res DataFrame :=
  match List.find (fun col => negb (has_column df col)) subset with
  | Some col => Raise (KeyError col)
  | None => Ok (mkFrame (columns df) (List.filter (row_complete subset) (rows df)))
  end.

(** [series.unique()] on text labels: distinct values, first occurrence
    first.  Only text cells are read as labels; pandas also returns the
    distinct numbers of a column coded with numbers, which is why a
    statement about the number of labels assumes [text_labels]. *)
Fixpoint unique_from (seen : list string) (l : list string) : list string :=
  match l with
  | [] => []
  | x :: l' =>
      if bool_decide (x ∈ seen) then unique_from seen l'
      else x :: unique_from (x :: seen) l'
  end.

Definition unique (cells : list cell) : list string :=
  unique_from [] (omap cell_label cells).

(** [series.value_counts()]: occurrences of each label, missing cells not
    counted; a label that never occurs has no entry. *)
Definition count_label (cells : list cell) (g : string) : nat :=
  List.length (List.filter (cell_is g) cells).

Definition value_counts (cells : list cell) (g : string) : option nat :=
  match count_label cells g with
  | O => None
  | n => Some n
  end.

(** [gender_counts[g]] *)
Definition counts_getitem (cells : list cell) (g : string) : res nat :=
  match value_counts cells g with
  | Some n => Ok n
  | None => Raise (KeyError g)
  end.

(** [series.min()] and [series.max()] skip missing cells and are NaN
    ([None]) when nothing is left. *)
Definition qmin (a b : Q) : Q := if Qle_bool a b then a else b.
Definition qmax (a b : Q) : Q := if Qle_bool a b then b else a.

Definition reduce_q (f : Q -> Q -> Q) (l : list Q) : option Q :=
  match l with
  | [] => None
  | x :: l' => Some (List.fold_left f l' x)
  end.

Definition series_min (cells : list cell) : option Q :=
  reduce_q qmin (omap cell_number cells).
Definition series_max (cells : list cell) : option Q :=
  reduce_q qmax (omap cell_number cells).

(** [np.linspace(start, stop, num)]: [num] evenly spaced samples, the end
    point included; NaN end points give NaN samples. *)
Definition linspace_q (start stop : Q) (num : nat) : list Q :=
  let step := ((stop - start) / inject_Z (Z.of_nat (num - 1)))%Q in
  List.map (fun i => (start + inject_Z (Z.of_nat i) * step)%Q) (List.seq 0 num).

Definition linspace (start stop : option Q) (num : nat) : list (option Q) :=
  match start, stop with
  | Some a, Some b => List.map Some (linspace_q a b num)
  | _, _ => List.repeat None num
  end.

(** ** The age-distribution plot (main.py, lines 96-122) *)

Record HistCall : Type := mkHist {
  hist_x : list cell;            (* ages of one sex *)
  hist_bins : list (option Q);   (* bin edges *)
  hist_label : string;           (* legend entry *)
  hist_color : string
}.

Record Figure : Type := mkFigure {
  fig_hists : list HistCall;
  fig_xlabel : string;
  fig_ylabel : string;
  fig_title : string
}.

Definition bin_count (h : HistCall) : nat := List.length (hist_bins h) - 1.

Definition colors : list string := ["#1f77b4"; "#ff7f0e"; "#2ca02c"].

(** [l[i]] on a Python list *)
Definition list_getitem {A} (l : list A) (i : nat) : res A :=
  match l !! i with
  | Some a => Ok a
  | None => Raise IndexError
  end.

(** [f"{gender} (N={n})"] *)
Definition legend_label (gender : string) (n : nat) : string :=
  gender +:+ " (N=" +:+ pretty n +:+ ")".

Section AgePlot.
Variables (input_data : DataFrame) (sex_column age_column : string).
Variables (sex_cells : list cell) (bins : list (option Q)).

(** One round of [for i, gender in enumerate(sex_labels)]: the row
    selection, then the arguments of [plt.hist] from left to right. *)
Definition hist_call (i : nat) (gender : string) : res HistCall :=
  sub ← where_eq input_data sex_column gender;
  gender_ages ← column sub age_column;
  n ← counts_getitem sex_cells gender;
  color ← list_getitem colors i;
  mret (mkHist gender_ages bins (legend_label gender n) color).

Fixpoint hist_loop (i : nat) (sex_labels : list string) : res (list HistCall) :=
  match sex_labels with
  | [] => mret []
  | gender :: rest =>
      h ← hist_call i gender;
      hs ← hist_loop (S i) rest;
      mret (h :: hs)
  end.
End AgePlot.

Definition age_distribution_plot (input_data : DataFrame)
    (sex_column age_column : string) (sex_labels : list string) : res Figure :=
  sex_cells ← column input_data sex_column;
  all_ages ← column input_data age_column;
  let bins := linspace (series_min all_ages) (series_max all_ages) 30 in
  hs ← hist_loop input_data sex_column age_column sex_cells bins 0 sex_labels;
  mret (mkFigure hs "Age" "Frequency" "Age Distribution by Gender").

(** ** The fitting adapter *)

(** The rows of the three-column disease subset handed to the R script:
    age, the disease value under the biomarker's name, and the tissue
    label. *)
Record DiseaseRow : Type := mkDiseaseRow {
  d_age : value;
  d_value : value;
  d_tissue : string
}.

(** Keyword arguments of one [run_r_script_from_file] call.  The call with
    disease data also passes [tissue_column='tissue_column'] and the tissue
    type. *)
Record FitArgs : Type := mkFitArgs {
  fa_script : string;
  fa_input_data : DataFrame;
  fa_column_x : string;
  fa_column_y : string;
  fa_sex : string;
  fa_disease : option (list DiseaseRow * string);
  fa_save_path : string
}.

(** What the R script returns, as read through [rx2] and
    [convert_r_object]: R [NULL] becomes [None], a vector a list. *)
Record RResult : Type := mkRResult {
  rx_model_type : list string;
  rx_aic : option (list Q);
  rx_mu : option (list Q);
  rx_sigma : option (list Q);
  rx_nu : option (list Q);
  rx_tau : option (list Q);
  rx_coefficients : gmap string (list Q);
  rx_centile_data : DataFrame
}.

Record ModelParams : Type := mkParams {
  model_type : string;
  aic : option (list Q);
  mu : option (list Q);
  sigma : option (list Q);
  nu : option (list Q);
  tau : option (list Q);
  coefs : gmap string (list Q)
}.

Record Entry : Type := mkEntry {
  model_parameters : ModelParams;
  centiles : DataFrame
}.

(** [results[tissue][sex][biomarker]] *)
Abbreviation Results := (gmap string (gmap string (gmap string Entry))).

Definition results_get (rs : Results) (t s b : string) : option Entry :=
  match rs !! t with
  | Some by_sex =>
      match by_sex !! s with
      | Some by_bio => by_bio !! b
      | None => None
      end
  | None => None
  end.

(** [if t not in results: results[t] = {}] *)
Definition ensure_tissue (t : string) (rs : Results) : Results :=
  match rs !! t with
  | Some _ => rs
  | None => <[t := ∅]> rs
  end.

(** [if s not in results[t]: results[t][s] = {}] *)
Definition ensure_sex (t s : string) (rs : Results) : Results :=
  match rs !! t with
  | Some by_sex =>
      match by_sex !! s with
      | Some _ => rs
      | None => <[t := <[s := ∅]> by_sex]> rs
      end
  | None => rs
  end.

(** [results[t][s][biomarker] = entry] *)
Definition results_set (t s b : string) (e : Entry) (rs : Results) : res Results :=
  match rs !! t with
  | Some by_sex =>
      match by_sex !! s with
      | Some by_bio => Ok (<[t := <[s := <[b := e]> by_bio]> by_sex]> rs)
      | None => Raise (KeyError s)
      end
  | None => Raise (KeyError t)
  end.

(** The [model_params] dictionary of lines 225-233; [[0]] on the model
    type raises [IndexError] on an empty vector. *)
Definition build_model_params (r : RResult) : res ModelParams :=
  mt ← list_getitem (rx_model_type r) 0;
  mret (mkParams mt (rx_aic r) (rx_mu r) (rx_sigma r) (rx_nu r) (rx_tau r)
                 (rx_coefficients r)).

(** An insertion-ordered [dict] with text keys, for the dictionaries whose
    key order the code iterates over. *)
Module Dict.
Definition t (V : Type) : Type := list (string * V).

Definition keys {V} (d : t V) : list string := List.map fst d.

Fixpoint get {V} (d : t V) (k : string) : option V :=
  match d with
  | [] => None
  | (k', v) :: d' => if String.eqb k' k then Some v else get d' k
  end.

(** [d[k]] *)
Definition getitem {V} (d : t V) (k : string) : res V :=
  match get d k with
  | Some v => Ok v
  | None => Raise (KeyError k)
  end.

(** [d[k] = v]: a known key keeps its position. *)
Fixpoint set {V} (d : t V) (k : string) (v : V) : t V :=
  match d with
  | [] => [(k, v)]
  | (k', v') :: d' =>
      if String.eqb k' k then (k, v) :: d' else (k', v') :: set d' k v
  end.
End Dict.

(** ** The combination loop (main.py, lines 124-242) *)

(** The locals of [compute_growth_curves] that outlive one round of the
    loop, and the calls made to the R script so far (oldest first).
    [result_var] is the local variable [result]: [None] until its first
    assignment. *)
Record LoopState : Type := mkLoop {
  results : Results;
  result_var : option RResult;
  r_calls : list FitArgs
}.

Definition init_loop : LoopState := mkLoop ∅ None [].

Definition script_path (smoothing : bool) : string :=
  if smoothing then "./growth_curves/growth_curves_defaultsmoothing.R"
  else "./growth_curves/growth_curves_selectmodels.R".

Section Loop.
(** The R script, seen as the opaque function it is to the Python side:
    a result or an exception. *)
Variable R : FitArgs -> res RResult.
Variables (save_path age_column sex_column : string) (smoothing : bool).
Variable disease_tissue_map : option (Dict.t string).

(** [run_r_script_from_file]: the script's exception is printed and
    raised again. *)
Definition run_r_script_from_file (args : FitArgs) : res RResult :=
  match R args with
  | Ok r => Ok r
  | Raise e => Raise e
  end.

(** [result = run_r_script_from_file(...)] *)
Definition assign_result (args : FitArgs) (st : LoopState)
  : LoopState * res unit :=
  let calls := r_calls st ++ [args] in
  match run_r_script_from_file args with
  | Ok r => (mkLoop (results st) (Some r) calls, Ok ())
  | Raise e => (mkLoop (results st) (result_var st) calls, Raise e)
  end.

(** Lines 161-165: the three-column subset of one disease column with
    the incomplete rows dropped. *)
Definition disease_subset (dtm : Dict.t string)
    (filtered_disease_data : DataFrame) (disease_col : string)
  : res (list DiseaseRow) :=
  ages ← column filtered_disease_data age_column;
  vals ← column filtered_disease_data disease_col;
  tissue ← Dict.getitem dtm disease_col;
  mret (omap (fun av : cell * cell =>
                match av with
                | (Some a, Some v) => Some (mkDiseaseRow a v tissue)
                | _ => None
                end)
             (List.combine ages vals)).

(** Lines 159-175: [disease_data_list]; a column whose subset is empty
    or raises is skipped. *)
Fixpoint collect_disease (dtm : Dict.t string)
    (filtered_disease_data : DataFrame) (cols : list string)
  : list (list DiseaseRow) :=
  match cols with
  | [] => []
  | disease_col :: rest =>
      match disease_subset dtm filtered_disease_data disease_col with
      | Ok (r :: sub) =>
          (r :: sub) :: collect_disease dtm filtered_disease_data rest
      | Ok [] => collect_disease dtm filtered_disease_data rest
      | Raise _ => collect_disease dtm filtered_disease_data rest
      end
  end.

Section Combination.
Variables (s t biomarker : string).
Variable filtered_input_data : DataFrame.
Variable filtered_disease_data : option DataFrame.
Variable has_disease_data_for_sex : bool.

Definition plain_args : FitArgs :=
  mkFitArgs (script_path smoothing) filtered_input_data age_column
            biomarker s None save_path.

Definition disease_args (rows : list DiseaseRow) : FitArgs :=
  mkFitArgs (script_path smoothing) filtered_input_data age_column
            biomarker s (Some (rows, t)) save_path.

(** Lines 147-217: which call is made, if any. *)
Definition fit_stage (st : LoopState) : LoopState * res unit :=
  match has_disease_data_for_sex, disease_tissue_map, filtered_disease_data with
  | true, Some dtm, Some fdd =>
      match disease_cols (Dict.keys dtm) biomarker with
      | [] => assign_result plain_args st
      | cols =>
          match collect_disease dtm fdd cols with
          | [] => (st, Ok ())
          | disease_data_list =>
              assign_result (disease_args (List.concat disease_data_list)) st
          end
      end
  | _, _, _ => assign_result plain_args st
  end.

(** Lines 220-238: the intermediate dictionaries are created first,
    then [result] is read. *)
Definition store_stage (st : LoopState) : LoopState * res unit :=
  let rs := ensure_sex t s (ensure_tissue t (results st)) in
  let st1 := mkLoop rs (result_var st) (r_calls st) in
  match result_var st with
  | None => (st1, Raise (UnboundLocalError "result"))
  | Some result =>
      match build_model_params result with
      | Raise e => (st1, Raise e)
      | Ok model_params =>
          match results_set t s biomarker
                  (mkEntry model_params (rx_centile_data result)) rs with
          | Raise e => (st1, Raise e)
          | Ok rs' => (mkLoop rs' (result_var st) (r_calls st), Ok ())
          end
      end
  end.

Definition try_block (st : LoopState) : LoopState * res unit :=
  match fit_stage st with
  | (st1, Ok _) => store_stage st1
  | (st1, Raise e) => (st1, Raise e)
  end.

(** [try: ... except Exception as e: print(...); continue] *)
Definition process_combination (st : LoopState) : LoopState :=
  fst (try_block st).
End Combination.

(** A [for] loop whose body may raise: the first exception ends it. *)
Fixpoint for_each {A} (body : A -> LoopState -> LoopState * res unit)
    (l : list A) (st : LoopState) : LoopState * res unit :=
  match l with
  | [] => (st, Ok ())
  | x :: rest =>
      match body x st with
      | (st1, Ok _) => for_each body rest st1
      | (st1, Raise e) => (st1, Raise e)
      end
  end.

Variables (input_data : DataFrame) (disease_data : option DataFrame).
Variables (biomarkers : list string) (biomarker_tissue_map : gmap string string).
Variables (tissue_types : list string).

(** [biomarker_tissue_map[b]] *)
Definition tissue_of (b : string) : res string :=
  match biomarker_tissue_map !! b with
  | Some t => Ok t
  | None => Raise (KeyError b)
  end.

(** [[b for b in biomarkers if biomarker_tissue_map[b] == t]] *)
Fixpoint tissue_biomarkers (bs : list string) (t : string) : res (list string) :=
  match bs with
  | [] => mret []
  | b :: rest =>
      tb ← tissue_of b;
      tl ← tissue_biomarkers rest t;
      mret (if String.eqb tb t then b :: tl else tl)
  end.

(** The body of [for t in tissue_types]. *)
Definition tissue_round (s : string) (filtered_input_data : DataFrame)
    (filtered_disease_data : option DataFrame) (has_disease_data_for_sex : bool)
    (t : string) (st : LoopState) : LoopState * res unit :=
  match tissue_biomarkers biomarkers t with
  | Raise e => (st, Raise e)
  | Ok tbs =>
      (List.fold_left
         (fun acc biomarker =>
            process_combination s t biomarker filtered_input_data
              filtered_disease_data has_disease_data_for_sex acc)
         tbs st, Ok ())
  end.

(** The body of [for s in sex_labels]. *)
Definition sex_round (s : string) (st : LoopState) : LoopState * res unit :=
  match where_eq input_data sex_column s with
  | Raise e => (st, Raise e)
  | Ok filtered_input_data =>
      match disease_data with
      | None =>
          for_each (tissue_round s filtered_input_data None false)
                   tissue_types st
      | Some dd =>
          match where_eq dd sex_column s with
          | Raise e => (st, Raise e)
          | Ok fdd =>
              for_each (tissue_round s filtered_input_data (Some fdd)
                          (0 <? List.length (rows fdd))%nat)
                       tissue_types st
          end
      end
  end.

Definition combination_loop (sex_labels : list string)
  : LoopState * res unit :=
  for_each sex_round sex_labels init_loop.
End Loop.

(** ** Files *)

Definition bytes : Type := list Byte.byte.

(** [os.path.join(a, b)] on POSIX paths *)
Definition path_join (a b : string) : string :=
  if Str.startswith b "/" then b
  else if String.eqb a EmptyString || Str.endswith a "/" then a +:+ b
  else a +:+ "/" +:+ b.

(** [os.path.basename(p)] *)
Definition basename (p : string) : string := Str.last_field "/"%char p.

(** ** The report (generate_output_report.py) *)

(** The reportlab flowables the report is made of (table styles left out). *)
Inductive figure_cell : Type :=
| CellImage (path : string) (width_in height_in : nat)
| CellParagraph (text style : string).

Inductive flowable : Type :=
| Paragraph (text style : string)
| Spacer (width height : nat)
| Image (path : string) (width_in height_in : nat)
| PageBreak
| Table (data : list (list string))
| FigureTable (row : list figure_cell).

Inductive file : Type :=
| PngFile (fig : Figure)
| PickleFile (data : bytes)
| PdfFile (content : list flowable).

(** What the Python side does to the outside: the files it writes and the
    calls it makes to the R script. *)
Record World : Type := mkWorld {
  files : gmap string file;
  calls : list FitArgs
}.

(** [float(x)] on what [convert_r_object] left of a numeric vector: only a
    vector of length one converts. *)
Definition py_float (v : list Q) : res Q :=
  match v with
  | [x] => Ok x
  | _ => Raise (TypeError "only length-1 arrays can be converted to Python scalars")
  end.

(** [s.split(sep, 1)] *)
Fixpoint split_once (sep : ascii) (s : string) : list string :=
  match s with
  | EmptyString => [EmptyString]
  | String c s' =>
      if Ascii.eqb c sep then [EmptyString; s']
      else match split_once sep s' with
           | h :: t => String c h :: t
           | [] => [String c EmptyString]
           end
  end.

(** [sorted(xs)] on a set of strings *)
Definition sorted (xs : gset string) : list string :=
  merge_sort String.le (elements xs).

(** [mapM] for the error monad: a comprehension or loop whose element may
    raise. *)
Fixpoint traverse {A B} (f : A -> res B) (l : list A) : res (list B) :=
  match l with
  | [] => mret []
  | x :: rest =>
      y ← f x;
      ys ← traverse f rest;
      mret (y :: ys)
  end.

Definition dist_params : list (string * (ModelParams -> option (list Q))) :=
  [("mu", mu); ("sigma", sigma); ("nu", nu); ("tau", tau)].

Section ParameterTable.
(** [f"{x:.2f}"], [f"{x:.6f}"] and [str(x)] on floats. *)
Variables fmt_2f fmt_6f str_float : Q -> string.
Variable genders : gset string.
(** [params[gender]]: the model parameters of the biomarker for that
    sex, [None] when the biomarker is absent. *)
Variable params : string -> option ModelParams.

Definition header : list string :=
  "Parameter" :: List.map (fun gender => "Value (" +:+ gender +:+ ")")
                          (sorted genders).

Definition model_cell (gender : string) : string :=
  match params gender with
  | Some p => model_type p
  | None => "N/A"
  end.

Definition aic_cell (gender : string) : res string :=
  match params gender with
  | Some p =>
      match aic p with
      | None => mret "N/A"
      | Some v => x ← py_float v; mret (fmt_2f x)
      end
  | None => mret "N/A"
  end.

(** Lines 148-151 *)
Definition param_names : gset string :=
  ⋃ (List.map (fun gender =>
                 match params gender with
                 | Some p => dom (coefs p)
                 | None => ∅
                 end)
              (elements genders)).

Definition coef_cell (param_name gender : string) : res string :=
  match params gender with
  | Some p =>
      match coefs p !! param_name with
      | Some v => x ← list_getitem v 0; mret (fmt_6f x)
      | None => mret "N/A"
      end
  | None => mret "N/A"
  end.

Definition coef_row (param_name : string) : res (list string) :=
  cells ← traverse (coef_cell param_name) (sorted genders);
  mret (param_name :: cells).

Definition dist_cell (get : ModelParams -> option (list Q)) (gender : string)
  : res string :=
  match params gender with
  | Some p =>
      match get p with
      | Some v => x ← list_getitem v 0; mret (str_float x)
      | None => mret "N/A"
      end
  | None => mret "N/A"
  end.

Definition dist_row (param : string * (ModelParams -> option (list Q)))
  : res (list string) :=
  cells ← traverse (dist_cell (snd param)) (sorted genders);
  mret (fst param :: cells).

(** Lines 124-171: the [data] handed to [Table]. *)
Definition table_data : res (list (list string)) :=
  let model_row := "Best model family" :: List.map model_cell (sorted genders) in
  aic_cells ← traverse aic_cell (sorted genders);
  let aic_row := "AIC" :: aic_cells in
  coef_rows ← traverse coef_row (sorted param_names);
  dist_rows ← traverse dist_row dist_params;
  mret (header :: model_row :: aic_row :: coef_rows ++ dist_rows).
End ParameterTable.

Section Report.
Variables fmt_2f fmt_6f str_float : Q -> string.
(** [pickle.load] *)
Variable pickle_loads : bytes -> res Results.
(** The wall clock, and which of the images written by the R scripts
    are on disk. *)
Variable now : string.
Variable r_image_exists : string -> bool.

Variables (fs : gmap string file) (results_folder : string).
Variables (run_time : nat) (input_file : string) (disease_tissue : option string).

(** [os.path.exists] *)
Definition path_exists (p : string) : bool :=
  bool_decide (is_Some (fs !! p)) || r_image_exists p.

(** Lines 23-25 *)
Definition load_results : res Results :=
  match fs !! path_join results_folder "results.pkl" with
  | Some (PickleFile data) => pickle_loads data
  | Some _ => Raise UnpicklingError
  | None => Raise (FileNotFoundError (path_join results_folder "results.pkl"))
  end.

(** Lines 29-33 *)
Definition formatted_run_time : string :=
  let hours := (run_time / 3600)%nat in
  let remainder := (run_time mod 3600)%nat in
  pretty hours +:+ " h " +:+ pretty (remainder / 60)%nat +:+ " min "
    +:+ pretty (remainder mod 60)%nat +:+ " s".

(** Lines 46-81 *)
Definition front_matter : list flowable :=
  let description_text :=
    "This is the output report for fitted GAMLSS models ran on: " +:+ now
      +:+ " <br/><br/>" +:+ "Dataset filename: " +:+ basename input_file
      +:+ " <br/>"
      +:+ match disease_tissue with
          | Some d => "Disease data filename: " +:+ basename d +:+ " <br/>"
          | None => EmptyString
          end
      +:+ "Run time: " +:+ formatted_run_time +:+ "  <br/><br/>" in
  let age_dist_path := path_join results_folder "dataset_age_distribution.png" in
  [Paragraph "GAMLSS Age Curves Report" "Title";
   Paragraph description_text "BodyText";
   Paragraph "This analysis uses Generalized Additive Models for Location, Scale and Shape (GAMLSS) in R to construct normative age curves for FLAIR biomarkers. The data is stratified by sex and tissue type, and models are optimized to characterize the relationship between age and each biomarker. The models account for changes in both the mean trend and the spread of values across age. Centile curves (3rd, 15th, 50th, 85th, and 97th percentiles) are generated to show the expected distribution of values at each age.<br/><br/>" "BodyText"]
  ++ (if path_exists age_dist_path
      then [Spacer 1 12; Image age_dist_path 6 4; Spacer 1 6;
            Paragraph "Age distribution between genders in the dataset analyzed for age curves." "CenteredStyle";
            Spacer 1 12]
      else [])
  ++ [PageBreak; Paragraph "Modelling Results" "Heading2"].

(** Lines 89-94: the sexes and biomarkers over all tissues. *)
Definition all_genders (results : Results) : gset string :=
  ⋃ (List.map (fun tr : string * gmap string (gmap string Entry) => dom (snd tr))
              (map_to_list results)).

Definition all_biomarkers (results : Results) : gset string :=
  ⋃ (List.map
       (fun tr : string * gmap string (gmap string Entry) =>
          ⋃ (List.map (fun sr : string * gmap string Entry => dom (snd sr))
                      (map_to_list (snd tr))))
       (map_to_list results)).

Section Biomarker.
Variables (genders : gset string) (tissue : string).
(** [gender_data[gender]], that is [tissue_data.get(gender, {})] *)
Variable tissue_data : gmap string (gmap string Entry).
Variable biomarker : string.

Definition gender_data (gender : string) : gmap string Entry :=
  default ∅ (tissue_data !! gender).

(** Lines 128-132 *)
Definition params_of (gender : string) : option ModelParams :=
  model_parameters <$> (gender_data gender !! biomarker).

(** Lines 191-206 *)
Definition curve_cell (gender : string) : figure_cell :=
  let plain := path_join results_folder
                 ("centile_plot_" +:+ gender +:+ "_" +:+ biomarker +:+ ".png") in
  let img_path :=
    match disease_tissue with
    | Some _ =>
        let dis := path_join results_folder
                     ("centile_plot_" +:+ gender +:+ "_" +:+ biomarker
                        +:+ "_disease.png") in
        if path_exists dis then dis else plain
    | None => plain
    end in
  if path_exists img_path then CellImage img_path 3 3
  else CellParagraph ("No growth curve available for " +:+ gender) "Normal".

(** Lines 236-243 *)
Definition residuals_cell (gender : string) : figure_cell :=
  let residuals_path :=
    path_join results_folder
      ("residuals_" +:+ gender +:+ "_" +:+ biomarker +:+ ".png") in
  if path_exists residuals_path then CellImage residuals_path 3 3
  else CellParagraph ("No residuals plot available for " +:+ gender) "Normal".

Definition is_image (c : figure_cell) : bool :=
  match c with CellImage _ _ _ => true | CellParagraph _ _ => false end.

(** [biomarker.split('_', 1)[1]] *)
Definition biomarker_type : res string :=
  list_getitem (split_once "_"%char biomarker) 1.

(** Lines 111-259: one biomarker section. *)
Definition biomarker_section : res (list flowable) :=
  data ← table_data fmt_2f fmt_6f str_float genders params_of;
  let figure_images := List.map curve_cell (sorted genders) in
  figures ←
    (if List.existsb is_image figure_images then
       bt ← biomarker_type;
       let caption_text :=
         "Normative " +:+ bt +:+ " age curves for female (left) and male (right) in "
           +:+ tissue
           +:+ match disease_tissue with
               | Some _ => " (Disease Tissue)"
               | None => EmptyString
               end in
       mret [FigureTable figure_images; Spacer 1 6;
             Paragraph caption_text "CenteredStyle"; Spacer 1 12]
     else mret []);
  let residuals_images := List.map residuals_cell (sorted genders) in
  residuals ←
    (if List.existsb is_image residuals_images then
       bt ← biomarker_type;
       mret [FigureTable residuals_images; Spacer 1 6;
             Paragraph ("Residuals of female (left) and male (right) " +:+ bt
                          +:+ " age curves in " +:+ tissue) "CenteredStyle";
             Spacer 1 12]
     else mret []);
  mret ([Paragraph ("Biomarker: " +:+ biomarker) "Heading4"; Spacer 1 12;
         Paragraph (biomarker +:+ " Optimized Model Parameters by Sex")
                   "CenteredStyle";
         Spacer 1 6; Table data; Spacer 1 12]
        ++ figures ++ [PageBreak] ++ residuals).

(** Line 108: the biomarker is present for this tissue in some sex. *)
Definition biomarker_present : bool :=
  List.existsb (fun gender => bool_decide (is_Some (gender_data gender !! biomarker)))
               (elements genders).
End Biomarker.

(** Lines 97-259: one tissue section. *)
Definition tissue_section (results : Results) (tissue : string)
  : res (list flowable) :=
  let genders := all_genders results in
  let tissue_data := default ∅ (results !! tissue) in
  sections ←
    traverse (fun biomarker =>
                if biomarker_present genders tissue_data biomarker
                then biomarker_section genders tissue tissue_data biomarker
                else mret [])
             (elements (all_biomarkers results));
  mret ([Paragraph ("Age Curves for Tissue Type: " +:+ tissue) "Heading3";
         Spacer 1 6] ++ List.concat sections).

(** The document given to [pdf.build], and the PDF it writes.  The tissues
    come in the key order of the [gmap], in the code in the insertion order
    of the dictionary. *)
Definition report_content : res (list flowable) :=
  results ← load_results;
  sections ← traverse (tissue_section results) (List.map fst (map_to_list results));
  mret (front_matter ++ List.concat sections).

Definition generate_output_report : gmap string file * res unit :=
  match report_content with
  | Ok content =>
      (<[path_join results_folder "growth_curves_output_report.pdf" := PdfFile content]> fs,
       Ok ())
  | Raise e => (fs, Raise e)
  end.
End Report.

(** ** [compute_growth_curves] (main.py, lines 73-249) *)

Section Compute.
Variable R : FitArgs -> res RResult.
(** [pickle.dump] *)
Variable pickle_dumps : Results -> bytes.

Definition compute_growth_curves (fs : gmap string file)
    (input_data : DataFrame) (save_path : string) (biomarkers : list string)
    (biomarker_tissue_map : gmap string string) (tissue_types : list string)
    (sex_column : string) (sex_labels : list string) (age_column : string)
    (disease_data : option DataFrame)
    (disease_tissue_map : option (Dict.t string)) (smoothing : bool)
  : World * res unit :=
  match age_distribution_plot input_data sex_column age_column sex_labels with
  | Raise e => (mkWorld fs [], Raise e)
  | Ok fig =>
      let fs1 :=
        <[save_path +:+ "/dataset_age_distribution.png" := PngFile fig]> fs in
      match combination_loop R save_path age_column sex_column smoothing
              disease_tissue_map input_data disease_data biomarkers
              biomarker_tissue_map tissue_types sex_labels with
      | (st, Raise e) => (mkWorld fs1 (r_calls st), Raise e)
      | (st, Ok _) =>
          (mkWorld (<[path_join save_path "results.pkl"
                        := PickleFile (pickle_dumps (results st))]> fs1)
                   (r_calls st),
           Ok ())
      end
  end.
End Compute.

(** ** [main] (main.py, lines 252-375) *)

Record Args : Type := mkArgs {
  input_path : string;
  age_col : string;
  arg_tissue_types : option (list string);
  arg_disease_data : option string;
  biomarker_types : list string;
  arg_group : option (list string);
  arg_smoothing : bool;
  arg_save_path : string
}.

(** What [subprocess.run(["R", "--version"], check=True)] meets. *)
Inductive r_probe : Type :=
| RNotFound
| RExited (code : Z).

Definition check_r_installed (p : r_probe) : res unit :=
  match p with
  | RNotFound => Raise (RuntimeError "R is not installed. Run setup/install_r.py first.")
  | RExited 0 => Ok ()
  | RExited code => Raise (CalledProcessError code)
  end.

Definition dquote : string := String (Ascii.ascii_of_nat 34) EmptyString.

(** The [repr] of a list of plain names, as an f-string prints it. *)
Definition repr_names (l : list string) : string :=
  "[" +:+ String.concat ", " (List.map (fun s => "'" +:+ s +:+ "'") l) +:+ "]".

(** Lines 303-308 *)
Definition disease_biomarkers_of (disease_columns biomarker_types : list string)
  : list string :=
  List.concat
    (List.map (fun biomarker =>
                 List.filter (fun col => Str.endswith col ("_" +:+ biomarker))
                             disease_columns)
              biomarker_types).

(** Lines 315-319 *)
Definition disease_tissue_map_of (disease_biomarkers : list string)
  : Dict.t string :=
  List.fold_left
    (fun m disease_col => Dict.set m disease_col (Str.first_field "_"%char disease_col))
    disease_biomarkers [].

(** Lines 329-340: the biomarker columns found, with their tissue, and the
    expected names that are missing. *)
Record BiomarkerColumns : Type := mkBiomarkerColumns {
  biomarker_columns : list string;
  missing_columns : list string;
  biomarker_tissue_map : gmap string string
}.

Definition add_candidate (input_columns : list string) (tissue : string)
    (acc : BiomarkerColumns) (biomarker : string) : BiomarkerColumns :=
  let column_name := tissue +:+ "_" +:+ biomarker in
  if bool_decide (column_name ∈ input_columns)
  then mkBiomarkerColumns (biomarker_columns acc ++ [column_name])
                          (missing_columns acc)
                          (<[column_name := tissue]> (biomarker_tissue_map acc))
  else mkBiomarkerColumns (biomarker_columns acc)
                          (missing_columns acc ++ [column_name])
                          (biomarker_tissue_map acc).

Definition expected_columns (input_columns tissue_types biomarker_types : list string)
  : BiomarkerColumns :=
  List.fold_left
    (fun acc tissue =>
       List.fold_left (add_candidate input_columns tissue) biomarker_types acc)
    tissue_types (mkBiomarkerColumns [] [] ∅).

(** Everything [main] hands to [compute_growth_curves]. *)
Record Prepared : Type := mkPrepared {
  p_input_data : DataFrame;
  p_biomarkers : BiomarkerColumns;
  p_tissue_types : list string;
  p_sex_column : string;
  p_sex_labels : list string;
  p_disease_data : option DataFrame;
  p_disease_tissue_map : option (Dict.t string)
}.

Definition nonempty_list {A} (o : option (list A)) : option (list A) :=
  match o with
  | Some (x :: l) => Some (x :: l)
  | _ => None
  end.

Definition nonempty_string (o : option string) : option string :=
  match o with
  | Some (String c s) => Some (String c s)
  | _ => None
  end.

(** Lines 291-294 *)
Definition group_filter (args : Args) (input_data : DataFrame) : res DataFrame :=
  match nonempty_list (arg_group args) with
  | Some group =>
      if has_column input_data "Cohort"
      then where_isin input_data "Cohort" group
      else Raise (ValueError ("No column named " +:+ dquote +:+ "Cohort" +:+ dquote))
  | None => mret input_data
  end.

Section Main.
Variable R : FitArgs -> res RResult.
Variable pickle_dumps : Results -> bytes.
Variable pickle_loads : bytes -> res Results.
Variables fmt_2f fmt_6f str_float : Q -> string.
Variable now : string.
Variable r_image_exists : string -> bool.
(** [pd.read_excel], the probe for R, and the seconds the run takes. *)
Variable read_excel : string -> res DataFrame.
Variable probe : r_probe.
Variable run_time : nat.

(** Lines 297-320 *)
Definition load_disease (args : Args)
  : res (option DataFrame * option (Dict.t string)) :=
  match nonempty_string (arg_disease_data args) with
  | None => mret (None, None)
  | Some disease_data_path =>
      disease_data ← read_excel disease_data_path;
      let disease_biomarkers :=
        disease_biomarkers_of (columns disease_data) (biomarker_types args) in
      match disease_biomarkers with
      | [] => Raise (ValueError "No matching biomarker columns found in disease data")
      | _ => mret (Some disease_data, Some (disease_tissue_map_of disease_biomarkers))
      end
  end.

(** Lines 276-354: everything before [compute_growth_curves] is called. *)
Definition setup (args : Args) : res Prepared :=
  let tissue_types := default ["GM"; "WM"] (nonempty_list (arg_tissue_types args)) in
  input_data ← read_excel (input_path args);
  input_data ← group_filter args input_data;
  disease ← load_disease args;
  sex_column ← find_sex_column (columns input_data);
  let found := expected_columns (columns input_data) tissue_types (biomarker_types args) in
  _ ← match biomarker_columns found with
      | [] => Raise (ValueError
                ("None of the expected biomarker columns were found in the input data. Missing columns: "
                   +:+ repr_names (missing_columns found)))
      | _ => mret ()
      end;
  input_data ← dropna input_data (sex_column :: biomarker_columns found);
  sex_cells ← column input_data sex_column;
  let unique_sex_labels := unique sex_cells in
  _ ← check_r_installed probe;
  mret (mkPrepared input_data found tissue_types sex_column unique_sex_labels
                   (fst disease) (snd disease)).

Definition main (fs : gmap string file) (args : Args) : World * res unit :=
  match setup args with
  | Raise e => (mkWorld fs [], Raise e)
  | Ok p =>
      match compute_growth_curves R pickle_dumps fs (p_input_data p)
              (arg_save_path args) (biomarker_columns (p_biomarkers p))
              (biomarker_tissue_map (p_biomarkers p)) (p_tissue_types p)
              (p_sex_column p) (p_sex_labels p) (age_col args)
              (p_disease_data p) (p_disease_tissue_map p) (arg_smoothing args) with
      | (w, Raise e) => (w, Raise e)
      | (w, Ok _) =>
          match generate_output_report fmt_2f fmt_6f str_float pickle_loads now
                  r_image_exists (files w) (arg_save_path args) run_time
                  (input_path args) (arg_disease_data args) with
          | (fs', r) => (mkWorld fs' (calls w), r)
          end
      end
  end.

(** The status the Python process ends with: 0 after a normal return, 1
    after an uncaught exception. *)
Definition exit_code (args : Args) (fs : gmap string file) : Z :=
  match snd (main fs args) with
  | Ok _ => 0
  | Raise _ => 1
  end.
End Main.

(** The column name contains "sex" or "gender", letter case ignored. *)
Definition names_sex (col : string) : Prop :=
  ∃ pre post, Str.lower col = pre +:+ "sex" +:+ post
              ∨ Str.lower col = pre +:+ "gender" +:+ post.

(** ** Sample data

    A small observation sheet and its command line, used to run the
    definitions on concrete inputs. *)

Definition row_of (cells : list (string * value)) : Row :=
  fun col => Dict.get cells col.

Definition num (n : Z) : value := VNum (inject_Z n).

Definition sheet1 : DataFrame :=
  mkFrame ["ID"; "Age"; "Sex"; "WM_FA"]
    [row_of [("ID", num 1); ("Age", num 10); ("Sex", VStr "F"); ("WM_FA", num 5)];
     row_of [("ID", num 2); ("Age", num 39); ("WM_FA", num 6)];
     row_of [("ID", num 3); ("Age", num 80); ("Sex", VStr "M")];
     row_of [("ID", num 4); ("Age", num 68); ("Sex", VStr "M"); ("WM_FA", num 7)]].

Definition read1 (path : string) : res DataFrame :=
  if String.eqb path "normals.xlsx" then Ok sheet1
  else Raise (FileNotFoundError path).

Definition args1 : Args :=
  mkArgs "normals.xlsx" "Age" (Some ["WM"]) None ["FA"] None false "out".

(** The ages that are present in a data frame, in row order. *)
Definition known_ages (df : DataFrame) (age_column : string) : list Q :=
  omap cell_number (List.map (fun r : Row => r age_column) (rows df)).

(** The cells of a column that exists. *)
Definition cells_of (df : DataFrame) (col : string) : list cell :=
  List.map (fun r : Row => r col) (rows df).

(** The histogram call the plot makes for one sex: the ages of its rows,
    the shared edges, the legend entry with the number of its rows, and
    the colour of its position. *)
Definition hist_of (df : DataFrame) (sex_column age_column : string)
    (bins : list (option Q)) (gender color : string) : HistCall :=
  mkHist
    (List.map (fun r : Row => r age_column)
       (List.filter (fun r : Row => cell_is gender (r sex_column)) (rows df)))
    bins
    (legend_label gender
       (List.length (List.filter (fun r : Row => cell_is gender (r sex_column)) (rows df))))
    color.

Definition sheet4 : DataFrame :=
  mkFrame ["Age"; "Gender"; "WM_FA"]
    [row_of [("Age", num 10); ("Gender", VStr "F"); ("WM_FA", num 5)];
     row_of [("Age", num 39); ("Gender", VStr "M"); ("WM_FA", num 6)];
     row_of [("Age", num 80); ("Gender", VStr "X"); ("WM_FA", num 7)];
     row_of [("Age", num 68); ("Gender", VStr "U"); ("WM_FA", num 7)]].

Definition sheet2 : DataFrame :=
  mkFrame ["Age"; "Sex"; "WM_FA"]
    [row_of [("Age", num 10); ("Sex", VStr "F"); ("WM_FA", num 5)];
     row_of [("Age", num 39); ("Sex", VStr "M"); ("WM_FA", num 6)];
     row_of [("Age", num 80); ("Sex", VStr "F"); ("WM_FA", num 7)];
     row_of [("Age", num 68); ("Sex", VStr "M"); ("WM_FA", num 7)]].

(** Model parameters of one fit, and the parameters per sex of a biomarker
    that was fitted for F only. *)
Definition params1 : ModelParams :=
  mkParams "NO" (Some [inject_Z 120]) (Some [inject_Z 3]) (Some [inject_Z 1])
           None None
           {["Age" := [inject_Z 2]; "(Intercept)" := [inject_Z 7]]}.

Definition params_F_only (gender : string) : option ModelParams :=
  if String.eqb gender "F" then Some params1 else None.

(** What a table row says about the sexes: it has a cell for every sex, in
    the order of [sorted genders], and the cell of a sex for which [blank]
    holds is "N/A". *)
Definition row_of_sexes (genders : gset string) (blank : string -> Prop)
    (cells : list string) : Prop :=
  List.length cells = size genders
  /\ forall i g, sorted genders !! i = Some g -> blank g -> cells !! i = Some "N/A".

(** The sex has no model for the biomarker, or its model lacks the
    parameter read by [get]. *)
Definition lacks {A} (params : string -> option ModelParams)
    (get : ModelParams -> option A) (gender : string) : Prop :=
  params gender = None \/ exists p, params gender = Some p /\ get p = None.

(** Normal subjects of one sex, and a disease sheet whose only FA column
    has no value for that sex. *)
Definition normalsF : DataFrame :=
  mkFrame ["Age"; "Sex"; "WM_MD"; "WM_FA"]
    [row_of [("Age", num 10); ("Sex", VStr "F"); ("WM_MD", num 3); ("WM_FA", num 5)];
     row_of [("Age", num 80); ("Sex", VStr "F"); ("WM_MD", num 4); ("WM_FA", num 7)]].

Definition diseaseF : DataFrame :=
  mkFrame ["Age"; "Sex"; "GM_FA"]
    [row_of [("Age", num 50); ("Sex", VStr "F")]].

Definition result1 : RResult :=
  mkRResult ["NO"] (Some [inject_Z 120]) (Some [inject_Z 3]) (Some [inject_Z 1])
            None None {["Age" := [inject_Z 2]]} (mkFrame ["Age"; "c50"] []).

Definition entry1 : Entry :=
  mkEntry (mkParams "NO" (Some [inject_Z 120]) (Some [inject_Z 3]) (Some [inject_Z 1])
                    None None {["Age" := [inject_Z 2]]})
          (mkFrame ["Age"; "c50"] []).

Definition fit_fails : FitArgs -> res RResult :=
  fun _ => Raise (RRuntimeError "the model did not converge").

Definition fit_succeeds : FitArgs -> res RResult := fun _ => Ok result1.

(** ** What the report needs of a fit

    The report reads element 0 of every vector that is present and
    converts the AIC with [float]: a result is well formed when these
    reads succeed. *)

Definition wf_vector (o : option (list Q)) : bool :=
  match o with
  | Some [] => false
  | _ => true
  end.

Definition wf_scalar (o : option (list Q)) : bool :=
  match o with
  | None | Some [_] => true
  | _ => false
  end.

Definition wf_coefs (m : gmap string (list Q)) : bool :=
  bool_decide (map_Forall (fun _ v => v <> []) m).

Definition wf_params (p : ModelParams) : bool :=
  wf_scalar (aic p) && wf_vector (mu p) && wf_vector (sigma p)
  && wf_vector (nu p) && wf_vector (tau p) && wf_coefs (coefs p).

Definition wf_result (r : RResult) : bool :=
  wf_scalar (rx_aic r) && wf_vector (rx_mu r) && wf_vector (rx_sigma r)
  && wf_vector (rx_nu r) && wf_vector (rx_tau r) && wf_coefs (rx_coefficients r).

(** The names [main] looks for: every tissue with every biomarker type. *)
Definition candidate_names (tissue_types biomarker_types : list string)
  : list string :=
  List.flat_map
    (fun tissue => List.map (fun biomarker => tissue +:+ "_" +:+ biomarker)
                            biomarker_types)
    tissue_types.

(** Every biomarker column found has its tissue in the map. *)
Definition mapped (acc : BiomarkerColumns) : Prop :=
  Forall (fun c => is_Some (biomarker_tissue_map acc !! c)) (biomarker_columns acc).

(** What holds of the loop's locals after every round: the entries stored
    are well formed and stored under one of the biomarkers, and so is the
    result still held in [result]. *)
Definition loop_inv (biomarkers : list string) (st : LoopState) : Prop :=
  (forall t s b e, results_get (results st) t s b = Some e ->
                   wf_params (model_parameters e) = true /\ b ∈ biomarkers)
  /\ (forall r, result_var st = Some r -> wf_result r = true).

(** What the report needs of the results it loads. *)
Definition results_wf (rs : Results) : Prop :=
  forall t s b e, results_get rs t s b = Some e ->
                  wf_params (model_parameters e) = true /\ Str.has_char "_" b = true.

(** The results the combination loop builds from what [setup] prepared. *)
Definition loop_results (R : FitArgs -> res RResult) (args : Args) (p : Prepared)
  : Results :=
  results
    (fst (combination_loop R (arg_save_path args) (age_col args) (p_sex_column p)
            (arg_smoothing args) (p_disease_tissue_map p) (p_input_data p)
            (p_disease_data p) (biomarker_columns (p_biomarkers p))
            (biomarker_tissue_map (p_biomarkers p)) (p_tissue_types p)
            (p_sex_labels p))).

(** The fatal setup errors: R is not installed, or the sheet (after the
    cohort filter) has no sex or gender column, or it has none of the
    expected biomarker columns. *)
Definition fatal_setup_error (read_excel : string -> res DataFrame)
    (probe : r_probe) (args : Args) : Prop :=
  probe = RNotFound
  \/ exists sheet raw,
       read_excel (input_path args) = Ok sheet
       /\ group_filter args sheet = Ok raw
       /\ (Forall (fun c => ~ names_sex c) (columns raw)
           \/ Forall (fun c => c ∉ columns raw)
                 (candidate_names
                    (default ["GM"; "WM"] (nonempty_list (arg_tissue_types args)))
                    (biomarker_types args))).

(** A sheet with four sexes, and a script that fails for one biomarker. *)
Definition read4 (path : string) : res DataFrame :=
  if String.eqb path "normals.xlsx" then Ok sheet4
  else Raise (FileNotFoundError path).

Definition read2 (path : string) : res DataFrame :=
  if String.eqb path "normals.xlsx" then Ok normalsF
  else Raise (FileNotFoundError path).

Definition args2 : Args :=
  mkArgs "normals.xlsx" "Age" (Some ["WM"]) None ["MD"; "FA"] None false "out".

Definition fit_mixed (args : FitArgs) : res RResult :=
  if String.eqb (fa_column_y args) "WM_MD"
  then Raise (RRuntimeError "the model did not converge")
  else Ok result1.

(** The command lines that lead [main] to the loops of C2 and C3: the
    normal sheet with the disease sheet of one sex. *)
Definition read3 (path : string) : res DataFrame :=
  if String.eqb path "normals.xlsx" then Ok normalsF
  else if String.eqb path "tumour.xlsx" then Ok diseaseF
  else Raise (FileNotFoundError path).

Definition args3 (types : list string) : Args :=
  mkArgs "normals.xlsx" "Age" (Some ["WM"]) (Some "tumour.xlsx") types None false "out".

(** ** Further sample data *)

(** The columns of a disease sheet with two tumour compartments. *)
Definition tumour_columns : list string :=
  ["Age"; "Sex"; "Tumour_Core_FA"; "Edema_FA"; "Edema_MD"; "FA_notes"].

Definition tumour_sheet : DataFrame :=
  mkFrame tumour_columns
    [row_of [("Age", num 50); ("Sex", VStr "F"); ("Tumour_Core_FA", num 2);
             ("Edema_MD", num 9)];
     row_of [("Sex", VStr "F"); ("Tumour_Core_FA", num 3); ("Edema_FA", num 4)];
     row_of [("Age", num 61); ("Sex", VStr "M"); ("Tumour_Core_FA", num 5);
             ("Edema_FA", num 6)]].

Definition read5 (path : string) : res DataFrame :=
  if String.eqb path "normals.xlsx" then Ok normalsF
  else if String.eqb path "tumour.xlsx" then Ok tumour_sheet
  else Raise (FileNotFoundError path).

(** A sheet with a cohort column. *)
Definition cohort_sheet : DataFrame :=
  mkFrame ["Age"; "Sex"; "Cohort"; "WM_FA"]
    [row_of [("Age", num 10); ("Sex", VStr "F"); ("Cohort", VStr "HC"); ("WM_FA", num 5)];
     row_of [("Age", num 39); ("Sex", VStr "M"); ("Cohort", VStr "AD"); ("WM_FA", num 6)];
     row_of [("Age", num 80); ("Sex", VStr "F"); ("WM_FA", num 7)];
     row_of [("Age", num 68); ("Sex", VStr "M"); ("Cohort", VStr "HC"); ("WM_FA", num 7)]].

Definition args_group (group : option (list string)) : Args :=
  mkArgs "normals.xlsx" "Age" (Some ["WM"]) None ["FA"] group false "out".

(** The tissue map agrees with the columns found: its keys are these
    columns, and the tissue of a key is a requested tissue that, joined to
    a requested type, gives the key. *)
Definition column_map_sound (tissue_types biomarker_types : list string)
    (acc : BiomarkerColumns) : Prop :=
  (forall c, is_Some (biomarker_tissue_map acc !! c) <-> c ∈ biomarker_columns acc)
  /\ (forall c t, biomarker_tissue_map acc !! c = Some t ->
                  t ∈ tissue_types
                  /\ exists b, b ∈ biomarker_types /\ c = t +:+ "_" +:+ b).

(** ** The combinations of a run *)

(** [input_data[input_data[sex_column] == s]] when the column exists *)
Definition rows_of_sex (input_data : DataFrame) (sex_column s : string) : DataFrame :=
  mkFrame (columns input_data)
          (List.filter (fun r : Row => cell_is s (r sex_column)) (rows input_data)).

(** The (sex, tissue, biomarker) combinations in the order in which the
    loop attempts them. *)
Definition combinations (sex_labels tissue_types biomarkers : list string)
    (btm : gmap string string) : list (string * string * string) :=
  List.flat_map
    (fun s =>
       List.flat_map
         (fun t =>
            List.map (fun b => (s, t, b))
                     (List.filter (fun b => bool_decide (btm !! b = Some t)) biomarkers))
         tissue_types)
    sex_labels.

(** The entry stored for a call of the script: none when the call raises
    or its result has no model type. *)
Definition entry_of (R : FitArgs -> res RResult) (args : FitArgs) : option Entry :=
  match R args with
  | Ok r =>
      match build_model_params r with
      | Ok model_params => Some (mkEntry model_params (rx_centile_data r))
      | Raise _ => None
      end
  | Raise _ => None
  end.

(** The call made for a combination in a run without disease data. *)
Definition plain_call (save_path age_column sex_column : string) (smoothing : bool)
    (input_data : DataFrame) (c : string * string * string) : FitArgs :=
  plain_args save_path age_column smoothing c.1.1 c.2
             (rows_of_sex input_data sex_column c.1.1).

(** What holds after the combinations [done] of a run without disease
    data: one call each, in order, and an entry exactly for those whose
    call gave a result with a model type. *)
Definition plain_inv (R : FitArgs -> res RResult)
    (save_path age_column sex_column : string) (smoothing : bool)
    (input_data : DataFrame) (st : LoopState)
    (done : list (string * string * string)) : Prop :=
  r_calls st
  = List.map (plain_call save_path age_column sex_column smoothing input_data) done
  /\ forall t s b,
       results_get (results st) t s b
       = if bool_decide ((s, t, b) ∈ done)
         then entry_of R (plain_call save_path age_column sex_column smoothing
                                     input_data (s, t, b))
         else None.


(** One row of the disease table handed to the R script for [biomarker]
    and sex [s]: it comes from a row of that sex of the disease sheet, read
    at the age column and at one of the disease columns selected for the
    biomarker, both present, with the tissue the map gives that column. *)
Definition disease_row_ok (age_column sex_column : string)
    (dtm : option (Dict.t string)) (disease_data : option DataFrame)
    (biomarker s : string) (dr : DiseaseRow) : Prop :=
  exists m dd col r,
    dtm = Some m /\ disease_data = Some dd
    /\ col ∈ disease_cols (Dict.keys m) biomarker
    /\ r ∈ rows dd /\ cell_is s (r sex_column) = true
    /\ r age_column = Some (d_age dr) /\ r col = Some (d_value dr)
    /\ Dict.get m col = Some (d_tissue dr).

(** What every call of the R script made by the loop looks like. *)
Definition call_ok (save_path age_column sex_column : string) (smoothing : bool)
    (dtm : option (Dict.t string)) (input_data : DataFrame)
    (disease_data : option DataFrame) (biomarkers : list string)
    (btm : gmap string string) (tissue_types sex_labels : list string)
    (a : FitArgs) : Prop :=
  fa_script a = script_path smoothing
  /\ fa_column_x a = age_column
  /\ fa_save_path a = save_path
  /\ fa_sex a ∈ sex_labels
  /\ fa_column_y a ∈ biomarkers
  /\ (exists t, t ∈ tissue_types /\ btm !! fa_column_y a = Some t
                /\ forall d, fa_disease a = Some d -> snd d = t)
  /\ fa_input_data a = rows_of_sex input_data sex_column (fa_sex a)
  /\ forall d, fa_disease a = Some d ->
       fst d <> []
       /\ Forall (disease_row_ok age_column sex_column dtm disease_data
                    (fa_column_y a) (fa_sex a)) (fst d).


(** The entry was made from a result the script returned on one of the
    calls. *)
Definition entry_from (R : FitArgs -> res RResult) (calls : list FitArgs)
    (e : Entry) : Prop :=
  exists a r mp,
    a ∈ calls /\ R a = Ok r /\ build_model_params r = Ok mp
    /\ e = mkEntry mp (rx_centile_data r).

(** What holds of the stored entries and of [result] after every round. *)
Definition stored_inv (R : FitArgs -> res RResult) (biomarkers : list string)
    (btm : gmap string string) (tissue_types sex_labels : list string)
    (st : LoopState) : Prop :=
  (forall t s b e,
     results_get (results st) t s b = Some e ->
     s ∈ sex_labels /\ t ∈ tissue_types /\ b ∈ biomarkers /\ btm !! b = Some t
     /\ entry_from R (r_calls st) e)
  /\ (forall r, result_var st = Some r -> exists a, a ∈ r_calls st /\ R a = Ok r).


(** A sheet with two sexes, for runs of the plot on labels of the caller's
    choice. *)
Definition sheet_FM : DataFrame :=
  mkFrame ["Age"; "Sex"; "WM_FA"]
    [row_of [("Age", num 10); ("Sex", VStr "F"); ("WM_FA", num 5)];
     row_of [("Age", num 80); ("Sex", VStr "M"); ("WM_FA", num 7)]].


(** The image files a flowable embeds. *)
Definition cell_image_paths (c : figure_cell) : list string :=
  match c with
  | CellImage path _ _ => [path]
  | CellParagraph _ _ => []
  end.

Definition image_paths (f : flowable) : list string :=
  match f with
  | Image path _ _ => [path]
  | FigureTable row => List.flat_map cell_image_paths row
  | _ => []
  end.

(** Results with one fitted combination, and a save directory that holds
    their pickle. *)
Definition results1 : Results := {["WM" := {["F" := {["WM_FA" := entry1]}]}]}.

Definition files1 : gmap string file := {["out/results.pkl" := PickleFile []]}.


(** The column holds no number: its cells are text labels or missing.  The
    labels that [unique] reads off such a column are all the values that
    pandas finds in it. *)
Definition text_cell (c : cell) : bool :=
  match c with
  | Some (VNum _) => false
  | _ => true
  end.

Definition text_labels (df : DataFrame) (col : string) : Prop :=
  Forall (fun r : Row => text_cell (r col) = true) (rows df).

(** The columns of a disease sheet whose biomarker types have an underscore
    of their own. *)
Definition micro_columns : list string :=
  ["Age"; "Sex"; "T_Damage_Micro"; "T_Integrity_Micro"; "T_Volume"].

(** Closes a decidable goal on concrete data by evaluation. *)
Ltac by_compute := apply (bool_decide_unpack _); vm_compute; exact I.

(** * Properties *)

(** ** Strings *)

Lemma app_nil_l_str (s : string) : EmptyString +:+ s = s.
Proof. reflexivity. Qed.

Lemma app_cons_str (c : ascii) (s1 s2 : string) :
  String c s1 +:+ s2 = String c (s1 +:+ s2).
Proof. reflexivity. Qed.

Lemma app_assoc_str (s1 s2 s3 : string) : (s1 +:+ s2) +:+ s3 = s1 +:+ (s2 +:+ s3).
Proof.
  induction s1 as [|c s1 IH]; [reflexivity|].
  rewrite !app_cons_str. by rewrite IH.
Qed.

Lemma app_nil_r_str (s : string) : s +:+ EmptyString = s.
Proof. induction s as [|c s IH]; [done|]. rewrite app_cons_str. by f_equal. Qed.

Lemma startswith_spec (s p : string) :
  Str.startswith s p = true ↔ ∃ post, s = p +:+ post.
Proof.
  revert s. induction p as [|a p IH]; intros s; simpl.
  - split; [intros _; by exists s | done].
  - destruct s as [|b s].
    + split; [done | intros [post H]; discriminate H].
    + rewrite andb_true_iff, IH, Ascii.eqb_eq. split.
      * intros [-> [post ->]]. by exists post.
      * intros [post H]. rewrite app_cons_str in H. injection H as -> ->. eauto.
Qed.

(** [needle in hay] holds exactly when [hay] is [pre + needle + post]. *)
Lemma contains_spec (hay needle : string) :
  Str.contains hay needle = true ↔ ∃ pre post, hay = pre +:+ needle +:+ post.
Proof.
  induction hay as [|c hay IH]; simpl; rewrite orb_true_iff, startswith_spec.
  - split.
    + intros [[post H] | H]; [|done]. by exists EmptyString, post.
    + intros (pre & post & H). left. destruct pre; [by exists post | discriminate H].
  - rewrite IH. split.
    + intros [[post H] | (pre & post & H)].
      * by exists EmptyString, post.
      * exists (String c pre), post. by rewrite app_cons_str, H.
    + intros (pre & post & H). destruct pre as [|c' pre].
      * left. by exists post.
      * right. rewrite app_cons_str in H. injection H as _ H. eauto.
Qed.

Lemma endswith_spec (s suf : string) :
  Str.endswith s suf = true ↔ ∃ pre, s = pre +:+ suf.
Proof.
  induction s as [|c s IH]; cbn [Str.endswith]; rewrite orb_true_iff, String.eqb_eq.
  - split.
    + intros [<- | H]; [by exists EmptyString | done].
    + intros [pre H]. left. destruct pre; [done | discriminate H].
  - rewrite IH. split.
    + intros [<- | [pre ->]]; [by exists EmptyString | by exists (String c pre)].
    + intros [pre H]. destruct pre as [|c' pre]; [by left|].
      right. rewrite app_cons_str in H. injection H as _ H. eauto.
Qed.

Lemma endswith_contains (s suf : string) :
  Str.endswith s suf = true → Str.contains s suf = true.
Proof.
  rewrite endswith_spec, contains_spec. intros [pre ->].
  exists pre, EmptyString. by rewrite app_nil_r_str.
Qed.

Lemma split_nonempty (sep : ascii) (s : string) : Str.split sep s ≠ [].
Proof.
  induction s as [|c s IH]; simpl; [done|].
  destruct (Ascii.eqb c sep); [done|]. by destruct (Str.split sep s).
Qed.

(** A string without the separator is its own single field. *)
Lemma split_no_sep (sep : ascii) (s : string) :
  Str.has_char sep s = false → Str.split sep s = [s].
Proof.
  induction s as [|c s IH]; simpl; [done|].
  rewrite orb_false_iff. intros [Hc Hs]. rewrite Hc, (IH Hs). done.
Qed.

Lemma split_app (sep : ascii) (a b : string) :
  Str.split sep (a +:+ String sep b) = Str.split sep a ++ Str.split sep b.
Proof.
  induction a as [|c a IH].
  - rewrite app_nil_l_str. simpl. by rewrite Ascii.eqb_refl.
  - rewrite app_cons_str. simpl. rewrite IH. destruct (Ascii.eqb c sep); [done|].
    pose proof (split_nonempty sep a). by destruct (Str.split sep a).
Qed.

Lemma last_app_nonempty {A} (l1 l2 : list A) (d : A) :
  l2 ≠ [] → List.last (l1 ++ l2) d = List.last l2 d.
Proof.
  intros H. induction l1 as [|x l1 IH]; [done|].
  simpl. rewrite IH. destruct (l1 ++ l2) eqn:E; [|done].
  by apply app_eq_nil in E as [_ ?].
Qed.

Lemma last_field_app (sep : ascii) (a b : string) :
  Str.last_field sep (a +:+ String sep b) = Str.last_field sep b.
Proof.
  unfold Str.last_field. rewrite split_app.
  apply last_app_nonempty, split_nonempty.
Qed.

(** The biomarker type of a key [tissue_type] is what follows the last
    underscore. *)
Lemma last_field_key (tissue ty : string) :
  Str.has_char "_" ty = false →
  Str.last_field "_" (tissue +:+ "_" +:+ ty) = ty.
Proof.
  intros H. change ("_" +:+ ty) with (String "_" ty).
  rewrite last_field_app. unfold Str.last_field. by rewrite split_no_sep.
Qed.

Example split_biomarker_key :
  Str.split "_" "WM_Damage_Micro" = ["WM"; "Damage"; "Micro"]
  ∧ Str.last_field "_" "WM_Damage_Micro" = "Micro"
  ∧ Str.first_field "_" "Tumour_FA" = "Tumour"
  ∧ split_once "_" "WM_Damage_Micro" = ["WM"; "Damage_Micro"].
Proof. repeat split; reflexivity. Qed.

Example lower_and_paths :
  Str.lower "Patient_SEX" = "patient_sex"
  ∧ is_sex_name "Gender" = true
  ∧ is_sex_name "Age_yrs_" = false
  ∧ path_join "out" "results.pkl" = "out/results.pkl"
  ∧ path_join "out/" "results.pkl" = "out/results.pkl"
  ∧ basename "/data/in/normals.xlsx" = "normals.xlsx".
Proof. repeat split; reflexivity. Qed.

(** ** C1: the disease-column matcher *)

(** C1, as stated, fails: with the disease columns GM_FA and WM_FA and the
    biomarker key WM_FA the matcher selects both columns, not WM_FA alone. *)
Lemma C1_only_WM_FA_refuted :
  disease_cols ["GM_FA"; "WM_FA"] "WM_FA" ≠ ["WM_FA"].
Proof. vm_compute. discriminate. Qed.

(** C1 (amended).  For a biomarker key [tissue_ty] whose type [ty] has no
    underscore, the matcher selects, in their original order, exactly the
    disease columns whose name contains [ty] as a substring.  In particular
    every disease column named [tissue'_ty] is selected whatever its tissue
    prefix, and with the columns GM_FA, WM_FA and the key WM_FA both columns
    are selected. *)
Theorem C1_disease_cols_substring_match
    (keys : list string) (tissue ty : string) :
  Str.has_char "_" ty = false →
  (∀ col, col ∈ disease_cols keys (tissue +:+ "_" +:+ ty) ↔
          col ∈ keys ∧ ∃ pre post, col = pre +:+ ty +:+ post)
  ∧ disease_cols keys (tissue +:+ "_" +:+ ty) `sublist_of` keys
  ∧ (∀ tissue', tissue' +:+ "_" +:+ ty ∈ keys →
                tissue' +:+ "_" +:+ ty ∈ disease_cols keys (tissue +:+ "_" +:+ ty))
  ∧ disease_cols ["GM_FA"; "WM_FA"] "WM_FA" = ["GM_FA"; "WM_FA"].
Proof.
  intros Hty. unfold disease_cols. rewrite (last_field_key _ _ Hty).
  split; [|split; [|split]].
  - intros col. rewrite list_elem_of_In, filter_In, <- list_elem_of_In.
    by rewrite contains_spec.
  - induction keys as [|k keys IH]; simpl; [constructor|].
    destruct (Str.contains k ty); by constructor.
  - intros tissue' Hin. rewrite list_elem_of_In, filter_In, <- list_elem_of_In.
    split; [done|]. apply contains_spec. exists (tissue' +:+ "_"), EmptyString.
    by rewrite app_nil_r_str, app_assoc_str.
  - reflexivity.
Qed.

Lemma C1_disease_cols_substring_match_witness :
  Str.has_char "_" "FA" = false
  ∧ ∀ col, col ∈ disease_cols ["GM_FA"; "Tumour_FA"; "WM_MD"] ("WM" +:+ "_" +:+ "FA") ↔
           col ∈ ["GM_FA"; "Tumour_FA"; "WM_MD"] ∧ ∃ pre post, col = pre +:+ "FA" +:+ post.
Proof.
  split; [reflexivity|].
  apply (C1_disease_cols_substring_match ["GM_FA"; "Tumour_FA"; "WM_MD"] "WM" "FA").
  reflexivity.
Defined.

(** ** The error monad *)

Lemma bind_Ok {A B} (m : res A) (k : A → res B) (b : B) :
  m ≫= k = Ok b ↔ ∃ a, m = Ok a ∧ k a = Ok b.
Proof.
  destruct m as [a|e]; simpl.
  - split; [by exists a | by intros (? & [= <-] & ?)].
  - split; [done | intros (? & ? & ?); congruence].
Qed.

Lemma bind_Ok_l {A B} (a : A) (k : A → res B) : Ok a ≫= k = k a.
Proof. reflexivity. Qed.

Lemma bind_Raise_l {A B} (e : exn) (k : A → res B) : Raise e ≫= k = Raise e.
Proof. reflexivity. Qed.

Lemma bind_Raise {A B} (m : res A) (k : A → res B) (e : exn) :
  m ≫= k = Raise e ↔ m = Raise e ∨ ∃ a, m = Ok a ∧ k a = Raise e.
Proof.
  destruct m as [a|e']; simpl.
  - split; [right; by exists a | intros [? | (? & [= <-] & ?)]; congruence].
  - split; [intros [= ->]; by left | intros [? | (? & ? & ?)]; congruence].
Qed.

(** ** C10: finding the sex column *)

Lemma is_sex_name_spec (col : string) : is_sex_name col = true ↔ names_sex col.
Proof.
  unfold is_sex_name, names_sex. rewrite orb_true_iff, !contains_spec. split.
  - intros [(pre & post & H) | (pre & post & H)]; exists pre, post; auto.
  - intros (pre & post & [H | H]); [left | right]; eauto.
Qed.

Lemma find_first {A} (p : A → bool) (l : list A) (x : A) :
  List.find p l = Some x ↔
  ∃ pre post, l = pre ++ x :: post ∧ p x = true ∧ Forall (λ y, p y = false) pre.
Proof.
  induction l as [|y l IH]; simpl.
  - split; [done | intros (pre & post & H & _); by destruct pre].
  - destruct (p y) eqn:Hy.
    + split.
      * intros [= ->]. by exists [], l.
      * intros (pre & post & H & Hx & Hpre). destruct pre as [|z pre].
        -- by injection H as ->.
        -- injection H as -> _. apply Forall_cons in Hpre as [Hz _]. congruence.
    + rewrite IH. split.
      * intros (pre & post & -> & Hx & Hpre). exists (y :: pre), post.
        split; [done|]. split; [done|]. by constructor.
      * intros (pre & post & H & Hx & Hpre). destruct pre as [|z pre].
        -- injection H as -> _. congruence.
        -- injection H as -> ->. apply Forall_cons in Hpre as [_ Hpre]. eauto.
Qed.

Lemma find_none_Forall {A} (p : A → bool) (l : list A) :
  List.find p l = None ↔ Forall (λ y, p y = false) l.
Proof.
  induction l as [|y l IH]; simpl; [split; [constructor | done]|].
  destruct (p y) eqn:Hy.
  - split; [done | intros [? _]%Forall_cons; congruence].
  - rewrite IH. split; [by constructor | by intros [_ ?]%Forall_cons].
Qed.

Lemma find_sex_column_spec (cols : list string) :
  (∀ col, find_sex_column cols = Ok col ↔
     ∃ pre post, cols = pre ++ col :: post ∧ names_sex col
                 ∧ Forall (λ c, ¬ names_sex c) pre)
  ∧ (∀ e, find_sex_column cols = Raise e ↔
       e = ValueError "No column found for sex/gender - check column names"
       ∧ Forall (λ c, ¬ names_sex c) cols).
Proof.
  assert (Hneg : ∀ l, Forall (λ y, is_sex_name y = false) l
                      ↔ Forall (λ c, ¬ names_sex c) l).
  { intros l. apply Forall_proper; [|done]. intros c.
    rewrite <- is_sex_name_spec. by destruct (is_sex_name c). }
  unfold find_sex_column, next_or_none. split.
  - intros col. destruct (List.find is_sex_name cols) as [found|] eqn:E.
    + pose proof E as E'. apply find_first in E' as (pre & post & Hc & Hf & Hpre).
      assert (found ≠ EmptyString) as Hne by (intros ->; discriminate Hf).
      assert ((match found with
               | EmptyString =>
                   Raise (ValueError "No column found for sex/gender - check column names")
               | String _ _ => Ok found
               end) = Ok found) as -> by by destruct found.
      split.
      * intros [= <-]. exists pre, post. rewrite <- is_sex_name_spec, <- Hneg. done.
      * intros (pre' & post' & Hc' & Hs & Hpre'). f_equal.
        assert (List.find is_sex_name cols = Some col) as Hcol.
        { apply find_first. exists pre', post'.
          rewrite is_sex_name_spec, Hneg. done. }
        congruence.
    + split; [done|]. intros (pre & post & Hc & Hs & _).
      apply find_none_Forall in E. rewrite Hc in E.
      apply Forall_app in E as [_ [Hcol _]%Forall_cons].
      apply is_sex_name_spec in Hs. congruence.
  - intros e. destruct (List.find is_sex_name cols) as [found|] eqn:E.
    + pose proof E as E'. apply find_first in E' as (pre & post & Hc & Hf & Hpre).
      assert (found ≠ EmptyString) as Hne by (intros ->; discriminate Hf).
      destruct found as [|c found]; [done|]. split; [done|].
      intros [_ Hall]. rewrite Hc in Hall.
      apply Forall_app in Hall as [_ [Hcol _]%Forall_cons].
      by apply is_sex_name_spec in Hf.
    + apply find_none_Forall, Hneg in E. split; [by intros [= <-] | by intros [-> _]].
Qed.

(** ** C7: rows with missing cells are dropped *)

Lemma row_complete_spec (subset : list string) (r : Row) :
  row_complete subset r = true ↔ ∀ col, col ∈ subset → r col ≠ None.
Proof.
  unfold row_complete. rewrite forallb_forall. split.
  - intros H col Hin%list_elem_of_In. specialize (H col Hin). by destruct (r col).
  - intros H col Hin%list_elem_of_In. specialize (H col Hin). by destruct (r col).
Qed.

Lemma dropna_Ok (df : DataFrame) (subset : list string) :
  Forall (λ col, col ∈ columns df) subset →
  dropna df subset
  = Ok (mkFrame (columns df) (List.filter (row_complete subset) (rows df))).
Proof.
  intros H. unfold dropna.
  assert (List.find (λ col, negb (has_column df col)) subset = None) as ->; [|done].
  apply find_none_Forall. eapply Forall_impl; [exact H|].
  intros col Hcol. unfold has_column. by rewrite bool_decide_eq_true_2.
Qed.

Lemma dropna_Ok_inv (df df' : DataFrame) (subset : list string) :
  dropna df subset = Ok df' →
  Forall (λ col, col ∈ columns df) subset
  ∧ df' = mkFrame (columns df) (List.filter (row_complete subset) (rows df)).
Proof.
  unfold dropna.
  destruct (List.find _ subset) eqn:E; [done|]. intros [= <-]. split; [|done].
  apply find_none_Forall in E. eapply Forall_impl; [exact E|].
  intros col Hcol. unfold has_column in Hcol.
  apply negb_false_iff, bool_decide_eq_true in Hcol. done.
Qed.

Lemma filter_filter_same {A} (p : A → bool) (l : list A) :
  List.filter p (List.filter p l) = List.filter p l.
Proof.
  induction l as [|x l IH]; simpl; [done|].
  destruct (p x) eqn:E; simpl; rewrite ?E, IH; done.
Qed.

(** Dropping twice is dropping once. *)
Lemma dropna_idempotent (df df' : DataFrame) (subset : list string) :
  dropna df subset = Ok df' → dropna df' subset = Ok df'.
Proof.
  intros [Hcols ->]%dropna_Ok_inv. rewrite dropna_Ok; [|done].
  simpl. by rewrite filter_filter_same.
Qed.

Lemma dropna_rows (df df' : DataFrame) (subset : list string) :
  dropna df subset = Ok df' →
  ∀ r, r ∈ rows df' ↔ r ∈ rows df ∧ ∀ col, col ∈ subset → r col ≠ None.
Proof.
  intros [_ ->]%dropna_Ok_inv r. simpl.
  by rewrite list_elem_of_In, filter_In, <- list_elem_of_In, row_complete_spec.
Qed.

Section SetupFacts.
Variable read_excel : string → res DataFrame.
Variable probe : r_probe.

(** What a successful [setup] computed, step by step. *)
Lemma setup_Ok_inv (args : Args) (p : Prepared) :
  setup read_excel probe args = Ok p →
  ∃ sheet raw,
    read_excel (input_path args) = Ok sheet
    ∧ group_filter args sheet = Ok raw
    ∧ load_disease read_excel args = Ok (p_disease_data p, p_disease_tissue_map p)
    ∧ find_sex_column (columns raw) = Ok (p_sex_column p)
    ∧ p_tissue_types p = default ["GM"; "WM"] (nonempty_list (arg_tissue_types args))
    ∧ p_biomarkers p
      = expected_columns (columns raw) (p_tissue_types p) (biomarker_types args)
    ∧ biomarker_columns (p_biomarkers p) ≠ []
    ∧ dropna raw (p_sex_column p :: biomarker_columns (p_biomarkers p))
      = Ok (p_input_data p)
    ∧ column (p_input_data p) (p_sex_column p)
      = Ok (List.map (λ r : Row, r (p_sex_column p)) (rows (p_input_data p)))
    ∧ p_sex_labels p
      = unique (List.map (λ r : Row, r (p_sex_column p)) (rows (p_input_data p)))
    ∧ check_r_installed probe = Ok ().
Proof.
  unfold setup. intros H.
  apply bind_Ok in H as (sheet & Hsheet & H).
  apply bind_Ok in H as (raw & Hraw & H).
  apply bind_Ok in H as ([dd dtm] & Hdis & H).
  apply bind_Ok in H as (sexc & Hsex & H).
  apply bind_Ok in H as ([] & Hbio & H).
  apply bind_Ok in H as (filtered & Hdrop & H).
  apply bind_Ok in H as (cells & Hcells & H).
  apply bind_Ok in H as ([] & Hprobe & H).
  injection H as <-. simpl.
  exists sheet, raw. repeat (split; [done|]).
  split.
  { intros E. by rewrite E in Hbio. }
  split; [done|].
  unfold column in Hcells |- *.
  destruct (has_column filtered sexc); [|done].
  injection Hcells as <-. done.
Qed.
End SetupFacts.

(** In [main], once the sheet is read and the cohort and disease steps have
    passed, the sex column handed on is the one found, and the [ValueError]
    of the sex column is raised exactly when no column name matches. *)
Lemma setup_sex_column (read_excel : string → res DataFrame) (probe : r_probe)
    (args : Args) (sheet raw : DataFrame)
    (disease : option DataFrame * option (Dict.t string)) :
  read_excel (input_path args) = Ok sheet →
  group_filter args sheet = Ok raw →
  load_disease read_excel args = Ok disease →
  (∀ p, setup read_excel probe args = Ok p →
        find_sex_column (columns raw) = Ok (p_sex_column p))
  ∧ (setup read_excel probe args
     = Raise (ValueError "No column found for sex/gender - check column names")
     ↔ Forall (λ c, ¬ names_sex c) (columns raw)).
Proof.
  intros Hsheet Hraw Hdis. split.
  - intros p Hp.
    destruct (setup_Ok_inv _ _ _ _ Hp) as (sheet' & raw' & Hs & Hr & _ & Hfind & _).
    rewrite Hsheet in Hs. injection Hs as <-.
    rewrite Hraw in Hr. by injection Hr as <-.
  - destruct (find_sex_column_spec (columns raw)) as [_ Hraise].
    unfold setup. rewrite Hsheet, bind_Ok_l, Hraw, bind_Ok_l, Hdis, bind_Ok_l.
    destruct (find_sex_column (columns raw)) as [col|e] eqn:Hfind.
    + rewrite bind_Ok_l. split.
      * intros H. exfalso.
        destruct (biomarker_columns (expected_columns _ _ _)).
        { rewrite bind_Raise_l in H. injection H as H.
          cbv [String.append] in H. discriminate H. }
        rewrite bind_Ok_l in H. unfold dropna in H.
        destruct (List.find _ _); [discriminate H|].
        rewrite bind_Ok_l in H. unfold column in H.
        destruct (has_column _ col); [|discriminate H].
        rewrite bind_Ok_l in H. by destruct probe as [|[| |]].
      * intros Hall. specialize (Hraise (ValueError
          "No column found for sex/gender - check column names")).
        destruct Hraise as [_ Hraise].
        specialize (Hraise (conj eq_refl Hall)). discriminate Hraise.
    + rewrite bind_Raise_l. destruct (proj1 (Hraise e) eq_refl) as [-> Hall].
      done.
Qed.

(** C10.  The sex column is the first column, in column order, whose name
    contains "sex" or "gender" with letter case ignored, and the lookup
    raises its [ValueError] exactly when no column name does. *)
Theorem C10_sex_column_first_match (cols : list string) :
  (∀ col, find_sex_column cols = Ok col ↔
     ∃ pre post, cols = pre ++ col :: post ∧ names_sex col
                 ∧ Forall (λ c, ¬ names_sex c) pre)
  ∧ (∀ e, find_sex_column cols = Raise e ↔
       e = ValueError "No column found for sex/gender - check column names"
       ∧ Forall (λ c, ¬ names_sex c) cols)
  ∧ (∀ read_excel probe args sheet raw disease,
       read_excel (input_path args) = Ok sheet →
       group_filter args sheet = Ok raw →
       columns raw = cols →
       load_disease read_excel args = Ok disease →
       (∀ p, setup read_excel probe args = Ok p →
             find_sex_column cols = Ok (p_sex_column p))
       ∧ (setup read_excel probe args
          = Raise (ValueError "No column found for sex/gender - check column names")
          ↔ Forall (λ c, ¬ names_sex c) cols)).
Proof.
  destruct (find_sex_column_spec cols) as [H1 H2].
  split; [exact H1|]. split; [exact H2|].
  intros read_excel probe args sheet raw disease Hs Hr <- Hd.
  by eapply setup_sex_column.
Qed.

Lemma C10_sex_column_first_match_witness :
  find_sex_column ["ID"; "Age"; "Sex"; "WM_FA"] = Ok "Sex"
  ∧ ∀ p, setup read1 (RExited 0) args1 = Ok p →
         find_sex_column ["ID"; "Age"; "Sex"; "WM_FA"] = Ok (p_sex_column p).
Proof.
  split; [reflexivity|].
  apply (proj2 (proj2 (C10_sex_column_first_match ["ID"; "Age"; "Sex"; "WM_FA"]))
           read1 (RExited 0) args1 sheet1 sheet1 (None, None));
    reflexivity.
Defined.

(** C7.  Whenever [main] gets as far as processing, the data it hands on is
    the (group-filtered) sheet without the rows that miss the sex or one of
    the biomarker columns found; only these rows are dropped; and applying
    the same filter to the filtered data changes nothing. *)
Theorem C7_missing_rows_excluded
    (read_excel : string → res DataFrame) (probe : r_probe) (args : Args) :
  is_ok (setup read_excel probe args) = true →
  ∃ p sheet raw,
    setup read_excel probe args = Ok p
    ∧ read_excel (input_path args) = Ok sheet
    ∧ group_filter args sheet = Ok raw
    ∧ let required := p_sex_column p :: biomarker_columns (p_biomarkers p) in
      dropna raw required = Ok (p_input_data p)
      ∧ (∀ r, r ∈ rows (p_input_data p) ↔
              r ∈ rows raw ∧ ∀ col, col ∈ required → r col ≠ None)
      ∧ dropna (p_input_data p) required = Ok (p_input_data p).
Proof.
  destruct (setup read_excel probe args) as [p|] eqn:E; [intros _ | done].
  destruct (setup_Ok_inv _ _ _ _ E)
    as (sheet & raw & Hs & Hr & _ & _ & _ & _ & _ & Hd & _).
  exists p, sheet, raw. cbv zeta.
  split; [done|]. split; [done|]. split; [done|]. split; [done|].
  split; [by apply dropna_rows | by eapply dropna_idempotent].
Qed.

Lemma C7_missing_rows_excluded_witness :
  is_ok (setup read1 (RExited 0) args1) = true
  ∧ ∃ p sheet raw,
      setup read1 (RExited 0) args1 = Ok p
      ∧ read1 (input_path args1) = Ok sheet
      ∧ group_filter args1 sheet = Ok raw
      ∧ let required := p_sex_column p :: biomarker_columns (p_biomarkers p) in
        dropna raw required = Ok (p_input_data p)
        ∧ (∀ r, r ∈ rows (p_input_data p) ↔
                r ∈ rows raw ∧ ∀ col, col ∈ required → r col ≠ None)
        ∧ dropna (p_input_data p) required = Ok (p_input_data p).
Proof.
  split; [reflexivity|].
  apply (C7_missing_rows_excluded read1 (RExited 0) args1). reflexivity.
Defined.

(** ** The age-distribution plot *)

Lemma column_Ok (df : DataFrame) (col : string) :
  col ∈ columns df → column df col = Ok (cells_of df col).
Proof. intros H. unfold column, has_column. by rewrite bool_decide_eq_true_2. Qed.

Lemma where_eq_Ok (df : DataFrame) (col s : string) :
  col ∈ columns df →
  where_eq df col s
  = Ok (mkFrame (columns df) (List.filter (λ r : Row, cell_is s (r col)) (rows df))).
Proof. intros H. unfold where_eq, has_column. by rewrite bool_decide_eq_true_2. Qed.

Lemma count_label_rows (df : DataFrame) (col g : string) :
  count_label (cells_of df col) g
  = List.length (List.filter (λ r : Row, cell_is g (r col)) (rows df)).
Proof.
  unfold count_label, cells_of. induction (rows df) as [|r l IH]; simpl; [done|].
  destruct (cell_is g (r col)); simpl; by rewrite IH.
Qed.

Lemma unique_from_elem (seen l : list string) (x : string) :
  x ∈ unique_from seen l ↔ x ∈ l ∧ x ∉ seen.
Proof.
  revert seen. induction l as [|y l IH]; intros seen; simpl.
  - rewrite !elem_of_nil. tauto.
  - case_bool_decide as Hy.
    + rewrite IH, elem_of_cons. split; [tauto|].
      intros [[-> | ?] ?]; [done | tauto].
    + rewrite !elem_of_cons, IH, elem_of_cons. split.
      * intros [-> | (? & ?)]; [tauto|]. split; [tauto|]. tauto.
      * intros [[-> | ?] ?]; [tauto|]. destruct (decide (x = y)); [tauto|]. tauto.
Qed.

Lemma elem_label_count (cells : list cell) (g : string) :
  g ∈ omap cell_label cells ↔ (0 < count_label cells g)%nat.
Proof.
  unfold count_label. induction cells as [|c cells IH]; simpl.
  - rewrite elem_of_nil. lia.
  - unfold cell_is at 1. destruct (cell_label c) as [x|] eqn:E; simpl.
    + rewrite elem_of_cons, IH. destruct (String.eqb x g) eqn:Ex; simpl.
      * apply String.eqb_eq in Ex. split; [lia | by left].
      * apply String.eqb_neq in Ex. split; [intros [-> | ?]; [done | done] | tauto].
    + exact IH.
Qed.

(** A label of [unique] has an entry in [value_counts]. *)
Lemma counts_getitem_unique (df : DataFrame) (col g : string) :
  g ∈ unique (cells_of df col) →
  counts_getitem (cells_of df col) g
  = Ok (List.length (List.filter (λ r : Row, cell_is g (r col)) (rows df))).
Proof.
  unfold unique. rewrite unique_from_elem, elem_label_count.
  intros [Hpos _]. unfold counts_getitem, value_counts.
  rewrite <- count_label_rows. by destruct (count_label (cells_of df col) g); [lia|].
Qed.

Section HistLoop.
Variables (input_data : DataFrame) (sex_column age_column : string).
Variable bins : list (option Q).
Hypothesis Hsex : sex_column ∈ columns input_data.
Hypothesis Hage : age_column ∈ columns input_data.

Lemma hist_call_present (i : nat) (g : string) :
  g ∈ unique (cells_of input_data sex_column) →
  hist_call input_data sex_column age_column (cells_of input_data sex_column) bins i g
  = match colors !! i with
    | Some color => Ok (hist_of input_data sex_column age_column bins g color)
    | None => Raise IndexError
    end.
Proof.
  intros Hg. unfold hist_call. rewrite where_eq_Ok by done. simpl.
  rewrite column_Ok by done. simpl. rewrite counts_getitem_unique by done. simpl.
  unfold list_getitem. destruct (colors !! i); done.
Qed.

(** The fourth round, if there is one, asks for a fourth colour. *)
Lemma hist_loop_overflow (i : nat) (labels : list string) :
  labels ⊆ unique (cells_of input_data sex_column) →
  labels ≠ [] → (3 < i + List.length labels)%nat →
  hist_loop input_data sex_column age_column (cells_of input_data sex_column)
    bins i labels = Raise IndexError.
Proof.
  revert i. induction labels as [|g rest IH]; intros i Hsub Hne Hlen; [done|].
  simpl. rewrite hist_call_present by (apply Hsub; left).
  destruct (colors !! i) as [color|] eqn:Ec; [|done]. simpl.
  assert (i < 3)%nat as Hi by (apply lookup_lt_Some in Ec; exact Ec).
  rewrite IH; [done| |by destruct rest; simpl in *; [lia|]|simpl in *; lia].
  intros x Hx. apply Hsub. by right.
Qed.

Lemma hist_loop_fits (i : nat) (labels : list string) :
  labels ⊆ unique (cells_of input_data sex_column) →
  (i + List.length labels ≤ 3)%nat →
  ∃ hs, hist_loop input_data sex_column age_column
          (cells_of input_data sex_column) bins i labels = Ok hs
        ∧ Forall2 (λ g h, ∃ color,
                     h = hist_of input_data sex_column age_column bins g color)
                  labels hs.
Proof.
  revert i. induction labels as [|g rest IH]; intros i Hsub Hlen.
  - exists []. split; [done | constructor].
  - simpl. rewrite hist_call_present by (apply Hsub; left).
    destruct (colors !! i) as [color|] eqn:Ec.
    2:{ apply lookup_ge_None in Ec. simpl in *. lia. }
    destruct (IH (S i)) as (hs & Hhs & Hall).
    { intros x Hx. apply Hsub. by right. }
    { simpl in *. lia. }
    simpl. rewrite Hhs. simpl. eexists. split; [done|]. constructor; eauto.
Qed.
End HistLoop.

(** *** Minimum, maximum and the shared edges *)

Lemma qmin_cases (a b : Q) :
  (qmin a b = a ∨ qmin a b = b) ∧ (qmin a b <= a)%Q ∧ (qmin a b <= b)%Q.
Proof.
  unfold qmin. destruct (Qle_bool a b) eqn:E.
  - apply Qle_bool_iff in E. split; [by left|]. split; [apply Qle_refl | done].
  - assert (¬ (a <= b)%Q) as Hn by (rewrite <- Qle_bool_iff; congruence).
    apply Qnot_le_lt, Qlt_le_weak in Hn. split; [by right|].
    split; [done | apply Qle_refl].
Qed.

Lemma qmax_cases (a b : Q) :
  (qmax a b = a ∨ qmax a b = b) ∧ (a <= qmax a b)%Q ∧ (b <= qmax a b)%Q.
Proof.
  unfold qmax. destruct (Qle_bool a b) eqn:E.
  - apply Qle_bool_iff in E. split; [by right|]. split; [done | apply Qle_refl].
  - assert (¬ (a <= b)%Q) as Hn by (rewrite <- Qle_bool_iff; congruence).
    apply Qnot_le_lt, Qlt_le_weak in Hn. split; [by left|].
    split; [apply Qle_refl | done].
Qed.

Lemma fold_qmin (l : list Q) (x : Q) :
  List.fold_left qmin l x ∈ x :: l
  ∧ Forall (λ a, (List.fold_left qmin l x <= a)%Q) (x :: l).
Proof.
  revert x. induction l as [|y l IH]; intros x; simpl.
  - split; [left | constructor; [apply Qle_refl | constructor]].
  - destruct (IH (qmin x y)) as [Hin Hall].
    destruct (qmin_cases x y) as (Hc & Hx & Hy).
    apply Forall_cons in Hall as [Hm Hall]. split.
    + apply elem_of_cons in Hin as [-> | Hin].
      * destruct Hc as [-> | ->]; [left | right; left].
      * right. by right.
    + constructor; [by eapply Qle_trans|]. constructor; [by eapply Qle_trans | done].
Qed.

Lemma fold_qmax (l : list Q) (x : Q) :
  List.fold_left qmax l x ∈ x :: l
  ∧ Forall (λ a, (a <= List.fold_left qmax l x)%Q) (x :: l).
Proof.
  revert x. induction l as [|y l IH]; intros x; simpl.
  - split; [left | constructor; [apply Qle_refl | constructor]].
  - destruct (IH (qmax x y)) as [Hin Hall].
    destruct (qmax_cases x y) as (Hc & Hx & Hy).
    apply Forall_cons in Hall as [Hm Hall]. split.
    + apply elem_of_cons in Hin as [-> | Hin].
      * destruct Hc as [-> | ->]; [left | right; left].
      * right. by right.
    + constructor; [by eapply Qle_trans|]. constructor; [by eapply Qle_trans | done].
Qed.

(** The minimum (maximum) of a column with an age in it is one of its
    ages and bounds them all. *)
Lemma series_min_spec (df : DataFrame) (age_column : string) :
  known_ages df age_column ≠ [] →
  ∃ lo, series_min (cells_of df age_column) = Some lo
        ∧ lo ∈ known_ages df age_column
        ∧ Forall (λ a, (lo <= a)%Q) (known_ages df age_column).
Proof.
  unfold series_min, known_ages, cells_of, reduce_q.
  destruct (omap cell_number _) as [|x l]; [done|]. intros _.
  eexists. split; [done|]. apply fold_qmin.
Qed.

Lemma series_max_spec (df : DataFrame) (age_column : string) :
  known_ages df age_column ≠ [] →
  ∃ hi, series_max (cells_of df age_column) = Some hi
        ∧ hi ∈ known_ages df age_column
        ∧ Forall (λ a, (a <= hi)%Q) (known_ages df age_column).
Proof.
  unfold series_max, known_ages, cells_of, reduce_q.
  destruct (omap cell_number _) as [|x l]; [done|]. intros _.
  eexists. split; [done|]. apply fold_qmax.
Qed.

Lemma linspace_q_length (a b : Q) (n : nat) : List.length (linspace_q a b n) = n.
Proof. unfold linspace_q. by rewrite length_map, length_seq. Qed.

Lemma linspace_q_lookup (a b : Q) (n i : nat) :
  (i < n)%nat →
  linspace_q a b n !! i
  = Some (a + inject_Z (Z.of_nat i) * ((b - a) / inject_Z (Z.of_nat (n - 1))))%Q.
Proof.
  intros Hi. unfold linspace_q.
  change (List.map ?f ?l) with (f <$> l).
  rewrite list_lookup_fmap, lookup_seq_lt by done. done.
Qed.

(** Thirty samples are the edges of twenty-nine bins of one width, from
    the first end point to the last. *)
Lemma linspace_q_30 (a b : Q) :
  List.length (linspace_q a b 30) = 30%nat
  ∧ (∃ e, linspace_q a b 30 !! 0%nat = Some e ∧ (e == a)%Q)
  ∧ (∃ e, linspace_q a b 30 !! 29%nat = Some e ∧ (e == b)%Q)
  ∧ ∀ i, (i < 29)%nat →
      ∃ e e', linspace_q a b 30 !! i = Some e
              ∧ linspace_q a b 30 !! S i = Some e'
              ∧ (e' - e == (b - a) / 29)%Q.
Proof.
  split; [apply linspace_q_length|]. split; [|split].
  - eexists. split; [apply linspace_q_lookup; lia|]. simpl. field.
  - eexists. split; [apply linspace_q_lookup; lia|]. simpl. field.
  - intros i Hi. eexists _, _.
    split; [apply linspace_q_lookup; lia|].
    split; [apply linspace_q_lookup; lia|].
    rewrite Nat2Z.inj_succ. unfold Z.succ. rewrite inject_Z_plus. simpl. field.
Qed.

(** ** C5: the shared binning of the age-distribution plot *)




(** ** C9: more than three sex labels *)



(** ** Loops that may raise *)

Lemma traverse_Ok {A B} (f : A → res B) (l : list A) (ys : list B) :
  traverse f l = Ok ys ↔ Forall2 (λ x y, f x = Ok y) l ys.
Proof.
  revert ys. induction l as [|x l IH]; intros ys; simpl.
  - split; [intros [= <-]; constructor | by intros ->%Forall2_nil_inv_l].
  - rewrite bind_Ok. split.
    + intros (y & Hy & H). apply bind_Ok in H as (ys' & Hys & [= <-]).
      constructor; [done | by apply IH].
    + intros (y & ys' & Hy & Hys & ->)%Forall2_cons_inv_l.
      exists y. split; [done|]. apply bind_Ok. exists ys'. split; [by apply IH | done].
Qed.

Lemma traverse_total {A B} (f : A → res B) (l : list A) :
  Forall (λ x, is_ok (f x) = true) l → is_ok (traverse f l) = true.
Proof.
  induction 1 as [|x l Hx _ IH]; simpl; [done|].
  destruct (f x); [|done]. simpl. by destruct (traverse f l).
Qed.

(** ** C4: the parameter table *)

Lemma sorted_spec (xs : gset string) :
  StronglySorted String.le (sorted xs)
  ∧ NoDup (sorted xs)
  ∧ (∀ x, x ∈ sorted xs ↔ x ∈ xs)
  ∧ List.length (sorted xs) = size xs.
Proof.
  unfold sorted. pose proof (merge_sort_Permutation String.le (elements xs)) as Hp.
  split; [apply (StronglySorted_merge_sort _)|]. split; [|split].
  - rewrite Hp. apply NoDup_elements.
  - intros x. by rewrite Hp, elem_of_elements.
  - by rewrite Hp.
Qed.

Lemma param_names_spec (genders : gset string)
    (params : string → option ModelParams) (name : string) :
  name ∈ param_names genders params ↔
  ∃ gender p, gender ∈ genders ∧ params gender = Some p ∧ is_Some (coefs p !! name).
Proof.
  unfold param_names. rewrite elem_of_union_list. split.
  - intros (X & HX & Hname). apply list_elem_of_In, in_map_iff in HX as (g & <- & Hg).
    apply list_elem_of_In, elem_of_elements in Hg.
    destruct (params g) as [p|] eqn:E; [|set_solver].
    exists g, p. by rewrite <- elem_of_dom.
  - intros (g & p & Hg & Hp & Hname). exists (dom (coefs p)).
    split; [|by apply elem_of_dom].
    apply list_elem_of_In, in_map_iff. exists g. rewrite Hp.
    split; [done|]. by apply list_elem_of_In, elem_of_elements.
Qed.

Section TableShape.
Variables fmt_2f fmt_6f str_float : Q → string.
Variable genders : gset string.
Variable params : string → option ModelParams.

Lemma cells_per_gender (cellf : string → res string) (blank : string → Prop)
    (cells : list string) :
  (∀ g, blank g → cellf g = Ok "N/A") →
  traverse cellf (sorted genders) = Ok cells →
  row_of_sexes genders blank cells.
Proof.
  intros Hblank H%traverse_Ok. split.
  - apply Forall2_length in H. rewrite <- H. apply sorted_spec.
  - intros i g Hg Hb. destruct (Forall2_lookup_l _ _ _ _ _ H Hg) as (c & Hc & Hcell).
    rewrite (Hblank g Hb) in Hcell. by injection Hcell as <-.
Qed.

Lemma dist_row_Ok (name : string) (get : ModelParams → option (list Q))
    (row : list string) :
  dist_row str_float genders params (name, get) = Ok row →
  ∃ cells, row = name :: cells ∧ row_of_sexes genders (lacks params get) cells.
Proof.
  unfold dist_row. intros H. apply bind_Ok in H as (cells & Hc & [= <-]).
  simpl in Hc. exists cells. split; [done|].
  apply (cells_per_gender (dist_cell str_float params get)); [|done].
  intros g [Hg | (p & Hg & Hp)]; unfold dist_cell; rewrite Hg; [done|].
  by rewrite Hp.
Qed.

Lemma coef_row_Ok (name : string) (row : list string) :
  coef_row fmt_6f genders params name = Ok row →
  ∃ cells, row = name :: cells
           ∧ row_of_sexes genders (lacks params (λ p, coefs p !! name)) cells.
Proof.
  unfold coef_row. intros H. apply bind_Ok in H as (cells & Hc & [= <-]).
  exists cells. split; [done|].
  apply (cells_per_gender (coef_cell fmt_6f params name)); [|done].
  intros g [Hg | (p & Hg & Hp)]; unfold coef_cell; rewrite Hg; [done|].
  by rewrite Hp.
Qed.

Lemma aic_cells_Ok (cells : list string) :
  traverse (aic_cell fmt_2f params) (sorted genders) = Ok cells →
  row_of_sexes genders (lacks params aic) cells.
Proof.
  apply cells_per_gender.
  intros g [Hg | (p & Hg & Hp)]; unfold aic_cell; rewrite Hg; [done|].
  by rewrite Hp.
Qed.

Lemma model_cells_spec :
  row_of_sexes genders (λ g, params g = None)
               (List.map (model_cell params) (sorted genders)).
Proof.
  split; [rewrite List.length_map; apply sorted_spec|].
  intros i g Hg Hp. change (List.map ?f ?l) with (f <$> l).
  rewrite list_lookup_fmap, Hg. simpl. unfold model_cell. by rewrite Hp.
Qed.
End TableShape.

(** The table of a biomarker fitted for F only, with the sexes F and M. *)
Example table_F_only :
  table_data (λ _, "120.00") (λ _, "1.000000") (λ _, "3.0") {["F"; "M"]} params_F_only
  = Ok [["Parameter"; "Value (F)"; "Value (M)"];
        ["Best model family"; "NO"; "N/A"];
        ["AIC"; "120.00"; "N/A"];
        ["(Intercept)"; "1.000000"; "N/A"];
        ["Age"; "1.000000"; "N/A"];
        ["mu"; "3.0"; "N/A"];
        ["sigma"; "3.0"; "N/A"];
        ["nu"; "N/A"; "N/A"];
        ["tau"; "N/A"; "N/A"]].
Proof. vm_compute. reflexivity. Qed.

(** In the report the table of a biomarker section is [table_data] on the
    parameters stored for the tissue, and a sex has no parameters exactly
    when the biomarker is absent from its results for the tissue. *)
Lemma biomarker_section_table
    (fmt_2f fmt_6f str_float : Q → string) (r_image_exists : string → bool)
    (fs : gmap string file) (results_folder : string)
    (disease_tissue : option string) (genders : gset string) (tissue : string)
    (tissue_data : gmap string (gmap string Entry)) (biomarker : string)
    (content : list flowable) :
  biomarker_section fmt_2f fmt_6f str_float r_image_exists fs results_folder
    disease_tissue genders tissue tissue_data biomarker = Ok content →
  (∃ data, table_data fmt_2f fmt_6f str_float genders
             (params_of tissue_data biomarker) = Ok data
           ∧ Table data ∈ content)
  ∧ ∀ g, params_of tissue_data biomarker g = None
         ↔ default ∅ (tissue_data !! g) !! biomarker = None.
Proof.
  unfold biomarker_section. intros H.
  apply bind_Ok in H as (data & Hdata & H).
  apply bind_Ok in H as (figures & _ & H).
  apply bind_Ok in H as (residuals & _ & [= <-]).
  split.
  - exists data. split; [done|]. set_solver.
  - intros g. unfold params_of, gender_data.
    by destruct (default ∅ (tissue_data !! g) !! biomarker).
Qed.

(** C4.  A rendered parameter table is, after its header: the row of the
    model family, the row of the AIC, one row per coefficient name in
    increasing order of the names (the names of all sexes, each once), and
    the rows of mu, sigma, nu and tau in that order.  Every row has a cell
    for every sex; the cell is "N/A" where the biomarker is absent for the
    sex, and also where the sex's model lacks the coefficient or the
    distribution parameter. *)
Theorem C4_parameter_table_rows
    (fmt_2f fmt_6f str_float : Q → string) (genders : gset string)
    (params : string → option ModelParams) :
  is_ok (table_data fmt_2f fmt_6f str_float genders params) = true →
  ∃ data aic_cells coef_rows mu_cells sigma_cells nu_cells tau_cells,
    table_data fmt_2f fmt_6f str_float genders params = Ok data
    ∧ data = header genders
             :: ("Best model family" :: List.map (model_cell params) (sorted genders))
             :: ("AIC" :: aic_cells)
             :: coef_rows
             ++ ["mu" :: mu_cells; "sigma" :: sigma_cells;
                 "nu" :: nu_cells; "tau" :: tau_cells]
    ∧ row_of_sexes genders (λ g, params g = None)
                   (List.map (model_cell params) (sorted genders))
    ∧ row_of_sexes genders (lacks params aic) aic_cells
    ∧ Forall2 (λ name row,
                 ∃ cells, row = name :: cells
                          ∧ row_of_sexes genders
                              (lacks params (λ p, coefs p !! name)) cells)
              (sorted (param_names genders params)) coef_rows
    ∧ StronglySorted String.le (sorted (param_names genders params))
    ∧ NoDup (sorted (param_names genders params))
    ∧ (∀ name, name ∈ sorted (param_names genders params) ↔
         ∃ g p, g ∈ genders ∧ params g = Some p ∧ is_Some (coefs p !! name))
    ∧ row_of_sexes genders (lacks params mu) mu_cells
    ∧ row_of_sexes genders (lacks params sigma) sigma_cells
    ∧ row_of_sexes genders (lacks params nu) nu_cells
    ∧ row_of_sexes genders (lacks params tau) tau_cells.
Proof.
  destruct (table_data fmt_2f fmt_6f str_float genders params) as [data|] eqn:E;
    [intros _ | done].
  unfold table_data in E.
  apply bind_Ok in E as (aic_cells & Haic & E).
  apply bind_Ok in E as (coef_rows & Hcoef & E).
  apply bind_Ok in E as (dist_rows & Hdist & [= <-]).
  apply traverse_Ok in Hdist. unfold dist_params in Hdist.
  apply Forall2_cons_inv_l in Hdist as (r1 & l1 & H1 & Hdist & ->).
  apply Forall2_cons_inv_l in Hdist as (r2 & l2 & H2 & Hdist & ->).
  apply Forall2_cons_inv_l in Hdist as (r3 & l3 & H3 & Hdist & ->).
  apply Forall2_cons_inv_l in Hdist as (r4 & l4 & H4 & Hdist & ->).
  apply Forall2_nil_inv_l in Hdist as ->.
  apply dist_row_Ok in H1 as (mu_cells & -> & Hmu).
  apply dist_row_Ok in H2 as (sigma_cells & -> & Hsigma).
  apply dist_row_Ok in H3 as (nu_cells & -> & Hnu).
  apply dist_row_Ok in H4 as (tau_cells & -> & Htau).
  eexists _, aic_cells, coef_rows, mu_cells, sigma_cells, nu_cells, tau_cells.
  split; [done|]. split; [done|].
  split; [apply model_cells_spec|].
  split; [by eapply aic_cells_Ok|].
  split.
  { apply traverse_Ok in Hcoef. eapply Forall2_impl; [exact Hcoef|].
    intros name row Hrow. exact (coef_row_Ok _ _ _ _ _ Hrow). }
  destruct (sorted_spec (param_names genders params)) as (Hs & Hnd & Hin & _).
  split; [done|]. split; [done|].
  split; [intros name; by rewrite Hin, param_names_spec|].
  done.
Qed.

Lemma C4_parameter_table_rows_witness :
  ∃ data aic_cells coef_rows mu_cells sigma_cells nu_cells tau_cells,
    table_data (λ _, "120.00") (λ _, "1.000000") (λ _, "3.0") {["F"; "M"]} params_F_only
    = Ok data
    ∧ data = header {["F"; "M"]}
             :: ("Best model family"
                   :: List.map (model_cell params_F_only) (sorted {["F"; "M"]}))
             :: ("AIC" :: aic_cells)
             :: coef_rows
             ++ ["mu" :: mu_cells; "sigma" :: sigma_cells;
                 "nu" :: nu_cells; "tau" :: tau_cells]
    ∧ row_of_sexes {["F"; "M"]} (λ g, params_F_only g = None)
                   (List.map (model_cell params_F_only) (sorted {["F"; "M"]}))
    ∧ row_of_sexes {["F"; "M"]} (lacks params_F_only aic) aic_cells
    ∧ Forall2 (λ name row,
                 ∃ cells, row = name :: cells
                          ∧ row_of_sexes {["F"; "M"]}
                              (lacks params_F_only (λ p, coefs p !! name)) cells)
              (sorted (param_names {["F"; "M"]} params_F_only)) coef_rows
    ∧ StronglySorted String.le (sorted (param_names {["F"; "M"]} params_F_only))
    ∧ NoDup (sorted (param_names {["F"; "M"]} params_F_only))
    ∧ (∀ name, name ∈ sorted (param_names {["F"; "M"]} params_F_only) ↔
         ∃ g p, g ∈ ({["F"; "M"]} : gset string) ∧ params_F_only g = Some p
                ∧ is_Some (coefs p !! name))
    ∧ row_of_sexes {["F"; "M"]} (lacks params_F_only mu) mu_cells
    ∧ row_of_sexes {["F"; "M"]} (lacks params_F_only sigma) sigma_cells
    ∧ row_of_sexes {["F"; "M"]} (lacks params_F_only nu) nu_cells
    ∧ row_of_sexes {["F"; "M"]} (lacks params_F_only tau) tau_cells.
Proof.
  apply (C4_parameter_table_rows (λ _, "120.00") (λ _, "1.000000") (λ _, "3.0")
           {["F"; "M"]} params_F_only).
  vm_compute. reflexivity.
Defined.

(** ** C2: matched disease columns without usable rows *)

(** The loops evaluated for C2 and C3 are the ones [main] runs for the
    command lines [args3]. *)
Lemma sample_runs_prepared :
  setup read3 (RExited 0) (args3 ["FA"])
  = Ok (mkPrepared normalsF (mkBiomarkerColumns ["WM_FA"] [] {["WM_FA" := "WM"]})
                   ["WM"] "Sex" ["F"] (Some diseaseF) (Some [("GM_FA", "GM")]))
  ∧ setup read3 (RExited 0) (args3 ["MD"; "FA"])
    = Ok (mkPrepared normalsF
            (mkBiomarkerColumns ["WM_MD"; "WM_FA"] []
                                {["WM_MD" := "WM"; "WM_FA" := "WM"]})
            ["WM"] "Sex" ["F"] (Some diseaseF) (Some [("GM_FA", "GM")])).
Proof. split; vm_compute; reflexivity. Qed.

(** C2 fails on the code.  One sex F, one tissue WM, the biomarker WM_FA,
    and a disease sheet whose column GM_FA matches the biomarker but holds
    no value for F: whatever the fitting script would do, it is not called,
    reading [result] raises [UnboundLocalError], and no entry is stored for
    the combination (only the empty dictionaries of the tissue and the
    sex).  When the disease sheet has no matching column at all, the
    script is called and its result stored. *)
Theorem C2_empty_disease_subsets_skip_the_fit (R : FitArgs → res RResult) :
  combination_loop R "out" "Age" "Sex" false (Some [("GM_FA", "GM")])
    normalsF (Some diseaseF) ["WM_FA"] {["WM_FA" := "WM"]} ["WM"] ["F"]
  = (mkLoop {["WM" := {["F" := ∅]}]} None [], Ok ())
  ∧ results_get {["WM" := {["F" := ∅]}]} "WM" "F" "WM_FA" = None
  ∧ combination_loop fit_succeeds "out" "Age" "Sex" false (Some [("GM_MD", "GM")])
      normalsF (Some diseaseF) ["WM_FA"] {["WM_FA" := "WM"]} ["WM"] ["F"]
    = (mkLoop {["WM" := {["F" := {["WM_FA" := entry1]}]}]} (Some result1)
              [plain_args "out" "Age" false "F" "WM_FA" normalsF],
       Ok ()).
Proof.
  split; [vm_compute; reflexivity|]. split; [reflexivity|].
  vm_compute. reflexivity.
Qed.

(** ** C3: a failing fit and the combinations after it *)

(** C3 fails on the code.  One sex F, one tissue WM, the biomarkers WM_MD
    and WM_FA in this order, and the disease sheet of C2: the script is
    called once, for WM_MD, because WM_FA has matching disease columns
    without usable rows.  When that call raises, the exception is caught
    and WM_MD has no entry, and WM_FA gets no entry either.  Had the same
    call succeeded, WM_FA would have been stored with the result of WM_MD
    that is still in [result].  So what happens to the later combination
    depends on whether the earlier one failed. *)
Theorem C3_failure_changes_a_later_combination :
  let run R :=
    combination_loop R "out" "Age" "Sex" false (Some [("GM_FA", "GM")])
      normalsF (Some diseaseF) ["WM_MD"; "WM_FA"]
      {["WM_MD" := "WM"; "WM_FA" := "WM"]} ["WM"] ["F"] in
  snd (run fit_fails) = Ok ()
  ∧ r_calls (fst (run fit_fails)) = [plain_args "out" "Age" false "F" "WM_MD" normalsF]
  ∧ r_calls (fst (run fit_succeeds)) = r_calls (fst (run fit_fails))
  ∧ results_get (results (fst (run fit_fails))) "WM" "F" "WM_MD" = None
  ∧ results_get (results (fst (run fit_fails))) "WM" "F" "WM_FA" = None
  ∧ results_get (results (fst (run fit_succeeds))) "WM" "F" "WM_FA" = Some entry1.
Proof. vm_compute. repeat split; reflexivity. Qed.

(** ** What a call of [compute_growth_curves] that returns has done *)

Section ComputeFacts.
Variable R : FitArgs → res RResult.
Variable pickle_dumps : Results → bytes.
Variables (fs : gmap string file) (input_data : DataFrame) (save_path : string).
Variables (biomarkers : list string) (btm : gmap string string).
Variables (tissue_types : list string) (sex_column : string).
Variables (sex_labels : list string) (age_column : string).
Variables (disease_data : option DataFrame) (dtm : option (Dict.t string)).
Variable smoothing : bool.

(** A run that returns drew the plot, finished the loop and wrote the
  plot and the results, in this order. *)
Lemma compute_Ok_inv :
is_ok (snd (compute_growth_curves R pickle_dumps fs input_data save_path
              biomarkers btm tissue_types sex_column sex_labels age_column
              disease_data dtm smoothing)) = true →
∃ fig st,
  age_distribution_plot input_data sex_column age_column sex_labels = Ok fig
  ∧ combination_loop R save_path age_column sex_column smoothing dtm
      input_data disease_data biomarkers btm tissue_types sex_labels
    = (st, Ok ())
  ∧ compute_growth_curves R pickle_dumps fs input_data save_path
      biomarkers btm tissue_types sex_column sex_labels age_column
      disease_data dtm smoothing
    = (mkWorld
         (<[path_join save_path "results.pkl"
              := PickleFile (pickle_dumps (results st))]>
            (<[save_path +:+ "/dataset_age_distribution.png" := PngFile fig]> fs))
         (r_calls st),
       Ok ()).
Proof.
unfold compute_growth_curves.
destruct (age_distribution_plot _ _ _ _) as [fig|]; [|done].
destruct (combination_loop _ _ _ _ _ _ _ _ _ _ _ _) as [st [[]|]]; [|done].
intros _. by exists fig, st.
Qed.

Lemma compute_Ok (fig : Figure) (st : LoopState) :
age_distribution_plot input_data sex_column age_column sex_labels = Ok fig →
combination_loop R save_path age_column sex_column smoothing dtm
  input_data disease_data biomarkers btm tissue_types sex_labels
= (st, Ok ()) →
compute_growth_curves R pickle_dumps fs input_data save_path
  biomarkers btm tissue_types sex_column sex_labels age_column
  disease_data dtm smoothing
= (mkWorld
     (<[path_join save_path "results.pkl"
          := PickleFile (pickle_dumps (results st))]>
        (<[save_path +:+ "/dataset_age_distribution.png" := PngFile fig]> fs))
     (r_calls st),
   Ok ()).
Proof.
unfold compute_growth_curves. intros -> Hloop. by rewrite Hloop.
Qed.
End ComputeFacts.

(** ** The columns [main] finds *)

Section ExpectedColumns.
Variable input_columns : list string.

Lemma add_candidate_spec (tissue : string) (acc : BiomarkerColumns) (b : string) :
  biomarker_columns (add_candidate input_columns tissue acc b)
  = biomarker_columns acc
    ++ List.filter (λ c, bool_decide (c ∈ input_columns)) [tissue +:+ "_" +:+ b]
  ∧ (mapped acc → mapped (add_candidate input_columns tissue acc b)).
Proof.
  unfold add_candidate, mapped. simpl. case_bool_decide as Hin; simpl.
  - split; [done|]. intros Hall. apply Forall_app. split.
    + eapply Forall_impl; [exact Hall|]. intros c [v Hc].
      destruct (decide (tissue +:+ "_" +:+ b = c)) as [<- | Hne].
      * rewrite lookup_insert_eq. eauto.
      * rewrite lookup_insert_ne by done. eauto.
    + constructor; [|constructor]. rewrite lookup_insert_eq. eauto.
  - by rewrite app_nil_r.
Qed.

Lemma inner_columns (tissue : string) (bs : list string) (acc : BiomarkerColumns) :
  biomarker_columns (List.fold_left (add_candidate input_columns tissue) bs acc)
  = biomarker_columns acc
    ++ List.filter (λ c, bool_decide (c ∈ input_columns))
         (List.map (λ b, tissue +:+ "_" +:+ b) bs)
  ∧ (mapped acc →
     mapped (List.fold_left (add_candidate input_columns tissue) bs acc)).
Proof.
  revert acc. induction bs as [|b bs IH]; intros acc.
  - simpl. by rewrite app_nil_r.
  - cbn [List.fold_left List.map].
    destruct (IH (add_candidate input_columns tissue acc b)) as [IH1 IH2].
    destruct (add_candidate_spec tissue acc b) as [S1 S2].
    rewrite IH1, S1, <- app_assoc, <- List.filter_app. split; [done|].
    intros Hall. by apply IH2, S2.
Qed.

Lemma outer_columns (tissue_types bs : list string) (acc : BiomarkerColumns) :
  let go :=
    List.fold_left
      (λ acc tissue, List.fold_left (add_candidate input_columns tissue) bs acc)
      tissue_types acc in
  biomarker_columns go
  = biomarker_columns acc
    ++ List.filter (λ c, bool_decide (c ∈ input_columns))
         (candidate_names tissue_types bs)
  ∧ (mapped acc → mapped go).
Proof.
  revert acc. induction tissue_types as [|t ts IH]; intros acc.
  - simpl. by rewrite app_nil_r.
  - cbn [List.fold_left]. unfold candidate_names. cbn [List.flat_map].
    destruct (IH (List.fold_left (add_candidate input_columns t) bs acc))
      as [IH1 IH2].
    destruct (inner_columns t bs acc) as [I1 I2]. cbv zeta in IH1, IH2 |- *.
    rewrite IH1, I1, List.filter_app, <- app_assoc. split; [done|].
    intros Hall. by apply IH2, I2.
Qed.

(** The columns found are the expected names that are columns of the
    sheet, in the order tissue by tissue, and each has its tissue in the
    map. *)
Lemma expected_columns_spec (tissue_types biomarker_types : list string) :
  let found := expected_columns input_columns tissue_types biomarker_types in
  biomarker_columns found
  = List.filter (λ c, bool_decide (c ∈ input_columns))
                (candidate_names tissue_types biomarker_types)
  ∧ mapped found.
Proof.
  unfold expected_columns.
  destruct (outer_columns tissue_types biomarker_types (mkBiomarkerColumns [] [] ∅))
    as [H1 H2].
  split; [exact H1 | apply H2; constructor].
Qed.
End ExpectedColumns.

(** ** C6: fatal setup errors and the exit status *)

Section Fatal.
Variable read_excel : string → res DataFrame.
Variable probe : r_probe.

Lemma setup_fatal (args : Args) :
  fatal_setup_error read_excel probe args →
  ∃ e, setup read_excel probe args = Raise e.
Proof.
  unfold setup. intros [-> | (sheet & raw & Hsheet & Hraw & Hcols)].
  - destruct (read_excel (input_path args)) as [sheet|]; [|by eexists].
    rewrite bind_Ok_l. destruct (group_filter args sheet) as [raw|]; [|by eexists].
    rewrite bind_Ok_l. destruct (load_disease read_excel args); [|by eexists].
    rewrite bind_Ok_l. destruct (find_sex_column (columns raw)); [|by eexists].
    rewrite bind_Ok_l.
    destruct (biomarker_columns (expected_columns _ _ _)); [eexists; reflexivity|].
    rewrite bind_Ok_l. destruct (dropna raw _) as [filtered|]; [|by eexists].
    rewrite bind_Ok_l. destruct (column filtered _); [|by eexists].
    rewrite bind_Ok_l. by eexists.
  - rewrite Hsheet, bind_Ok_l, Hraw, bind_Ok_l.
    destruct (load_disease read_excel args); [|by eexists].
    rewrite bind_Ok_l. destruct Hcols as [Hnosex | Hnobio].
    + destruct (find_sex_column_spec (columns raw)) as [_ Hraise].
      rewrite (proj2 (Hraise _) (conj eq_refl Hnosex)). by eexists.
    + destruct (find_sex_column (columns raw)); [|by eexists].
      rewrite bind_Ok_l.
      destruct (expected_columns_spec (columns raw)
                  (default ["GM"; "WM"] (nonempty_list (arg_tissue_types args)))
                  (biomarker_types args)) as [Hfound _].
      cbv zeta in Hfound. rewrite Hfound. clear Hfound.
      assert (List.filter (λ c, bool_decide (c ∈ columns raw))
                (candidate_names
                   (default ["GM"; "WM"] (nonempty_list (arg_tissue_types args)))
                   (biomarker_types args)) = []) as ->; [|by eexists].
      induction Hnobio as [|c l Hc _ IH]; [done|]. cbn [List.filter].
      rewrite bool_decide_eq_false_2 by done. exact IH.
Qed.
End Fatal.


(** ** The results dictionary *)

Lemma results_get_ensure_tissue (t : string) (rs : Results) (t' s' b' : string) :
  results_get (ensure_tissue t rs) t' s' b' = results_get rs t' s' b'.
Proof.
  unfold ensure_tissue, results_get. destruct (rs !! t) eqn:E; [done|].
  destruct (decide (t = t')) as [<- | Hne].
  - by rewrite lookup_insert_eq, E, lookup_empty.
  - by rewrite lookup_insert_ne.
Qed.

Lemma results_get_ensure_sex (t s : string) (rs : Results) (t' s' b' : string) :
  results_get (ensure_sex t s rs) t' s' b' = results_get rs t' s' b'.
Proof.
  unfold ensure_sex, results_get. destruct (rs !! t) as [by_sex|] eqn:E; [|done].
  destruct (by_sex !! s) eqn:Es; [done|].
  destruct (decide (t = t')) as [<- | Hne].
  - rewrite lookup_insert_eq, E. destruct (decide (s = s')) as [<- | Hs].
    + by rewrite lookup_insert_eq, Es, lookup_empty.
    + by rewrite lookup_insert_ne.
  - by rewrite lookup_insert_ne.
Qed.

Lemma results_get_set (t s b : string) (e : Entry) (rs rs' : Results)
    (t' s' b' : string) :
  results_set t s b e rs = Ok rs' →
  results_get rs' t' s' b'
  = if decide (t = t' ∧ s = s' ∧ b = b') then Some e else results_get rs t' s' b'.
Proof.
  unfold results_set, results_get.
  destruct (rs !! t) as [by_sex|] eqn:E; [|done].
  destruct (by_sex !! s) as [by_bio|] eqn:Es; [|done]. intros [= <-].
  destruct (decide (t = t')) as [<- | Ht].
  - rewrite lookup_insert_eq, E. destruct (decide (s = s')) as [<- | Hs].
    + rewrite lookup_insert_eq, Es. destruct (decide (b = b')) as [<- | Hb].
      * rewrite lookup_insert_eq. by rewrite decide_True.
      * rewrite lookup_insert_ne by done. rewrite decide_False by tauto. done.
    + rewrite lookup_insert_ne by done. rewrite decide_False by tauto. done.
  - rewrite lookup_insert_ne by done. rewrite decide_False by tauto. done.
Qed.

(** ** The combination loop never raises for a failing fit *)

Section LoopFacts.
Variable R : FitArgs → res RResult.
Variables (save_path age_column sex_column : string) (smoothing : bool).
Variable dtm : option (Dict.t string).
Variable biomarkers : list string.
Hypothesis R_wf : ∀ a r, R a = Ok r → wf_result r = true.

Lemma build_model_params_wf (r : RResult) (p : ModelParams) :
  wf_result r = true → build_model_params r = Ok p → wf_params p = true.
Proof.
  unfold build_model_params. intros Hwf H.
  apply bind_Ok in H as (mt & _ & [= <-]). exact Hwf.
Qed.

Lemma assign_result_inv (args : FitArgs) (st : LoopState) :
  loop_inv biomarkers st → loop_inv biomarkers (assign_result R args st).1.
Proof.
  intros [Hres Hvar]. unfold assign_result, run_r_script_from_file.
  destruct (R args) as [r|e] eqn:E; simpl; split; try done.
  intros r' [= <-]. by eapply R_wf.
Qed.

Section Body.
Variables (s t biomarker : string) (fid : DataFrame).
Variables (fdd : option DataFrame) (has : bool).
Hypothesis Hbio : biomarker ∈ biomarkers.

Lemma fit_stage_inv (st : LoopState) :
  loop_inv biomarkers st →
  loop_inv biomarkers
    (fit_stage R save_path age_column smoothing dtm s t biomarker fid fdd has st).1.
Proof.
  intros Hinv. unfold fit_stage.
  repeat case_match; simplify_eq; try by apply assign_result_inv.
  done.
Qed.

Lemma store_stage_inv (st : LoopState) :
  loop_inv biomarkers st →
  loop_inv biomarkers (store_stage s t biomarker st).1.
Proof.
  intros [Hres Hvar]. unfold store_stage.
  assert (loop_inv biomarkers
            (mkLoop (ensure_sex t s (ensure_tissue t (results st)))
                    (result_var st) (r_calls st))) as Hens.
  { split; [|done]. intros t' s' b' e. simpl.
    rewrite results_get_ensure_sex, results_get_ensure_tissue. apply Hres. }
  destruct (result_var st) as [r|] eqn:Er; [|done].
  destruct (build_model_params r) as [p|] eqn:Ep; [|done].
  destruct (results_set _ _ _ _ _) as [rs'|] eqn:Es; [|done].
  simpl. split; [|apply Hens].
  intros t' s' b' e. rewrite (results_get_set _ _ _ _ _ _ _ _ _ Es).
  case_decide as Hk.
  - destruct Hk as (_ & _ & <-). intros [= <-]. simpl. split; [|done].
    eapply build_model_params_wf; [|done]. by apply Hvar.
  - destruct Hens as [Hens _]. apply Hens.
Qed.

Lemma process_combination_inv (st : LoopState) :
  loop_inv biomarkers st →
  loop_inv biomarkers
    (process_combination R save_path age_column smoothing dtm s t biomarker
       fid fdd has st).
Proof.
  intros Hinv. unfold process_combination, try_block.
  pose proof (fit_stage_inv st Hinv) as Hfit.
  destruct (fit_stage _ _ _ _ _ _ _ _ _ _ _ _) as [st1 [[]|e]]; simpl in *.
  - by apply store_stage_inv.
  - done.
Qed.
End Body.

Lemma for_each_inv {A} (body : A → LoopState → LoopState * res unit)
    (l : list A) (st : LoopState) :
  (∀ x st, x ∈ l → loop_inv biomarkers st →
           (body x st).2 = Ok () ∧ loop_inv biomarkers (body x st).1) →
  loop_inv biomarkers st →
  (for_each body l st).2 = Ok () ∧ loop_inv biomarkers (for_each body l st).1.
Proof.
  revert st. induction l as [|x l IH]; intros st Hbody Hinv; simpl; [done|].
  destruct (Hbody x st) as [Hok Hst]; [left | done |].
  destruct (body x st) as [st1 r]. simpl in *. subst r.
  apply IH; [|done]. intros y st' Hy. apply Hbody. by right.
Qed.

Variable input_data : DataFrame.
Variable btm : gmap string string.
Variable tissue_types : list string.
Hypothesis Hsex : sex_column ∈ columns input_data.
Hypothesis Hmapped : Forall (λ c, is_Some (btm !! c)) biomarkers.

Lemma tissue_biomarkers_Ok (bs : list string) (t : string) :
  Forall (λ c, is_Some (btm !! c)) bs →
  ∃ tbs, tissue_biomarkers btm bs t = Ok tbs ∧ tbs ⊆ bs.
Proof.
  induction bs as [|b bs IH]; intros Hall; simpl.
  - by exists [].
  - apply Forall_cons in Hall as [[tb Hb] Hall].
    destruct (IH Hall) as (tbs & Htbs & Hsub).
    unfold tissue_of. rewrite Hb, bind_Ok_l, Htbs, bind_Ok_l.
    eexists. split; [done|]. destruct (String.eqb tb t).
    + intros x [-> | Hx]%elem_of_cons; [left | right; by apply Hsub].
    + intros x Hx. right. by apply Hsub.
Qed.

Lemma tissue_round_inv (s : string) (fid : DataFrame) (fdd : option DataFrame)
    (has : bool) (t : string) (st : LoopState) :
  loop_inv biomarkers st →
  let out := tissue_round R save_path age_column smoothing dtm biomarkers btm
               s fid fdd has t st in
  out.2 = Ok () ∧ loop_inv biomarkers out.1.
Proof.
  intros Hinv. unfold tissue_round.
  destruct (tissue_biomarkers_Ok biomarkers t Hmapped) as (tbs & -> & Hsub).
  simpl. split; [done|]. revert st Hinv.
  induction tbs as [|b tbs IH]; intros st Hinv; simpl; [done|].
  apply IH; [intros x Hx; apply Hsub; by right|].
  apply process_combination_inv; [|done]. apply Hsub. left.
Qed.

Lemma sex_round_inv (disease_data : option DataFrame) (s : string)
    (st : LoopState) :
  (∀ dd, disease_data = Some dd → sex_column ∈ columns dd) →
  loop_inv biomarkers st →
  let out := sex_round R save_path age_column sex_column smoothing dtm
               input_data disease_data biomarkers btm tissue_types s st in
  out.2 = Ok () ∧ loop_inv biomarkers out.1.
Proof.
  intros Hdsex Hinv. unfold sex_round. rewrite where_eq_Ok by done.
  destruct disease_data as [dd|].
  - rewrite where_eq_Ok by by apply Hdsex.
    apply for_each_inv; [|done]. intros t st' _ Hst'. by apply tissue_round_inv.
  - apply for_each_inv; [|done]. intros t st' _ Hst'. by apply tissue_round_inv.
Qed.

(** Whatever the fitting script does, the loop runs to its end. *)
Lemma combination_loop_total (disease_data : option DataFrame)
    (sex_labels : list string) :
  (∀ dd, disease_data = Some dd → sex_column ∈ columns dd) →
  let out := combination_loop R save_path age_column sex_column smoothing dtm
               input_data disease_data biomarkers btm tissue_types sex_labels in
  out.2 = Ok () ∧ loop_inv biomarkers out.1.
Proof.
  intros Hdsex. unfold combination_loop. apply for_each_inv.
  - intros s st _ Hst. by apply sex_round_inv.
  - split; [|done]. intros t s b e. unfold results_get. simpl.
    by rewrite lookup_empty.
Qed.
End LoopFacts.

(** ** The report is rendered from well-formed results *)

Lemma list_getitem_0 {A} (v : list A) : v ≠ [] → is_ok (list_getitem v 0) = true.
Proof. by destruct v. Qed.

Lemma wf_params_inv (p : ModelParams) :
  wf_params p = true →
  wf_scalar (aic p) = true
  ∧ (∀ get, get ∈ [mu; sigma; nu; tau] → wf_vector (get p) = true)
  ∧ (∀ name v, coefs p !! name = Some v → v ≠ []).
Proof.
  unfold wf_params, wf_coefs. rewrite !andb_true_iff, bool_decide_eq_true.
  intros (((((Ha & Hm) & Hs) & Hn) & Ht) & Hc). split; [done|]. split.
  - intros get Hget. repeat (apply elem_of_cons in Hget as [-> | Hget]; [done|]).
    by apply elem_of_nil in Hget.
  - intros name v Hv. by apply (Hc name v).
Qed.

Lemma split_once_two (sep : ascii) (s : string) :
  Str.has_char sep s = true → ∃ a b, split_once sep s = [a; b].
Proof.
  induction s as [|c s IH]; simpl; [done|].
  destruct (Ascii.eqb c sep); simpl; [by eexists _, _|].
  intros (a & b & ->)%IH. by eexists _, _.
Qed.

Section ReportFacts.
Variables fmt_2f fmt_6f str_float : Q → string.
Variable genders : gset string.
Variable params : string → option ModelParams.
Hypothesis Hwf : ∀ g p, params g = Some p → wf_params p = true.

Lemma aic_cell_total (g : string) : is_ok (aic_cell fmt_2f params g) = true.
Proof.
  unfold aic_cell. destruct (params g) as [p|] eqn:E; [|done].
  destruct (wf_params_inv p (Hwf g p E)) as (Ha & _ & _).
  destruct (aic p) as [[|x [|y v]]|]; done.
Qed.

Lemma coef_cell_total (name g : string) :
  is_ok (coef_cell fmt_6f params name g) = true.
Proof.
  unfold coef_cell. destruct (params g) as [p|] eqn:E; [|done].
  destruct (wf_params_inv p (Hwf g p E)) as (_ & _ & Hc).
  destruct (coefs p !! name) as [v|] eqn:Ev; [|done].
  specialize (Hc name v Ev). by destruct v.
Qed.

Lemma dist_cell_total (get : ModelParams → option (list Q)) (g : string) :
  get ∈ [mu; sigma; nu; tau] → is_ok (dist_cell str_float params get g) = true.
Proof.
  intros Hget. unfold dist_cell. destruct (params g) as [p|] eqn:E; [|done].
  destruct (wf_params_inv p (Hwf g p E)) as (_ & Hd & _).
  specialize (Hd get Hget). by destruct (get p) as [[|x v]|].
Qed.

Lemma bind_total {A B} (m : res A) (k : A → res B) :
  is_ok m = true → (∀ a, is_ok (k a) = true) → is_ok (m ≫= k) = true.
Proof. destruct m; [simpl; auto | done]. Qed.

Lemma table_data_total :
  is_ok (table_data fmt_2f fmt_6f str_float genders params) = true.
Proof.
  unfold table_data. apply bind_total.
  { apply traverse_total, Forall_forall. intros g _. apply aic_cell_total. }
  intros aic_cells. apply bind_total.
  { apply traverse_total, Forall_forall. intros name _. unfold coef_row.
    apply bind_total; [|done].
    apply traverse_total, Forall_forall. intros g _. apply coef_cell_total. }
  intros coef_rows. apply bind_total; [|done].
  apply traverse_total. unfold dist_params.
  repeat constructor; unfold dist_row; (apply bind_total; [|done]);
    apply traverse_total, Forall_forall; intros g _; apply dist_cell_total;
    simpl; set_solver.
Qed.
End ReportFacts.

Lemma results_get_default (rs : Results) (t s b : string) :
  results_get rs t s b = default ∅ (default ∅ (rs !! t) !! s) !! b.
Proof.
  unfold results_get. destruct (rs !! t) as [by_sex|]; simpl.
  - destruct (by_sex !! s); simpl; [done | by rewrite lookup_empty].
  - by rewrite !lookup_empty.
Qed.

Section ReportTotal.
Variables fmt_2f fmt_6f str_float : Q → string.
Variable pickle_loads : bytes → res Results.
Variable now : string.
Variable r_image_exists : string → bool.
Variables (fs : gmap string file) (results_folder : string).
Variables (run_time : nat) (input_file : string) (disease_tissue : option string).

Lemma biomarker_section_total (genders : gset string) (tissue : string)
    (tissue_data : gmap string (gmap string Entry)) (biomarker : string) :
  (∀ g p, params_of tissue_data biomarker g = Some p → wf_params p = true) →
  Str.has_char "_" biomarker = true →
  is_ok (biomarker_section fmt_2f fmt_6f str_float r_image_exists fs
           results_folder disease_tissue genders tissue tissue_data biomarker)
  = true.
Proof.
  intros Hwf Hus. unfold biomarker_section.
  assert (is_ok (biomarker_type biomarker) = true) as Hbt.
  { unfold biomarker_type. by destruct (split_once_two _ _ Hus) as (a & b & ->). }
  apply bind_total; [by apply table_data_total|]. intros data.
  apply bind_total.
  { destruct (List.existsb _ _); [|done]. by apply bind_total. }
  intros figures. apply bind_total; [|done].
  destruct (List.existsb _ _); [|done]. by apply bind_total.
Qed.

Lemma tissue_section_total (rs : Results) (tissue : string) :
  results_wf rs →
  is_ok (tissue_section fmt_2f fmt_6f str_float r_image_exists fs results_folder
           disease_tissue rs tissue) = true.
Proof.
  intros Hwf. unfold tissue_section. apply bind_total; [|done].
  apply traverse_total, Forall_forall. intros b _.
  destruct (biomarker_present _ _ b) eqn:Hpresent; [|done].
  apply biomarker_section_total.
  - intros g p. unfold params_of, gender_data.
    rewrite <- results_get_default.
    destruct (results_get rs tissue g b) as [e|] eqn:E; [|done].
    intros [= <-]. by apply (Hwf _ _ _ _ E).
  - unfold biomarker_present in Hpresent.
    apply existsb_exists in Hpresent as (g & _ & Hg).
    apply bool_decide_eq_true in Hg as [e He].
    unfold gender_data in He. rewrite <- results_get_default in He.
    by apply (Hwf _ _ _ _ He).
Qed.

Lemma report_total (rs : Results) :
  load_results pickle_loads fs results_folder = Ok rs →
  results_wf rs →
  (generate_output_report fmt_2f fmt_6f str_float pickle_loads now r_image_exists
     fs results_folder run_time input_file disease_tissue).2 = Ok ().
Proof.
  intros Hload Hwf. unfold generate_output_report.
  assert (is_ok (report_content fmt_2f fmt_6f str_float pickle_loads now
                   r_image_exists fs results_folder run_time input_file
                   disease_tissue) = true) as Hok.
  { unfold report_content. rewrite Hload, bind_Ok_l.
    apply bind_total; [|done].
    apply traverse_total, Forall_forall. intros t _. by apply tissue_section_total. }
  by destruct (report_content _ _ _ _ _ _ _ _ _ _ _).
Qed.
End ReportTotal.

Lemma candidate_has_underscore (tissue biomarker : string) :
  Str.has_char "_" (tissue +:+ "_" +:+ biomarker) = true.
Proof.
  induction tissue as [|c tissue IH]; [done|].
  rewrite app_cons_str. simpl. rewrite IH. by destruct (Ascii.eqb c "_").
Qed.

Lemma candidate_names_underscore (tissue_types biomarker_types : list string) (c : string) :
  c ∈ candidate_names tissue_types biomarker_types → Str.has_char "_" c = true.
Proof.
  unfold candidate_names. intros Hc%list_elem_of_In.
  apply in_flat_map in Hc as (t & _ & Hc). apply in_map_iff in Hc as (b & <- & _).
  apply candidate_has_underscore.
Qed.

Lemma plot_Ok (input_data : DataFrame) (sex_column age_column : string)
    (sex_labels : list string) :
  sex_column ∈ columns input_data →
  age_column ∈ columns input_data →
  sex_labels ⊆ unique (cells_of input_data sex_column) →
  (List.length sex_labels ≤ 3)%nat →
  ∃ fig, age_distribution_plot input_data sex_column age_column sex_labels = Ok fig.
Proof.
  intros Hsex Hage Hsub Hlen. unfold age_distribution_plot.
  rewrite (column_Ok _ _ Hsex), bind_Ok_l, (column_Ok _ _ Hage), bind_Ok_l.
  destruct (hist_loop_fits input_data sex_column age_column
              (linspace (series_min (cells_of input_data age_column))
                        (series_max (cells_of input_data age_column)) 30)
              Hsex Hage 0 sex_labels Hsub) as (hs & Hhs & _); [simpl; lia|].
  rewrite Hhs. by eexists.
Qed.

Section MainFacts.
Variable R : FitArgs → res RResult.
Variable pickle_dumps : Results → bytes.
Variable pickle_loads : bytes → res Results.
Variables fmt_2f fmt_6f str_float : Q → string.
Variable now : string.
Variable r_image_exists : string → bool.
Variable read_excel : string → res DataFrame.
Variable probe : r_probe.
Variable run_time : nat.

(** A fatal setup error ends the process with status 1 before anything
    is fitted or written. *)
Lemma main_fatal (fs : gmap string file) (args : Args) :
  fatal_setup_error read_excel probe args →
  exit_code R pickle_dumps pickle_loads fmt_2f fmt_6f str_float now
    r_image_exists read_excel probe run_time args fs = 1%Z
  ∧ (main R pickle_dumps pickle_loads fmt_2f fmt_6f str_float now
       r_image_exists read_excel probe run_time fs args).1 = mkWorld fs [].
Proof.
  intros [e He]%setup_fatal. unfold exit_code, main.
  by rewrite He.
Qed.

(** With the setup done, the plot drawable, the disease sheet (if any)
    carrying the sex column, and results that the report can read, the
    process ends with status 0 whichever fits fail. *)
Lemma main_succeeds (fs : gmap string file) (args : Args) (p : Prepared) :
  setup read_excel probe args = Ok p →
  age_col args ∈ columns (p_input_data p) →
  (List.length (p_sex_labels p) ≤ 3)%nat →
  (∀ dd, p_disease_data p = Some dd → p_sex_column p ∈ columns dd) →
  (∀ a r, R a = Ok r → wf_result r = true) →
  pickle_loads (pickle_dumps (loop_results R args p)) = Ok (loop_results R args p) →
  exit_code R pickle_dumps pickle_loads fmt_2f fmt_6f str_float now
    r_image_exists read_excel probe run_time args fs = 0%Z.
Proof.
  intros Hsetup Hage Hlen Hdsex Hwf Hpickle.
  destruct (setup_Ok_inv _ _ _ _ Hsetup)
    as (sheet & raw & _ & _ & _ & Hfind & _ & Hbio & _ & Hdrop & _ & Hlabels & _).
  apply dropna_Ok_inv in Hdrop as [_ Hdata].
  assert (p_sex_column p ∈ columns (p_input_data p)) as Hsex.
  { rewrite Hdata. simpl.
    apply (find_sex_column_spec (columns raw)) in Hfind as (pre & post & -> & _).
    apply elem_of_app. right. left. }
  destruct (plot_Ok (p_input_data p) (p_sex_column p) (age_col args) (p_sex_labels p))
    as [fig Hfig]; [done | done | by rewrite Hlabels | done |].
  destruct (expected_columns_spec (columns raw) (p_tissue_types p) (biomarker_types args))
    as [Hcols Hmapped].
  cbv zeta in Hcols, Hmapped. rewrite <- Hbio in Hcols, Hmapped.
  destruct (combination_loop_total R (arg_save_path args) (age_col args)
              (p_sex_column p) (arg_smoothing args) (p_disease_tissue_map p)
              (biomarker_columns (p_biomarkers p)) Hwf (p_input_data p)
              (biomarker_tissue_map (p_biomarkers p)) (p_tissue_types p)
              Hsex Hmapped (p_disease_data p) (p_sex_labels p) Hdsex)
    as [Hloop Hinv].
  cbv zeta in Hloop, Hinv.
  destruct (combination_loop _ _ _ _ _ _ _ _ _ _ _ _) as [st r] eqn:Eloop.
  simpl in Hloop, Hinv. subst r.
  assert (loop_results R args p = results st) as Hrs.
  { unfold loop_results. by rewrite Eloop. }
  rewrite Hrs in Hpickle.
  unfold exit_code, main. rewrite Hsetup.
  rewrite (compute_Ok R pickle_dumps fs _ _ _ _ _ _ _ _ _ _ _ fig st Hfig Eloop).
  cbn [files calls].
  match goal with
  | |- context [generate_output_report _ _ _ _ _ _ ?f ?d ?t ?i ?dt] =>
      pose proof (report_total fmt_2f fmt_6f str_float pickle_loads now
                    r_image_exists f d t i dt (results st)) as Hrep;
      destruct (generate_output_report fmt_2f fmt_6f str_float pickle_loads now
                  r_image_exists f d t i dt) as [fs' r]
  end.
  simpl in Hrep |- *. rewrite Hrep; [done| |].
  - unfold load_results. by rewrite lookup_insert_eq.
  - intros t s b e He. destruct Hinv as [Hres _].
    destruct (Hres t s b e He) as [Hp Hb]. split; [done|].
    rewrite Hcols in Hb. apply list_elem_of_In, filter_In in Hb as [Hb _].
    eapply candidate_names_underscore. by apply list_elem_of_In.
Qed.
End MainFacts.




(** * Further properties *)

(** ** Insertion-ordered dictionaries *)

Lemma dict_keys_set {V} (d : Dict.t V) (k : string) (v : V) :
  Dict.keys (Dict.set d k v)
  = if bool_decide (k ∈ Dict.keys d) then Dict.keys d else Dict.keys d ++ [k].
Proof.
  induction d as [|[k1 v1] d IH]; [done|]. simpl.
  destruct (String.eqb k1 k) eqn:E.
  - apply String.eqb_eq in E as ->. simpl.
    rewrite bool_decide_eq_true_2 by left. done.
  - apply String.eqb_neq in E. simpl. rewrite IH.
    destruct (decide (k ∈ Dict.keys d)) as [Hin | Hnin].
    + rewrite !bool_decide_eq_true_2; [done | by right | done].
    + rewrite !bool_decide_eq_false_2; [done | | done].
      intros [-> | ?]%elem_of_cons; done.
Qed.

Lemma dict_get_set {V} (d : Dict.t V) (k k' : string) (v : V) :
  Dict.get (Dict.set d k v) k' = if String.eqb k k' then Some v else Dict.get d k'.
Proof.
  induction d as [|[k1 v1] d IH]; [done|]. simpl.
  destruct (String.eqb k1 k) eqn:E.
  - apply String.eqb_eq in E as ->. simpl. by destruct (String.eqb k k').
  - simpl. rewrite IH. destruct (String.eqb k k') eqn:E'; [|done].
    apply String.eqb_eq in E' as <-. by rewrite E.
Qed.

Lemma dict_get_None {V} (d : Dict.t V) (k : string) :
  Dict.get d k = None ↔ k ∉ Dict.keys d.
Proof.
  induction d as [|[k1 v1] d IH]; simpl.
  - split; [intros _; apply not_elem_of_nil | done].
  - rewrite not_elem_of_cons. destruct (String.eqb k1 k) eqn:E.
    + apply String.eqb_eq in E as ->. split; [done | intros [? _]; done].
    + apply String.eqb_neq in E. rewrite IH. split; [intros ?; split; congruence | tauto].
Qed.

Lemma unique_from_ext (s1 s2 l : list string) :
  (∀ x, x ∈ s1 ↔ x ∈ s2) → unique_from s1 l = unique_from s2 l.
Proof.
  revert s1 s2. induction l as [|x l IH]; intros s1 s2 H; [done|]. simpl.
  destruct (decide (x ∈ s1)) as [Hin | Hnin].
  - rewrite !bool_decide_eq_true_2; [by apply IH | by apply H | done].
  - rewrite !bool_decide_eq_false_2; [| by rewrite <- H | done].
    f_equal. apply IH. intros y. rewrite !elem_of_cons, H. done.
Qed.

Lemma unique_from_NoDup (seen l : list string) : NoDup (unique_from seen l).
Proof.
  revert seen. induction l as [|x l IH]; intros seen; simpl; [constructor|].
  case_bool_decide; [apply IH|]. constructor; [|apply IH].
  rewrite unique_from_elem. intros [_ Hx]. apply Hx. left.
Qed.

Section DictFold.
Context {V : Type} (f : string → V).

Lemma dict_fold_keys (l : list string) (d : Dict.t V) :
  Dict.keys (List.fold_left (λ m c, Dict.set m c (f c)) l d)
  = Dict.keys d ++ unique_from (Dict.keys d) l.
Proof.
  revert d. induction l as [|c l IH]; intros d; simpl.
  - by rewrite app_nil_r.
  - rewrite IH, dict_keys_set. case_bool_decide as Hc; [done|].
    rewrite <- app_assoc. simpl. f_equal. f_equal. apply unique_from_ext.
    intros x. rewrite elem_of_app, !elem_of_cons, elem_of_nil. tauto.
Qed.

Lemma dict_fold_get (l : list string) (d : Dict.t V) :
  (∀ k, k ∈ Dict.keys d → Dict.get d k = Some (f k)) →
  ∀ k, k ∈ Dict.keys (List.fold_left (λ m c, Dict.set m c (f c)) l d) →
       Dict.get (List.fold_left (λ m c, Dict.set m c (f c)) l d) k = Some (f k).
Proof.
  revert d. induction l as [|c l IH]; intros d Hd; simpl; [done|].
  apply IH. intros k Hk. rewrite dict_get_set.
  destruct (String.eqb c k) eqn:E; [by apply String.eqb_eq in E as -> |].
  apply String.eqb_neq in E. apply Hd.
  rewrite dict_keys_set in Hk. case_bool_decide; [done|].
  apply elem_of_app in Hk as [? | Hk]; [done|].
  apply list_elem_of_singleton in Hk. congruence.
Qed.
End DictFold.

(** ** The disease sheet in [main] *)

Lemma disease_biomarkers_elem (dcols bts : list string) (col : string) :
  col ∈ disease_biomarkers_of dcols bts ↔
  col ∈ dcols ∧ ∃ b pre, b ∈ bts ∧ col = pre +:+ "_" +:+ b.
Proof.
  unfold disease_biomarkers_of.
  rewrite list_elem_of_In, in_concat. split.
  - intros (l & Hl & Hcol). apply in_map_iff in Hl as (b & <- & Hb).
    apply filter_In in Hcol as [Hcol Hend].
    apply endswith_spec in Hend as [pre ->].
    split; [by apply list_elem_of_In|]. exists b, pre. split; [by apply list_elem_of_In | done].
  - intros (Hcol & b & pre & Hb & ->). eexists. split.
    + apply in_map_iff. exists b. split; [done | by apply list_elem_of_In].
    + apply filter_In. split; [by apply list_elem_of_In|].
      apply endswith_spec. by exists pre.
Qed.

Lemma split_hd_app (sep : ascii) (a b : string) :
  Str.has_char sep a = false →
  Str.first_field sep (a +:+ String sep b) = a.
Proof.
  intros Ha. unfold Str.first_field. rewrite split_app, (split_no_sep _ _ Ha). done.
Qed.

(** X1.  The tissue map that [main] builds from the disease sheet has as
    keys the disease columns that end with an underscore and one of the
    requested biomarker types, each once, in the order in which the types
    and then the columns first produce them; the value of a key is the
    text before its first underscore, also when the name has several. *)
Theorem X1_disease_tissue_map (dcols bts : list string) :
  let m := disease_tissue_map_of (disease_biomarkers_of dcols bts) in
  Dict.keys m = unique_from [] (disease_biomarkers_of dcols bts)
  ∧ NoDup (Dict.keys m)
  ∧ (∀ col, col ∈ Dict.keys m ↔
            col ∈ dcols ∧ ∃ b pre, b ∈ bts ∧ col = pre +:+ "_" +:+ b)
  ∧ (∀ col, col ∈ Dict.keys m → Dict.get m col = Some (Str.first_field "_" col))
  ∧ (∀ tissue rest, Str.has_char "_" tissue = false →
       tissue +:+ "_" +:+ rest ∈ Dict.keys m →
       Dict.get m (tissue +:+ "_" +:+ rest) = Some tissue).
Proof.
  intros m.
  assert (Dict.keys m = unique_from [] (disease_biomarkers_of dcols bts)) as Hkeys.
  { unfold m, disease_tissue_map_of. by rewrite dict_fold_keys. }
  assert (∀ col, col ∈ Dict.keys m → Dict.get m col = Some (Str.first_field "_" col))
    as Hget.
  { unfold m, disease_tissue_map_of. apply dict_fold_get. intros k Hk.
    by apply elem_of_nil in Hk. }
  split; [done|]. split; [rewrite Hkeys; apply unique_from_NoDup|].
  split; [|split; [done|]].
  - intros col. rewrite Hkeys, unique_from_elem, disease_biomarkers_elem.
    rewrite elem_of_nil. tauto.
  - intros tissue rest Ht Hin. rewrite (Hget _ Hin).
    change ("_" +:+ rest) with (String "_" rest). by rewrite split_hd_app.
Qed.

Lemma X1_disease_tissue_map_witness :
  Dict.get (disease_tissue_map_of (disease_biomarkers_of tumour_columns ["MD"; "FA"]))
           ("Tumour" +:+ "_" +:+ "Core_FA") = Some "Tumour".
Proof.
  apply (X1_disease_tissue_map tumour_columns ["MD"; "FA"]); [reflexivity|].
  by_compute.
Defined.

(** X2.  Loading the disease sheet: an absent or empty path means no
    disease data; an error of the reader is passed on; a sheet none of
    whose columns ends with an underscore and a requested biomarker type is
    refused with a [ValueError]; any other sheet is handed on together with
    its tissue map. *)
Theorem X2_load_disease_outcomes
    (read_excel : string → res DataFrame) (args : Args) :
  (arg_disease_data args = None ∨ arg_disease_data args = Some EmptyString →
   load_disease read_excel args = Ok (None, None))
  ∧ (∀ path, arg_disease_data args = Some path → path ≠ EmptyString →
       (∀ e, read_excel path = Raise e → load_disease read_excel args = Raise e)
       ∧ (∀ dd, read_excel path = Ok dd →
            (Forall (λ col, Forall (λ b, Str.endswith col ("_" +:+ b) = false)
                                   (biomarker_types args)) (columns dd) →
             load_disease read_excel args
             = Raise (ValueError "No matching biomarker columns found in disease data"))
            ∧ (∀ col b, col ∈ columns dd → b ∈ biomarker_types args →
                 Str.endswith col ("_" +:+ b) = true →
                 load_disease read_excel args
                 = Ok (Some dd,
                       Some (disease_tissue_map_of
                               (disease_biomarkers_of (columns dd)
                                  (biomarker_types args))))))).
Proof.
  unfold load_disease. split.
  - intros [-> | ->]; done.
  - intros path Hpath Hne. rewrite Hpath.
    assert (nonempty_string (Some path) = Some path) as -> by by destruct path.
    split.
    + intros e ->. done.
    + intros dd ->. rewrite bind_Ok_l. split.
      * intros Hnone.
        assert (disease_biomarkers_of (columns dd) (biomarker_types args) = []) as ->;
          [|done].
        apply elem_of_nil_inv. intros col Hcol.
        apply disease_biomarkers_elem in Hcol as (Hcol & b & pre & Hb & ->).
        rewrite Forall_forall in Hnone. specialize (Hnone _ Hcol).
        rewrite Forall_forall in Hnone. specialize (Hnone _ Hb).
        assert (Str.endswith (pre +:+ "_" +:+ b) ("_" +:+ b) = true) as Ht
          by (apply endswith_spec; by exists pre).
        congruence.
      * intros col b Hcol Hb Hend.
        destruct (disease_biomarkers_of _ _) as [|c l] eqn:E; [|done].
        exfalso. apply endswith_spec in Hend as [pre ->].
        assert (pre +:+ "_" +:+ b ∈ disease_biomarkers_of (columns dd) (biomarker_types args))
          as Hin by (apply disease_biomarkers_elem; eauto).
        rewrite E in Hin. by apply elem_of_nil in Hin.
Qed.

Lemma X2_load_disease_outcomes_witness :
  load_disease read5 (args3 ["FA"])
  = Ok (Some tumour_sheet,
        Some (disease_tissue_map_of (disease_biomarkers_of tumour_columns ["FA"])))
  ∧ load_disease read5 (args3 ["Volume"])
    = Raise (ValueError "No matching biomarker columns found in disease data").
Proof.
  split.
  - apply (proj2 (X2_load_disease_outcomes read5 (args3 ["FA"])) "tumour.xlsx"
             eq_refl ltac:(discriminate) ) with (col := "Edema_FA") (b := "FA");
      [reflexivity | by_compute | by_compute | reflexivity].
  - apply (proj2 (X2_load_disease_outcomes read5 (args3 ["Volume"])) "tumour.xlsx"
             eq_refl ltac:(discriminate)) with (dd := tumour_sheet); [reflexivity|].
    by_compute.
Defined.

Lemma disease_map_keys (dcols bts : list string) :
  NoDup (Dict.keys (disease_tissue_map_of (disease_biomarkers_of dcols bts)))
  ∧ ∀ col, col ∈ Dict.keys (disease_tissue_map_of (disease_biomarkers_of dcols bts)) ↔
           col ∈ dcols ∧ ∃ b pre, b ∈ bts ∧ col = pre +:+ "_" +:+ b.
Proof.
  assert (Dict.keys (disease_tissue_map_of (disease_biomarkers_of dcols bts))
          = unique_from [] (disease_biomarkers_of dcols bts)) as ->.
  { unfold disease_tissue_map_of. by rewrite dict_fold_keys. }
  split; [apply unique_from_NoDup|].
  intros col. rewrite unique_from_elem, disease_biomarkers_elem, elem_of_nil. tauto.
Qed.

Lemma has_char_last_sep (s : string) :
  Str.has_char "_" s = true →
  ∃ a b, s = a +:+ String "_" b ∧ Str.has_char "_" b = false.
Proof.
  induction s as [|c s IH]; simpl; [done|].
  destruct (Str.has_char "_" s) eqn:Hs.
  - intros _. destruct (IH eq_refl) as (a & b & -> & Hb).
    exists (String c a), b. by rewrite app_cons_str.
  - rewrite orb_false_r. intros Hc. apply Ascii.eqb_eq in Hc as ->.
    exists EmptyString, s. by rewrite app_nil_l_str.
Qed.

(** The last field of a string is one of its suffixes. *)
Lemma last_field_suffix (s : string) : ∃ pre, s = pre +:+ Str.last_field "_" s.
Proof.
  destruct (Str.has_char "_" s) eqn:Hs.
  - destruct (has_char_last_sep s Hs) as (a & b & -> & Hb).
    rewrite last_field_app. unfold Str.last_field. rewrite (split_no_sep _ _ Hb).
    simpl. exists (a +:+ "_"). by rewrite app_assoc_str.
  - exists EmptyString. unfold Str.last_field. by rewrite (split_no_sep _ _ Hs).
Qed.

(** X3.  Which disease columns are used for a biomarker [tissue_type] in a
    run of [main]: the columns of the disease sheet that end with an
    underscore and one of the requested types (whichever) and whose name
    contains the last underscore-separated field of the type, which is the
    type itself when it has no underscore.  Other columns of the sheet,
    such as the age and sex columns, are never used, and every column that
    ends with the biomarker's own requested type is. *)
Theorem X3_disease_columns_of_a_biomarker
    (dcols bts : list string) (tissue ty : string) :
  let selected :=
    disease_cols (Dict.keys (disease_tissue_map_of (disease_biomarkers_of dcols bts)))
                 (tissue +:+ "_" +:+ ty) in
  let field := Str.last_field "_" ty in
  (∀ col, col ∈ selected ↔
          col ∈ dcols ∧ (∃ b pre, b ∈ bts ∧ col = pre +:+ "_" +:+ b)
          ∧ ∃ pre post, col = pre +:+ field +:+ post)
  ∧ NoDup selected
  ∧ (Str.has_char "_" ty = false ↔ field = ty)
  ∧ (ty ∈ bts → ∀ pre, pre +:+ "_" +:+ ty ∈ dcols → pre +:+ "_" +:+ ty ∈ selected).
Proof.
  intros selected field.
  destruct (disease_map_keys dcols bts) as (Hnd & Hkeys).
  assert (Str.last_field "_" (tissue +:+ "_" +:+ ty) = field) as Hfield.
  { change ("_" +:+ ty) with (String "_" ty). by rewrite last_field_app. }
  assert (∀ col, col ∈ selected ↔
            col ∈ dcols ∧ (∃ b pre, b ∈ bts ∧ col = pre +:+ "_" +:+ b)
            ∧ ∃ pre post, col = pre +:+ field +:+ post) as Hsel.
  { intros col. unfold selected, disease_cols. rewrite Hfield.
    rewrite list_elem_of_In, filter_In, <- list_elem_of_In, Hkeys, contains_spec.
    tauto. }
  split; [done|]. split; [|split].
  - unfold selected, disease_cols. apply NoDup_ListNoDup, List.NoDup_filter.
    by apply NoDup_ListNoDup.
  - split.
    + intros Hty. unfold field, Str.last_field. by rewrite (split_no_sep _ _ Hty).
    + intros Heq. destruct (Str.has_char "_" ty) eqn:Hty; [|done]. exfalso.
      destruct (has_char_last_sep ty Hty) as (a & b & Hab & Hb).
      assert (field = b) as Hfb.
      { unfold field. rewrite Hab, last_field_app. unfold Str.last_field.
        by rewrite (split_no_sep _ _ Hb). }
      rewrite Heq in Hfb. rewrite <- Hfb in Hb. congruence.
  - intros Hb pre Hin. apply Hsel. split; [done|]. split; [eauto|].
    destruct (last_field_suffix ty) as [x Hx]. fold field in Hx. clearbody field.
    exists (pre +:+ "_" +:+ x), EmptyString.
    rewrite app_nil_r_str, Hx. by rewrite !app_assoc_str.
Qed.

Lemma X3_disease_columns_of_a_biomarker_witness :
  (let selected :=
     disease_cols
       (Dict.keys (disease_tissue_map_of
                     (disease_biomarkers_of micro_columns
                        ["Damage_Micro"; "Integrity_Micro"])))
       ("WM" +:+ "_" +:+ "Damage_Micro") in
   let field := Str.last_field "_" "Damage_Micro" in
   (∀ col, col ∈ selected ↔
           col ∈ micro_columns
           ∧ (∃ b pre, b ∈ ["Damage_Micro"; "Integrity_Micro"] ∧ col = pre +:+ "_" +:+ b)
           ∧ ∃ pre post, col = pre +:+ field +:+ post)
   ∧ NoDup selected
   ∧ (Str.has_char "_" "Damage_Micro" = false ↔ field = "Damage_Micro")
   ∧ ("Damage_Micro" ∈ ["Damage_Micro"; "Integrity_Micro"] →
      ∀ pre, pre +:+ "_" +:+ "Damage_Micro" ∈ micro_columns →
             pre +:+ "_" +:+ "Damage_Micro" ∈ selected))
  ∧ disease_cols
      (Dict.keys (disease_tissue_map_of
                    (disease_biomarkers_of micro_columns
                       ["Damage_Micro"; "Integrity_Micro"])))
      "WM_Damage_Micro"
    = ["T_Damage_Micro"; "T_Integrity_Micro"].
Proof.
  split.
  - apply (X3_disease_columns_of_a_biomarker micro_columns
             ["Damage_Micro"; "Integrity_Micro"] "WM" "Damage_Micro").
  - vm_compute. reflexivity.
Defined.

(** ** The cohort filter and the columns [main] looks for *)

Lemma cell_is_spec (g : string) (c : cell) : cell_is g c = true ↔ c = Some (VStr g).
Proof.
  unfold cell_is, cell_label. destruct c as [[x | q]|]; try by split.
  rewrite String.eqb_eq. split; [by intros -> | by intros [= ->]].
Qed.

Lemma filter_sublist {A} (p : A → bool) (l : list A) : List.filter p l `sublist_of` l.
Proof.
  induction l as [|x l IH]; simpl; [constructor|]. destruct (p x); by constructor.
Qed.

(** X4.  The cohort filter of [main]: without a group the sheet is kept as
    it is; with a group and no column "Cohort" a [ValueError] is raised;
    otherwise the columns are kept and the rows kept are exactly those
    whose cohort cell is one of the group's names, so rows without a
    cohort are dropped. *)
Theorem X4_group_filter (args : Args) (df : DataFrame) :
  (arg_group args = None ∨ arg_group args = Some [] → group_filter args df = Ok df)
  ∧ (∀ g group, arg_group args = Some (g :: group) →
       ("Cohort" ∉ columns df →
        group_filter args df
        = Raise (ValueError ("No column named " +:+ dquote +:+ "Cohort" +:+ dquote)))
       ∧ ("Cohort" ∈ columns df →
          ∃ df', group_filter args df = Ok df'
                 ∧ columns df' = columns df
                 ∧ rows df' `sublist_of` rows df
                 ∧ ∀ r, r ∈ rows df' ↔
                        r ∈ rows df
                        ∧ ∃ c, c ∈ g :: group ∧ r "Cohort" = Some (VStr c))).
Proof.
  unfold group_filter. split.
  - intros [-> | ->]; done.
  - intros g group ->. simpl. unfold where_isin, has_column. split.
    + intros Hno. by rewrite bool_decide_eq_false_2.
    + intros Hyes. rewrite !bool_decide_eq_true_2 by done.
      eexists. split; [done|]. split; [done|]. cbn [rows]. split.
      * apply filter_sublist.
      * intros r. rewrite list_elem_of_In, filter_In, <- list_elem_of_In.
        rewrite existsb_exists. split.
        -- intros [Hr (c & Hc & His)]. split; [done|]. exists c.
           split; [by apply list_elem_of_In | by apply cell_is_spec].
        -- intros [Hr (c & Hc & His)]. split; [done|]. exists c.
           split; [by apply list_elem_of_In | by apply cell_is_spec].
Qed.

Lemma X4_group_filter_witness :
  ∃ df', group_filter (args_group (Some ["HC"])) cohort_sheet = Ok df'
         ∧ columns df' = columns cohort_sheet
         ∧ rows df' `sublist_of` rows cohort_sheet
         ∧ ∀ r, r ∈ rows df' ↔
                r ∈ rows cohort_sheet ∧ ∃ c, c ∈ ["HC"] ∧ r "Cohort" = Some (VStr c).
Proof.
  apply (proj2 (X4_group_filter (args_group (Some ["HC"])) cohort_sheet) "HC" []
           eq_refl).
  by_compute.
Defined.

Section ExpectedMore.
Variables (input_columns tissue_types biomarker_types : list string).

(** What the fold keeps true of the columns found so far. *)
Lemma add_candidate_more (tissue b : string) (acc : BiomarkerColumns) :
  tissue ∈ tissue_types → b ∈ biomarker_types →
  missing_columns (add_candidate input_columns tissue acc b)
  = missing_columns acc
    ++ List.filter (λ c, negb (bool_decide (c ∈ input_columns))) [tissue +:+ "_" +:+ b]
  ∧ (column_map_sound tissue_types biomarker_types acc →
     column_map_sound tissue_types biomarker_types
       (add_candidate input_columns tissue acc b)).
Proof.
  intros Ht Hb. unfold add_candidate, column_map_sound. simpl.
  case_bool_decide as Hin; simpl.
  - rewrite app_nil_r. split; [done|]. intros [Hdom Hval]. split.
    + intros c. rewrite elem_of_app, list_elem_of_singleton, <- Hdom.
      destruct (decide (tissue +:+ "_" +:+ b = c)) as [<- | Hne].
      * rewrite lookup_insert_eq. split; [by right | by eauto].
      * rewrite lookup_insert_ne by done. split; [by left | intros [? | ?]; congruence].
    + intros c t. destruct (decide (tissue +:+ "_" +:+ b = c)) as [<- | Hne].
      * rewrite lookup_insert_eq. intros [= <-]. eauto.
      * rewrite lookup_insert_ne by done. apply Hval.
  - done.
Qed.

Lemma inner_more (tissue : string) (bs : list string) (acc : BiomarkerColumns) :
  tissue ∈ tissue_types → bs ⊆ biomarker_types →
  missing_columns (List.fold_left (add_candidate input_columns tissue) bs acc)
  = missing_columns acc
    ++ List.filter (λ c, negb (bool_decide (c ∈ input_columns)))
         (List.map (λ b, tissue +:+ "_" +:+ b) bs)
  ∧ (column_map_sound tissue_types biomarker_types acc →
     column_map_sound tissue_types biomarker_types
       (List.fold_left (add_candidate input_columns tissue) bs acc)).
Proof.
  intros Ht. revert acc. induction bs as [|b bs IH]; intros acc Hsub.
  - simpl. by rewrite app_nil_r.
  - cbn [List.fold_left List.map].
    destruct (IH (add_candidate input_columns tissue acc b)) as [IH1 IH2].
    { intros x Hx. apply Hsub. by right. }
    destruct (add_candidate_more tissue b acc Ht) as [S1 S2]; [apply Hsub; left|].
    rewrite IH1, S1, <- app_assoc, <- List.filter_app. split; [done|].
    intros Hs. by apply IH2, S2.
Qed.

Lemma outer_more (ts : list string) (acc : BiomarkerColumns) :
  ts ⊆ tissue_types →
  let go :=
    List.fold_left
      (λ acc tissue,
         List.fold_left (add_candidate input_columns tissue) biomarker_types acc)
      ts acc in
  missing_columns go
  = missing_columns acc
    ++ List.filter (λ c, negb (bool_decide (c ∈ input_columns)))
         (candidate_names ts biomarker_types)
  ∧ (column_map_sound tissue_types biomarker_types acc →
     column_map_sound tissue_types biomarker_types go).
Proof.
  revert acc. induction ts as [|t ts IH]; intros acc Hsub.
  - simpl. by rewrite app_nil_r.
  - cbn [List.fold_left]. unfold candidate_names. cbn [List.flat_map].
    destruct (IH (List.fold_left (add_candidate input_columns t) biomarker_types acc))
      as [IH1 IH2].
    { intros x Hx. apply Hsub. by right. }
    destruct (inner_more t biomarker_types acc) as [I1 I2];
      [apply Hsub; left | done |].
    cbv zeta in IH1, IH2 |- *.
    rewrite IH1, I1, List.filter_app, <- app_assoc. split; [done|].
    intros Hs. by apply IH2, I2.
Qed.
End ExpectedMore.

Lemma filter_partition_length {A} (p : A → bool) (l : list A) :
  (List.length (List.filter p l) + List.length (List.filter (λ x, negb (p x)) l)
   = List.length l)%nat.
Proof.
  induction l as [|x l IH]; simpl; [done|]. destruct (p x); simpl; lia.
Qed.

Lemma candidate_names_length (ts bs : list string) :
  List.length (candidate_names ts bs) = (List.length ts * List.length bs)%nat.
Proof.
  unfold candidate_names. induction ts as [|t ts IH]; simpl; [done|].
  by rewrite List.length_app, List.length_map, IH.
Qed.

(** X5.  The biomarker columns [main] looks for are every tissue joined to
    every biomarker type, tissue by tissue.  Those that are columns of the
    sheet are the columns found, the others are reported missing, both in
    this order, so the two lists together have one entry per pair.  The
    tissue map has exactly the columns found as keys, and the tissue of a
    column is a requested tissue of which, with a requested type, the
    column name is made. *)
Theorem X5_expected_columns (input_columns tissue_types biomarker_types : list string) :
  let found := expected_columns input_columns tissue_types biomarker_types in
  let names := candidate_names tissue_types biomarker_types in
  biomarker_columns found
  = List.filter (λ c, bool_decide (c ∈ input_columns)) names
  ∧ missing_columns found
    = List.filter (λ c, negb (bool_decide (c ∈ input_columns))) names
  ∧ (List.length (biomarker_columns found) + List.length (missing_columns found)
     = List.length tissue_types * List.length biomarker_types)%nat
  ∧ (∀ c, is_Some (biomarker_tissue_map found !! c) ↔ c ∈ biomarker_columns found)
  ∧ (∀ c t, biomarker_tissue_map found !! c = Some t →
            t ∈ tissue_types ∧ ∃ b, b ∈ biomarker_types ∧ c = t +:+ "_" +:+ b).
Proof.
  intros found names.
  destruct (expected_columns_spec input_columns tissue_types biomarker_types)
    as [Hfound _].
  destruct (outer_more input_columns tissue_types biomarker_types tissue_types
              (mkBiomarkerColumns [] [] ∅)) as [Hmiss Hsound]; [done|].
  cbv zeta in Hfound, Hmiss, Hsound. simpl in Hmiss.
  fold (expected_columns input_columns tissue_types biomarker_types) in Hmiss, Hsound.
  fold found in Hfound, Hmiss, Hsound. fold names in Hfound, Hmiss.
  split; [done|]. split; [done|]. split.
  - rewrite Hfound, Hmiss, filter_partition_length. apply candidate_names_length.
  - apply Hsound. split.
    + intros c. simpl. rewrite lookup_empty, elem_of_nil. split; [by intros [? ?] | done].
    + intros c t. simpl. by rewrite lookup_empty.
Qed.

(** ** When the setup of [main] succeeds *)

Lemma find_sex_column_Ok_iff (cols : list string) :
  is_ok (find_sex_column cols) = true ↔ Exists names_sex cols.
Proof.
  destruct (find_sex_column_spec cols) as [Hok Hraise].
  destruct (find_sex_column cols) as [col|e] eqn:E; simpl.
  - split; [intros _ | done].
    destruct (proj1 (Hok col) eq_refl) as (pre & post & -> & Hs & _).
    apply Exists_app. right. by left.
  - split; [done|]. intros Hex. destruct (proj1 (Hraise e) eq_refl) as [_ Hall].
    apply Exists_exists in Hex as (c & Hc & Hs).
    rewrite Forall_forall in Hall. by destruct (Hall c Hc).
Qed.

Lemma find_sex_column_elem (cols : list string) (col : string) :
  find_sex_column cols = Ok col → col ∈ cols.
Proof.
  intros (pre & post & -> & _)%(proj1 (find_sex_column_spec cols)).
  apply elem_of_app. right. left.
Qed.


(** ** The combination loop, round by round *)

Lemma for_each_keeps {A} (I : LoopState → list A → Prop)
    (body : A → LoopState → LoopState * res unit) (l : list A) :
  (∀ x st done, x ∈ l → I st done →
                (body x st).2 = Ok () ∧ I (body x st).1 (done ++ [x])) →
  ∀ st done, I st done →
             (for_each body l st).2 = Ok () ∧ I (for_each body l st).1 (done ++ l).
Proof.
  induction l as [|x l IH]; intros Hbody st done Hst; simpl.
  - by rewrite app_nil_r.
  - destruct (Hbody x st done) as [Hok Hnext]; [left | done |].
    destruct (body x st) as [st1 r]. simpl in *. subst r.
    replace (done ++ x :: l) with ((done ++ [x]) ++ l) by by rewrite <- app_assoc.
    apply IH; [|done]. intros y st' done' Hy. apply Hbody. by right.
Qed.

Lemma tissue_biomarkers_filter (btm : gmap string string) (bs : list string) (t : string) :
  Forall (λ c, is_Some (btm !! c)) bs →
  tissue_biomarkers btm bs t
  = Ok (List.filter (λ b, bool_decide (btm !! b = Some t)) bs).
Proof.
  induction bs as [|b bs IH]; intros Hall; simpl; [done|].
  apply Forall_cons in Hall as [[tb Hb] Hall].
  unfold tissue_of. rewrite Hb, bind_Ok_l, (IH Hall), bind_Ok_l. simpl.
  destruct (String.eqb tb t) eqn:E.
  - apply String.eqb_eq in E as ->. by rewrite bool_decide_eq_true_2.
  - apply String.eqb_neq in E. rewrite bool_decide_eq_false_2; [done | congruence].
Qed.

Lemma results_set_ensured (t s b : string) (e : Entry) (rs : Results) :
  ∃ rs', results_set t s b e (ensure_sex t s (ensure_tissue t rs)) = Ok rs'.
Proof.
  unfold results_set, ensure_sex, ensure_tissue.
  destruct (rs !! t) as [by_sex|] eqn:Et.
  - rewrite Et. destruct (by_sex !! s) as [by_bio|] eqn:Es.
    + rewrite Et, Es. by eexists.
    + rewrite lookup_insert_eq, lookup_insert_eq. by eexists.
  - rewrite lookup_insert_eq, lookup_empty, lookup_insert_eq, lookup_insert_eq.
    by eexists.
Qed.

Section PlainRun.
Variable R : FitArgs → res RResult.
Variables (save_path age_column sex_column : string) (smoothing : bool).
Variable dtm : option (Dict.t string).
Variable input_data : DataFrame.

Lemma plain_inv_extend (st st' : LoopState) (done : list (string * string * string))
    (s t b : string) :
  plain_inv R save_path age_column sex_column smoothing input_data st done →
  r_calls st'
  = r_calls st
    ++ [plain_call save_path age_column sex_column smoothing input_data (s, t, b)] →
  (∀ t' s' b',
     results_get (results st') t' s' b'
     = if decide (t = t' ∧ s = s' ∧ b = b')
       then entry_of R (plain_call save_path age_column sex_column smoothing
                                   input_data (s, t, b))
       else results_get (results st) t' s' b') →
  plain_inv R save_path age_column sex_column smoothing input_data st'
            (done ++ [(s, t, b)]).
Proof.
  intros [Hcalls Hres] Hc Hr. split.
  - by rewrite Hc, Hcalls, List.map_app.
  - intros t' s' b'. rewrite Hr, Hres. case_decide as Hk.
    + destruct Hk as (<- & <- & <-). rewrite bool_decide_eq_true_2; [done|].
      apply elem_of_app. right. left.
    + destruct (decide ((s', t', b') ∈ done)) as [Hin | Hnin].
      * rewrite !bool_decide_eq_true_2; [done | | done]. apply elem_of_app. by left.
      * rewrite !bool_decide_eq_false_2; [done | | done].
        intros [? | Heq%list_elem_of_singleton]%elem_of_app; [done|].
        injection Heq as -> -> ->. tauto.
Qed.

Lemma plain_step (st : LoopState) (done : list (string * string * string))
    (s t b : string) :
  plain_inv R save_path age_column sex_column smoothing input_data st done →
  plain_inv R save_path age_column sex_column smoothing input_data
    (process_combination R save_path age_column smoothing dtm s t b
       (rows_of_sex input_data sex_column s) None false st)
    (done ++ [(s, t, b)]).
Proof.
  intros Hinv. pose proof Hinv as [Hcalls Hres].
  unfold process_combination, try_block, fit_stage, assign_result,
    run_r_script_from_file.
  change (plain_args save_path age_column smoothing s b
            (rows_of_sex input_data sex_column s))
    with (plain_call save_path age_column sex_column smoothing input_data (s, t, b)).
  assert (∀ rs : Results,
            (∀ t' s' b', results_get rs t' s' b' = results_get (results st) t' s' b') →
            entry_of R (plain_call save_path age_column sex_column smoothing
                                   input_data (s, t, b)) = None →
            ∀ t' s' b',
              results_get rs t' s' b'
              = if decide (t = t' ∧ s = s' ∧ b = b')
                then entry_of R (plain_call save_path age_column sex_column smoothing
                                            input_data (s, t, b))
                else results_get (results st) t' s' b') as Hsame.
  { intros rs Hrs Hnone t' s' b'. rewrite Hrs. case_decide as Hk; [|done].
    destruct Hk as (<- & <- & <-). rewrite Hnone, Hres. by case_bool_decide; [|done]. }
  unfold entry_of in Hsame |- *.
  destruct (R (plain_call save_path age_column sex_column smoothing input_data (s, t, b)))
    as [r|e] eqn:ER; cbn [fst snd].
  - unfold store_stage. cbn [result_var results r_calls].
    destruct (build_model_params r) as [mp|e] eqn:Emp.
    + destruct (results_set_ensured t s b (mkEntry mp (rx_centile_data r)) (results st))
        as [rs' Hset].
      rewrite Hset. cbn [fst].
      apply (plain_inv_extend st); [done | done |].
      intros t' s' b'. cbn [results]. unfold entry_of. rewrite ER, Emp.
      rewrite (results_get_set _ _ _ _ _ _ _ _ _ Hset).
      by rewrite results_get_ensure_sex, results_get_ensure_tissue.
    + cbn [fst]. apply (plain_inv_extend st); [done | done |].
      unfold entry_of. rewrite ER, Emp. apply Hsame; [|done].
      intros t' s' b'. cbn [results].
      by rewrite results_get_ensure_sex, results_get_ensure_tissue.
  - apply (plain_inv_extend st); [done | done |].
    unfold entry_of. rewrite ER. by apply Hsame.
Qed.

Lemma plain_fold (s t : string) (tbs : list string) (st : LoopState)
    (done : list (string * string * string)) :
  plain_inv R save_path age_column sex_column smoothing input_data st done →
  plain_inv R save_path age_column sex_column smoothing input_data
    (List.fold_left
       (λ acc b,
          process_combination R save_path age_column smoothing dtm s t b
            (rows_of_sex input_data sex_column s) None false acc)
       tbs st)
    (done ++ List.map (λ b, (s, t, b)) tbs).
Proof.
  revert st done. induction tbs as [|b tbs IH]; intros st done Hinv; simpl.
  - by rewrite app_nil_r.
  - replace (done ++ (s, t, b) :: List.map (λ b, (s, t, b)) tbs)
      with ((done ++ [(s, t, b)]) ++ List.map (λ b, (s, t, b)) tbs)
      by by rewrite <- app_assoc.
    apply IH. by apply plain_step.
Qed.

Variables (biomarkers : list string) (btm : gmap string string).
Variable tissue_types : list string.
Hypothesis Hsex : sex_column ∈ columns input_data.
Hypothesis Hmapped : Forall (λ c, is_Some (btm !! c)) biomarkers.

Lemma plain_loop (sex_labels : list string) :
  let out := combination_loop R save_path age_column sex_column smoothing dtm
               input_data None biomarkers btm tissue_types sex_labels in
  out.2 = Ok ()
  ∧ plain_inv R save_path age_column sex_column smoothing input_data out.1
      (combinations sex_labels tissue_types biomarkers btm).
Proof.
  unfold combination_loop, combinations.
  apply (for_each_keeps
           (λ st done,
              plain_inv R save_path age_column sex_column smoothing input_data st
                (List.flat_map
                   (λ s, List.flat_map
                           (λ t, List.map (λ b, (s, t, b))
                                   (List.filter (λ b, bool_decide (btm !! b = Some t))
                                                biomarkers))
                           tissue_types)
                   done))
           _ sex_labels) with (done := []).
  - intros s st done _ Hst. unfold sex_round. rewrite where_eq_Ok by done.
    fold (rows_of_sex input_data sex_column s).
    rewrite flat_map_app. cbn [List.flat_map]. rewrite app_nil_r.
    apply (for_each_keeps
             (λ st' tdone,
                plain_inv R save_path age_column sex_column smoothing input_data st'
                  (List.flat_map
                     (λ s, List.flat_map
                             (λ t, List.map (λ b, (s, t, b))
                                     (List.filter (λ b, bool_decide (btm !! b = Some t))
                                                  biomarkers))
                             tissue_types)
                     done
                   ++ List.flat_map
                        (λ t, List.map (λ b, (s, t, b))
                                (List.filter (λ b, bool_decide (btm !! b = Some t))
                                             biomarkers))
                        tdone))
             _ tissue_types) with (done := []).
    + intros t st' tdone _ Hst'. unfold tissue_round.
      rewrite (tissue_biomarkers_filter _ _ _ Hmapped). cbn [fst snd].
      split; [done|]. rewrite flat_map_app. cbn [List.flat_map].
      rewrite app_nil_r, app_assoc. by apply plain_fold.
    + simpl. by rewrite app_nil_r.
  - split; [done|]. intros t s b. unfold results_get. simpl.
    by rewrite lookup_empty.
Qed.
End PlainRun.

(** X7.  A run without disease data, whatever the fitting script does: the
    loop returns; it calls the script once for every (sex, tissue,
    biomarker) combination, sex by sex, tissue by tissue and biomarker by
    biomarker, with the rows of that sex; and the results hold an entry at a
    key exactly when the key is one of the combinations and its call
    returned a result with a model type, the entry being made of that
    result. *)
Theorem X7_results_without_disease_data
    (R : FitArgs → res RResult) (save_path age_column sex_column : string)
    (smoothing : bool) (dtm : option (Dict.t string)) (input_data : DataFrame)
    (biomarkers : list string) (btm : gmap string string)
    (tissue_types sex_labels : list string) :
  sex_column ∈ columns input_data →
  Forall (λ c, is_Some (btm !! c)) biomarkers →
  let out := combination_loop R save_path age_column sex_column smoothing dtm
               input_data None biomarkers btm tissue_types sex_labels in
  let combos := combinations sex_labels tissue_types biomarkers btm in
  out.2 = Ok ()
  ∧ r_calls out.1
    = List.map (plain_call save_path age_column sex_column smoothing input_data) combos
  ∧ ∀ t s b,
      results_get (results out.1) t s b
      = if bool_decide ((s, t, b) ∈ combos)
        then entry_of R (plain_call save_path age_column sex_column smoothing
                                    input_data (s, t, b))
        else None.
Proof.
  intros Hsex Hmapped.
  destruct (plain_loop R save_path age_column sex_column smoothing dtm input_data
              biomarkers btm tissue_types Hsex Hmapped sex_labels) as [Hok [Hc Hr]].
  done.
Qed.

Lemma X7_results_without_disease_data_witness :
  let out := combination_loop fit_mixed "out" "Age" "Sex" false None normalsF None
               ["WM_MD"; "WM_FA"] {["WM_MD" := "WM"; "WM_FA" := "WM"]} ["WM"] ["F"] in
  let combos := combinations ["F"] ["WM"] ["WM_MD"; "WM_FA"]
                             {["WM_MD" := "WM"; "WM_FA" := "WM"]} in
  out.2 = Ok ()
  ∧ r_calls out.1 = List.map (plain_call "out" "Age" "Sex" false normalsF) combos
  ∧ ∀ t s b,
      results_get (results out.1) t s b
      = if bool_decide ((s, t, b) ∈ combos)
        then entry_of fit_mixed (plain_call "out" "Age" "Sex" false normalsF (s, t, b))
        else None.
Proof.
  apply (X7_results_without_disease_data fit_mixed "out" "Age" "Sex" false None
           normalsF ["WM_MD"; "WM_FA"] {["WM_MD" := "WM"; "WM_FA" := "WM"]}
           ["WM"] ["F"]); by_compute.
Defined.


(** ** Every call of the fitting script *)

Lemma for_each_pres {A} (P : LoopState → Prop)
    (body : A → LoopState → LoopState * res unit) (l : list A) (st : LoopState) :
  (∀ x st, x ∈ l → P st → P (body x st).1) →
  P st → P (for_each body l st).1.
Proof.
  revert st. induction l as [|x l IH]; intros st Hbody Hst; simpl; [done|].
  pose proof (Hbody x st (list_elem_of_here _ _) Hst) as Hx.
  destruct (body x st) as [st1 [[]|e]]; simpl in *; [|done].
  apply IH; [|done]. intros y st' Hy. apply Hbody. by right.
Qed.

Lemma combine_map_elem {A B C} (f : A → B) (g : A → C) (l : list A) (b : B) (c : C) :
  (b, c) ∈ List.combine (List.map f l) (List.map g l) →
  ∃ r, r ∈ l ∧ b = f r ∧ c = g r.
Proof.
  induction l as [|x l IH]; simpl.
  - by intros ?%elem_of_nil.
  - intros [[= -> ->] | H]%elem_of_cons.
    + exists x. split; [left | done].
    + destruct (IH H) as (r & Hr & ? & ?). exists r. split; [by right | done].
Qed.

Lemma disease_subset_rows (age_column : string) (m : Dict.t string)
    (fdd : DataFrame) (col : string) (sub : list DiseaseRow) :
  disease_subset age_column m fdd col = Ok sub →
  Forall (λ dr, ∃ r, r ∈ rows fdd ∧ r age_column = Some (d_age dr)
                     ∧ r col = Some (d_value dr)
                     ∧ Dict.get m col = Some (d_tissue dr)) sub.
Proof.
  unfold disease_subset, column, Dict.getitem. intros H.
  destruct (has_column fdd age_column); [|done]. rewrite bind_Ok_l in H.
  destruct (has_column fdd col); [|done]. rewrite bind_Ok_l in H.
  destruct (Dict.get m col) as [tissue|]; [|done]. rewrite bind_Ok_l in H.
  injection H as <-. apply Forall_forall. intros dr Hdr.
  apply list_elem_of_omap in Hdr as ([a v] & Hav & Hdr).
  apply combine_map_elem in Hav as (r & Hr & -> & ->).
  exists r. destruct (r age_column) as [a|]; [|done].
  destruct (r col) as [v|]; [|done]. by injection Hdr as <-.
Qed.

Lemma collect_disease_spec (age_column : string) (m : Dict.t string)
    (fdd : DataFrame) (cols : list string) :
  Forall (λ sub,
            sub ≠ []
            ∧ Forall (λ dr, ∃ col r, col ∈ cols ∧ r ∈ rows fdd
                              ∧ r age_column = Some (d_age dr)
                              ∧ r col = Some (d_value dr)
                              ∧ Dict.get m col = Some (d_tissue dr)) sub)
         (collect_disease age_column m fdd cols).
Proof.
  induction cols as [|col cols IH]; simpl; [done|].
  assert (Forall (λ sub,
            sub ≠ []
            ∧ Forall (λ dr, ∃ col' r, col' ∈ col :: cols ∧ r ∈ rows fdd
                              ∧ r age_column = Some (d_age dr)
                              ∧ r col' = Some (d_value dr)
                              ∧ Dict.get m col' = Some (d_tissue dr)) sub)
            (collect_disease age_column m fdd cols)) as IH'.
  { eapply Forall_impl; [exact IH|]. intros sub [Hne Hsub]. split; [done|].
    eapply Forall_impl; [exact Hsub|]. intros dr (c & r & Hc & H).
    exists c, r. split; [by right | done]. }
  destruct (disease_subset age_column m fdd col) as [[|dr sub]|e] eqn:E; [done | | done].
  constructor; [|done]. split; [done|].
  eapply Forall_impl; [exact (disease_subset_rows _ _ _ _ _ E)|].
  intros dr' (r & H). exists col, r. split; [left | done].
Qed.

Lemma store_stage_calls (s t b : string) (st : LoopState) :
  r_calls (store_stage s t b st).1 = r_calls st.
Proof.
  unfold store_stage. destruct (result_var st) as [r|]; [|done].
  destruct (build_model_params r); [|done].
  by destruct (results_set _ _ _ _ _).
Qed.

Lemma tissue_biomarkers_elem (btm : gmap string string) (bs : list string)
    (t : string) (tbs : list string) :
  tissue_biomarkers btm bs t = Ok tbs →
  ∀ b, b ∈ tbs → b ∈ bs ∧ btm !! b = Some t.
Proof.
  revert tbs. induction bs as [|b0 bs IH]; intros tbs; simpl.
  - intros [= <-] b Hb. by apply elem_of_nil in Hb.
  - unfold tissue_of. destruct (btm !! b0) as [tb|] eqn:Eb; [|done].
    rewrite bind_Ok_l. destruct (tissue_biomarkers btm bs t) as [tl|]; [|done].
    rewrite bind_Ok_l. intros [= <-] b Hb.
    destruct (String.eqb tb t) eqn:E.
    + apply String.eqb_eq in E as ->.
      apply elem_of_cons in Hb as [-> | Hb]; [split; [left | done]|].
      destruct (IH tl eq_refl b Hb). split; [by right | done].
    + destruct (IH tl eq_refl b Hb). split; [by right | done].
Qed.

Section CallFacts.
Variable R : FitArgs → res RResult.
Variables (save_path age_column sex_column : string) (smoothing : bool).
Variable dtm : option (Dict.t string).
Variable input_data : DataFrame.
Variables (biomarkers : list string) (btm : gmap string string).
Variables (tissue_types sex_labels : list string).

Lemma fit_stage_calls (disease_data : option DataFrame) (s t b : string)
    (fdd : option DataFrame) (has : bool) (st : LoopState) :
  s ∈ sex_labels → t ∈ tissue_types → b ∈ biomarkers → btm !! b = Some t →
  (∀ f, fdd = Some f →
        ∃ dd, disease_data = Some dd ∧ f = rows_of_sex dd sex_column s) →
  Forall (call_ok save_path age_column sex_column smoothing dtm input_data
            disease_data biomarkers btm tissue_types sex_labels) (r_calls st) →
  Forall (call_ok save_path age_column sex_column smoothing dtm input_data
            disease_data biomarkers btm tissue_types sex_labels)
         (r_calls (fit_stage R save_path age_column smoothing dtm s t b
                     (rows_of_sex input_data sex_column s) fdd has st).1).
Proof.
  intros Hs Ht Hb Hbt Hfdd Hst.
  assert (∀ a, call_ok save_path age_column sex_column smoothing dtm input_data
                 disease_data biomarkers btm tissue_types sex_labels a →
               Forall (call_ok save_path age_column sex_column smoothing dtm
                         input_data disease_data biomarkers btm tissue_types
                         sex_labels)
                      (r_calls (assign_result R a st).1)) as Hassign.
  { intros a Ha. unfold assign_result, run_r_script_from_file.
    destruct (R a); simpl; apply Forall_app; split; try done; by constructor. }
  assert (call_ok save_path age_column sex_column smoothing dtm input_data
            disease_data biomarkers btm tissue_types sex_labels
            (plain_args save_path age_column smoothing s b
               (rows_of_sex input_data sex_column s))) as Hplain.
  { unfold call_ok, plain_args. simpl. do 5 (split; [done|]).
    split; [exists t; by repeat split|]. split; [done|]. by intros d. }
  unfold fit_stage.
  destruct has; [|by apply Hassign].
  destruct dtm as [m|] eqn:Edtm; [|by apply Hassign].
  destruct fdd as [f|]; [|by apply Hassign].
  destruct (Hfdd f eq_refl) as (dd & Hdd & ->).
  destruct (disease_cols (Dict.keys m) b) as [|c cols] eqn:Ec; [by apply Hassign|].
  rewrite <- Ec.
  pose proof (collect_disease_spec age_column m (rows_of_sex dd sex_column s)
                (disease_cols (Dict.keys m) b)) as Hcol.
  destruct (collect_disease age_column m (rows_of_sex dd sex_column s)
              (disease_cols (Dict.keys m) b)) as [|sub subs]; [done|].
  apply Hassign. unfold call_ok, disease_args. simpl. do 5 (split; [done|]).
  split; [exists t; repeat split; try done; by intros d [= <-]|].
  split; [done|]. intros d [= <-]. simpl. split.
  - apply Forall_cons in Hcol as [[Hne _] _]. by destruct sub.
  - change (sub ++ concat subs) with (concat (sub :: subs)).
    apply Forall_concat. eapply Forall_impl; [exact Hcol|].
    intros sub' [_ Hsub]. eapply Forall_impl; [exact Hsub|].
    intros dr (col & r & Hc & Hr & Hage & Hval & Htis).
    unfold rows_of_sex in Hr. simpl in Hr.
    apply list_elem_of_In, filter_In in Hr as [Hr Hsex].
    exists m, dd, col, r. repeat split; try done. by apply list_elem_of_In.
Qed.

Lemma process_combination_calls (disease_data : option DataFrame) (s t b : string)
    (fdd : option DataFrame) (has : bool) (st : LoopState) :
  s ∈ sex_labels → t ∈ tissue_types → b ∈ biomarkers → btm !! b = Some t →
  (∀ f, fdd = Some f →
        ∃ dd, disease_data = Some dd ∧ f = rows_of_sex dd sex_column s) →
  Forall (call_ok save_path age_column sex_column smoothing dtm input_data
            disease_data biomarkers btm tissue_types sex_labels) (r_calls st) →
  Forall (call_ok save_path age_column sex_column smoothing dtm input_data
            disease_data biomarkers btm tissue_types sex_labels)
         (r_calls (process_combination R save_path age_column smoothing dtm s t b
                     (rows_of_sex input_data sex_column s) fdd has st)).
Proof.
  intros Hs Ht Hb Hbt Hfdd Hst. unfold process_combination, try_block.
  pose proof (fit_stage_calls disease_data s t b fdd has st Hs Ht Hb Hbt Hfdd Hst)
    as Hfit.
  destruct (fit_stage _ _ _ _ _ _ _ _ _ _ _ _) as [st1 [[]|e]]; simpl in *; [|done].
  by rewrite store_stage_calls.
Qed.

Lemma tissue_round_calls (disease_data : option DataFrame) (s : string)
    (fdd : option DataFrame) (has : bool) (t : string) (st : LoopState) :
  s ∈ sex_labels → t ∈ tissue_types →
  (∀ f, fdd = Some f →
        ∃ dd, disease_data = Some dd ∧ f = rows_of_sex dd sex_column s) →
  Forall (call_ok save_path age_column sex_column smoothing dtm input_data
            disease_data biomarkers btm tissue_types sex_labels) (r_calls st) →
  Forall (call_ok save_path age_column sex_column smoothing dtm input_data
            disease_data biomarkers btm tissue_types sex_labels)
         (r_calls (tissue_round R save_path age_column smoothing dtm biomarkers btm
                     s (rows_of_sex input_data sex_column s) fdd has t st).1).
Proof.
  intros Hs Ht Hfdd Hst. unfold tissue_round.
  destruct (tissue_biomarkers btm biomarkers t) as [tbs|e] eqn:E; [|done].
  pose proof (tissue_biomarkers_elem _ _ _ _ E) as Htbs. simpl. clear E.
  revert st Hst. induction tbs as [|b tbs IH]; intros st Hst; simpl; [done|].
  apply IH; [intros x Hx; apply Htbs; by right|].
  destruct (Htbs b) as [Hb Hbt]; [left|]. by apply process_combination_calls.
Qed.

Lemma sex_round_calls (disease_data : option DataFrame) (s : string)
    (st : LoopState) :
  s ∈ sex_labels →
  Forall (call_ok save_path age_column sex_column smoothing dtm input_data
            disease_data biomarkers btm tissue_types sex_labels) (r_calls st) →
  Forall (call_ok save_path age_column sex_column smoothing dtm input_data
            disease_data biomarkers btm tissue_types sex_labels)
         (r_calls (sex_round R save_path age_column sex_column smoothing dtm
                     input_data disease_data biomarkers btm tissue_types s st).1).
Proof.
  intros Hs Hst. unfold sex_round, where_eq.
  destruct (has_column input_data sex_column); [|done].
  fold (rows_of_sex input_data sex_column s).
  destruct disease_data as [dd|].
  - destruct (has_column dd sex_column); [|done].
    fold (rows_of_sex dd sex_column s).
    apply for_each_pres; [|done]. intros t st' Ht Hst'.
    apply tissue_round_calls; try done. intros f [= <-]. by exists dd.
  - apply for_each_pres; [|done]. intros t st' Ht Hst'.
    by apply tissue_round_calls.
Qed.

Lemma loop_calls (disease_data : option DataFrame) :
  Forall (call_ok save_path age_column sex_column smoothing dtm input_data
            disease_data biomarkers btm tissue_types sex_labels)
         (r_calls (combination_loop R save_path age_column sex_column smoothing dtm
                     input_data disease_data biomarkers btm tissue_types
                     sex_labels).1).
Proof.
  unfold combination_loop. apply for_each_pres; [|done].
  intros s st Hs Hst. by apply sex_round_calls.
Qed.
End CallFacts.

(** X8.  Every call the loop makes to the fitting script, with or without
    disease data and whatever the script returns: it names the script
    chosen by the smoothing flag, the age column and the save path; its sex
    is one of the sex labels and its input data are the rows of that sex;
    its biomarker is one of the biomarkers, mapped to one of the tissue
    types, which is the tissue type passed with a disease table; and a
    disease table, when passed, is not empty and each of its rows comes
    from a row of that sex of the disease sheet, with the age and the value
    of a selected disease column both present and the tissue the disease
    map gives that column. *)
Theorem X8_every_call_to_the_script
    (R : FitArgs → res RResult) (save_path age_column sex_column : string)
    (smoothing : bool) (dtm : option (Dict.t string))
    (input_data : DataFrame) (disease_data : option DataFrame)
    (biomarkers : list string) (btm : gmap string string)
    (tissue_types sex_labels : list string) :
  Forall (call_ok save_path age_column sex_column smoothing dtm input_data
            disease_data biomarkers btm tissue_types sex_labels)
         (r_calls (combination_loop R save_path age_column sex_column smoothing dtm
                     input_data disease_data biomarkers btm tissue_types
                     sex_labels).1).
Proof. apply loop_calls. Qed.


(** ** Where the stored entries come from *)

Lemma entry_from_more (R : FitArgs → res RResult) (calls extra : list FitArgs)
    (e : Entry) :
  entry_from R calls e → entry_from R (calls ++ extra) e.
Proof.
  intros (a & r & mp & Ha & H). exists a, r, mp. split; [|done].
  apply elem_of_app. by left.
Qed.

Section StoredFacts.
Variable R : FitArgs → res RResult.
Variables (save_path age_column sex_column : string) (smoothing : bool).
Variable dtm : option (Dict.t string).
Variables (biomarkers : list string) (btm : gmap string string).
Variables (tissue_types sex_labels : list string).

Lemma assign_result_stored (a : FitArgs) (st : LoopState) :
  stored_inv R biomarkers btm tissue_types sex_labels st →
  stored_inv R biomarkers btm tissue_types sex_labels (assign_result R a st).1.
Proof.
  intros [Hres Hvar]. unfold assign_result, run_r_script_from_file.
  destruct (R a) as [r|e] eqn:ER; simpl; split; simpl.
  - intros t s b e He. destruct (Hres t s b e He) as (? & ? & ? & ? & Hfrom).
    repeat split; try done. by apply entry_from_more.
  - intros r' [= <-]. exists a. split; [|done]. apply elem_of_app. right. left.
  - intros t s b e' He. destruct (Hres t s b e' He) as (? & ? & ? & ? & Hfrom).
    repeat split; try done. by apply entry_from_more.
  - intros r Hr. destruct (Hvar r Hr) as (a' & Ha' & HR). exists a'.
    split; [|done]. apply elem_of_app. by left.
Qed.

Lemma fit_stage_stored (s t b : string) (fid : DataFrame) (fdd : option DataFrame)
    (has : bool) (st : LoopState) :
  stored_inv R biomarkers btm tissue_types sex_labels st →
  stored_inv R biomarkers btm tissue_types sex_labels
    (fit_stage R save_path age_column smoothing dtm s t b fid fdd has st).1.
Proof.
  intros Hst. unfold fit_stage.
  destruct has; [|by apply assign_result_stored].
  destruct dtm as [m|]; [|by apply assign_result_stored].
  destruct fdd as [f|]; [|by apply assign_result_stored].
  destruct (disease_cols (Dict.keys m) b) as [|c cols]; [by apply assign_result_stored|].
  destruct (collect_disease age_column m f (c :: cols)); [done|].
  by apply assign_result_stored.
Qed.

Lemma store_stage_stored (s t b : string) (st : LoopState) :
  s ∈ sex_labels → t ∈ tissue_types → b ∈ biomarkers → btm !! b = Some t →
  stored_inv R biomarkers btm tissue_types sex_labels st →
  stored_inv R biomarkers btm tissue_types sex_labels (store_stage s t b st).1.
Proof.
  intros Hs Ht Hb Hbt [Hres Hvar].
  assert (∀ t' s' b' e,
            results_get (ensure_sex t s (ensure_tissue t (results st))) t' s' b'
            = Some e →
            s' ∈ sex_labels ∧ t' ∈ tissue_types ∧ b' ∈ biomarkers
            ∧ btm !! b' = Some t' ∧ entry_from R (r_calls st) e) as Hens.
  { intros t' s' b' e.
    rewrite results_get_ensure_sex, results_get_ensure_tissue. apply Hres. }
  unfold store_stage. destruct (result_var st) as [r|] eqn:Er; [|by split].
  destruct (build_model_params r) as [mp|] eqn:Emp; [|by split].
  destruct (results_set_ensured t s b (mkEntry mp (rx_centile_data r)) (results st))
    as [rs' Hset].
  rewrite Hset. split; simpl; [|done]. intros t' s' b' e.
  rewrite (results_get_set _ _ _ _ _ _ _ _ _ Hset). case_decide as Hk.
  - destruct Hk as (<- & <- & <-). intros [= <-]. repeat split; try done.
    destruct (Hvar r eq_refl) as (a & Ha & HR). by exists a, r, mp.
  - apply Hens.
Qed.

Lemma process_combination_stored (s t b : string) (fid : DataFrame)
    (fdd : option DataFrame) (has : bool) (st : LoopState) :
  s ∈ sex_labels → t ∈ tissue_types → b ∈ biomarkers → btm !! b = Some t →
  stored_inv R biomarkers btm tissue_types sex_labels st →
  stored_inv R biomarkers btm tissue_types sex_labels
    (process_combination R save_path age_column smoothing dtm s t b fid fdd has st).
Proof.
  intros Hs Ht Hb Hbt Hst. unfold process_combination, try_block.
  pose proof (fit_stage_stored s t b fid fdd has st Hst) as Hfit.
  destruct (fit_stage _ _ _ _ _ _ _ _ _ _ _ _) as [st1 [[]|e]]; simpl in *; [|done].
  by apply store_stage_stored.
Qed.

Lemma tissue_round_stored (s : string) (fid : DataFrame) (fdd : option DataFrame)
    (has : bool) (t : string) (st : LoopState) :
  s ∈ sex_labels → t ∈ tissue_types →
  stored_inv R biomarkers btm tissue_types sex_labels st →
  stored_inv R biomarkers btm tissue_types sex_labels
    (tissue_round R save_path age_column smoothing dtm biomarkers btm
       s fid fdd has t st).1.
Proof.
  intros Hs Ht Hst. unfold tissue_round.
  destruct (tissue_biomarkers btm biomarkers t) as [tbs|e] eqn:E; [|done].
  pose proof (tissue_biomarkers_elem _ _ _ _ E) as Htbs. simpl. clear E.
  revert st Hst. induction tbs as [|b tbs IH]; intros st Hst; simpl; [done|].
  apply IH; [intros x Hx; apply Htbs; by right|].
  destruct (Htbs b) as [Hb Hbt]; [left|]. by apply process_combination_stored.
Qed.

Lemma loop_stored (input_data : DataFrame) (disease_data : option DataFrame) :
  stored_inv R biomarkers btm tissue_types sex_labels
    (combination_loop R save_path age_column sex_column smoothing dtm
       input_data disease_data biomarkers btm tissue_types sex_labels).1.
Proof.
  unfold combination_loop. apply for_each_pres.
  - intros s st Hs Hst. unfold sex_round.
    destruct (where_eq input_data sex_column s) as [fid|]; [|done].
    destruct disease_data as [dd|].
    + destruct (where_eq dd sex_column s) as [fdd|]; [|done].
      apply for_each_pres; [|done]. intros t st' Ht Hst'.
      by apply tissue_round_stored.
    + apply for_each_pres; [|done]. intros t st' Ht Hst'.
      by apply tissue_round_stored.
  - split; [|done]. intros t s b e. unfold results_get. simpl.
    by rewrite lookup_empty.
Qed.
End StoredFacts.

(** X9.  What the results of the loop can hold, with or without disease
    data and whatever the script returns: an entry is stored only under a
    sex label, a tissue type and a biomarker that the map gives that
    tissue, and it is made of the model parameters and the centile table of
    a result that the script returned on one of the calls of the run. *)
Theorem X9_stored_entries_come_from_calls
    (R : FitArgs → res RResult) (save_path age_column sex_column : string)
    (smoothing : bool) (dtm : option (Dict.t string))
    (input_data : DataFrame) (disease_data : option DataFrame)
    (biomarkers : list string) (btm : gmap string string)
    (tissue_types sex_labels : list string) (t s b : string) (e : Entry) :
  let out := combination_loop R save_path age_column sex_column smoothing dtm
               input_data disease_data biomarkers btm tissue_types sex_labels in
  results_get (results out.1) t s b = Some e →
  s ∈ sex_labels ∧ t ∈ tissue_types ∧ b ∈ biomarkers ∧ btm !! b = Some t
  ∧ entry_from R (r_calls out.1) e.
Proof.
  intros out.
  by apply (loop_stored R save_path age_column sex_column smoothing dtm biomarkers
              btm tissue_types sex_labels input_data disease_data).
Qed.

Lemma X9_stored_entries_come_from_calls_witness :
  "F" ∈ ["F"] ∧ "WM" ∈ ["WM"] ∧ "WM_MD" ∈ ["WM_MD"]
  ∧ ({["WM_MD" := "WM"]} : gmap string string) !! "WM_MD" = Some "WM"
  ∧ entry_from fit_succeeds
      (r_calls (combination_loop fit_succeeds "out" "Age" "Sex" false None normalsF
                  None ["WM_MD"] {["WM_MD" := "WM"]} ["WM"] ["F"]).1)
      entry1.
Proof.
  apply (X9_stored_entries_come_from_calls fit_succeeds "out" "Age" "Sex" false None
           normalsF None ["WM_MD"] {["WM_MD" := "WM"]} ["WM"] ["F"] "WM" "F" "WM_MD"
           entry1).
  vm_compute. reflexivity.
Defined.

(** ** How the loop ends *)

Lemma tissue_biomarkers_cases (btm : gmap string string) (bs : list string)
    (t : string) :
  (Forall (λ c, is_Some (btm !! c)) bs ∧ ∃ tbs, tissue_biomarkers btm bs t = Ok tbs)
  ∨ (¬ Forall (λ c, is_Some (btm !! c)) bs
     ∧ ∃ k, tissue_biomarkers btm bs t = Raise (KeyError k)
            ∧ k ∈ bs ∧ btm !! k = None).
Proof.
  induction bs as [|b bs IH]; simpl.
  - left. split; [done | by eexists].
  - unfold tissue_of. destruct (btm !! b) as [tb|] eqn:Eb.
    + rewrite bind_Ok_l. destruct IH as [[Hall [tbs ->]] | [Hnot (k & -> & Hk & Hnone)]].
      * left. split; [by constructor | by eexists].
      * right. split; [by intros [_ ?]%Forall_cons|].
        exists k. split; [done|]. split; [by right | done].
    + right. split.
      * intros [[x Hx] _]%Forall_cons. congruence.
      * exists b. split; [done|]. split; [left | done].
Qed.

Lemma loop_runs_through (R : FitArgs → res RResult)
    (save_path age_column sex_column : string) (smoothing : bool)
    (dtm : option (Dict.t string)) (input_data : DataFrame)
    (disease_data : option DataFrame) (biomarkers : list string)
    (btm : gmap string string) (tissue_types sex_labels : list string) :
  sex_column ∈ columns input_data →
  (∀ dd, disease_data = Some dd → sex_column ∈ columns dd) →
  tissue_types = [] ∨ Forall (λ c, is_Some (btm !! c)) biomarkers →
  (combination_loop R save_path age_column sex_column smoothing dtm input_data
     disease_data biomarkers btm tissue_types sex_labels).2 = Ok ().
Proof.
  intros Hsex Hdsex Hmap. unfold combination_loop.
  assert (∀ s fid fdd has t st,
            t ∈ tissue_types →
            (tissue_round R save_path age_column smoothing dtm biomarkers btm
               s fid fdd has t st).2 = Ok ()) as Hround.
  { intros s fid fdd has t st Ht. destruct Hmap as [-> | Hall].
    - by apply elem_of_nil in Ht.
    - unfold tissue_round. by rewrite (tissue_biomarkers_filter _ _ _ Hall). }
  apply (for_each_keeps (λ _ _, True) _ sex_labels) with (done := []); [|done].
  intros s st done _ _. split; [|done]. unfold sex_round.
  rewrite where_eq_Ok by done. destruct disease_data as [dd|].
  - rewrite where_eq_Ok by by apply Hdsex.
    apply (for_each_keeps (λ _ _, True) _ tissue_types) with (done := []); [|done].
    intros t st' done' Ht _. split; [by apply Hround | done].
  - apply (for_each_keeps (λ _ _, True) _ tissue_types) with (done := []); [|done].
    intros t st' done' Ht _. split; [by apply Hround | done].
Qed.

Lemma loop_ends_or_raises
    (R : FitArgs → res RResult) (save_path age_column sex_column : string)
    (smoothing : bool) (dtm : option (Dict.t string))
    (input_data : DataFrame) (disease_data : option DataFrame)
    (biomarkers : list string) (btm : gmap string string)
    (tissue_types sex_labels : list string) :
  let out := combination_loop R save_path age_column sex_column smoothing dtm
               input_data disease_data biomarkers btm tissue_types sex_labels in
  (out.2 = Ok ()
   ∨ ∃ k, out = (init_loop, Raise (KeyError k))
          ∧ (k = sex_column ∨ (k ∈ biomarkers ∧ btm !! k = None)))
  ∧ (out.2 = Ok ()
     ↔ sex_labels = []
       ∨ (sex_column ∈ columns input_data
          ∧ (∀ dd, disease_data = Some dd → sex_column ∈ columns dd)
          ∧ (tissue_types = [] ∨ Forall (λ c, is_Some (btm !! c)) biomarkers))).
Proof.
  intros out.
  destruct sex_labels as [|s rest]; [split; [by left | split; [by left | done]]|].
  assert (∀ k, out = (init_loop, Raise (KeyError k)) →
               ¬ (sex_column ∈ columns input_data
                  ∧ (∀ dd, disease_data = Some dd → sex_column ∈ columns dd)
                  ∧ (tissue_types = [] ∨ Forall (λ c, is_Some (btm !! c)) biomarkers)) →
               (k = sex_column ∨ (k ∈ biomarkers ∧ btm !! k = None)) →
               (out.2 = Ok ()
                ∨ ∃ k, out = (init_loop, Raise (KeyError k))
                       ∧ (k = sex_column ∨ (k ∈ biomarkers ∧ btm !! k = None)))
               ∧ (out.2 = Ok ()
                  ↔ s :: rest = []
                    ∨ (sex_column ∈ columns input_data
                       ∧ (∀ dd, disease_data = Some dd → sex_column ∈ columns dd)
                       ∧ (tissue_types = []
                          ∨ Forall (λ c, is_Some (btm !! c)) biomarkers)))) as Hraise.
  { intros k Hout Hnot Hk. split; [right; by exists k|].
    rewrite Hout. simpl. split; [done|]. by intros [? | ?]. }
  destruct (decide (sex_column ∈ columns input_data)) as [Hsex | Hsex].
  2:{ apply (Hraise sex_column); [| tauto | by left].
      unfold out, combination_loop. simpl. unfold sex_round, where_eq, has_column.
      by rewrite bool_decide_eq_false_2. }
  assert (Decision (∀ dd, disease_data = Some dd → sex_column ∈ columns dd)) as [Hd | Hd].
  { destruct disease_data as [dd|].
    - destruct (decide (sex_column ∈ columns dd)) as [Hin | Hnin].
      + left. by intros ? [= <-].
      + right. intros H. by apply Hnin, H.
    - by left. }
  2:{ apply (Hraise sex_column); [| tauto | by left].
      unfold out, combination_loop. simpl. unfold sex_round.
      rewrite where_eq_Ok by done. destruct disease_data as [dd|].
      - unfold where_eq, has_column. rewrite bool_decide_eq_false_2; [done|].
        intros Hin. apply Hd. by intros ? [= <-].
      - exfalso. by apply Hd. }
  destruct tissue_types as [|t ts] eqn:Ets.
  { assert (out.2 = Ok ()) as Hok.
    { apply loop_runs_through; [done | done | by left]. }
    split; [by left|]. split; [|done]. intros _. right. split; [done|].
    split; [done | by left]. }
  destruct (tissue_biomarkers_cases btm biomarkers t)
    as [[Hall _] | [Hnot (k & Hk & Hin & Hnone)]].
  - assert (out.2 = Ok ()) as Hok.
    { apply loop_runs_through; [done | done | by right]. }
    split; [by left|]. split; [|done]. intros _. right. split; [done|].
    split; [done | by right].
  - apply (Hraise k); [| | by right].
    + unfold out, combination_loop. simpl. unfold sex_round.
      rewrite where_eq_Ok by done. destruct disease_data as [dd|].
      * rewrite where_eq_Ok by by apply Hd. simpl. unfold tissue_round.
        by rewrite Hk.
      * simpl. unfold tissue_round. by rewrite Hk.
    + intros (_ & _ & [? | ?]); [done | by apply Hnot].
Qed.

(** X10.  How the loop ends, whatever the script does.  It either runs to
    its end or raises a [KeyError] in its very first round, before any call
    of the script and with nothing stored: for the sex column, when the
    input sheet or the disease sheet lacks it, or for the first biomarker
    that the tissue map does not know.  It runs to its end exactly when
    there is no sex label, or both sheets have the sex column and either
    there is no tissue type or every biomarker has a tissue. *)
Theorem X10_loop_ends_or_raises_at_once
    (R : FitArgs → res RResult) (save_path age_column sex_column : string)
    (smoothing : bool) (dtm : option (Dict.t string))
    (input_data : DataFrame) (disease_data : option DataFrame)
    (biomarkers : list string) (btm : gmap string string)
    (tissue_types sex_labels : list string) :
  let out := combination_loop R save_path age_column sex_column smoothing dtm
               input_data disease_data biomarkers btm tissue_types sex_labels in
  (out.2 = Ok ()
   ∨ ∃ k, out = (init_loop, Raise (KeyError k))
          ∧ (k = sex_column ∨ (k ∈ biomarkers ∧ btm !! k = None)))
  ∧ (out.2 = Ok ()
     ↔ sex_labels = []
       ∨ (sex_column ∈ columns input_data
          ∧ (∀ dd, disease_data = Some dd → sex_column ∈ columns dd)
          ∧ (tissue_types = [] ∨ Forall (λ c, is_Some (btm !! c)) biomarkers))).
Proof. apply loop_ends_or_raises. Qed.


(** ** The plot on columns and labels that the sheet does not have *)

Lemma column_missing (df : DataFrame) (col : string) :
  col ∉ columns df → column df col = Raise (KeyError col).
Proof. intros H. unfold column, has_column. by rewrite bool_decide_eq_false_2. Qed.

Lemma not_unique_count (cells : list cell) (g : string) :
  g ∉ unique cells → count_label cells g = 0%nat.
Proof.
  unfold unique. rewrite unique_from_elem, elem_label_count. intros H.
  destruct (count_label cells g); [done|]. exfalso. apply H. split; [lia|].
  apply not_elem_of_nil.
Qed.

Lemma hist_loop_unknown (input_data : DataFrame) (sex_column age_column : string)
    (bins : list (option Q)) (i : nat) (pre : list string) (g : string)
    (post : list string) :
  sex_column ∈ columns input_data →
  age_column ∈ columns input_data →
  pre ⊆ unique (cells_of input_data sex_column) →
  (i + List.length pre ≤ 3)%nat →
  g ∉ unique (cells_of input_data sex_column) →
  hist_loop input_data sex_column age_column (cells_of input_data sex_column)
    bins i (pre ++ g :: post) = Raise (KeyError g).
Proof.
  intros Hsex Hage. revert i. induction pre as [|x pre IH]; intros i Hsub Hlen Hg; simpl.
  - unfold hist_call. rewrite where_eq_Ok by done. simpl.
    rewrite column_Ok by done. simpl.
    unfold counts_getitem, value_counts. by rewrite (not_unique_count _ _ Hg).
  - rewrite (hist_call_present input_data sex_column age_column bins Hsex Hage)
      by (apply Hsub; left).
    destruct (colors !! i) as [color|] eqn:Ec.
    2:{ apply lookup_ge_None in Ec. simpl in *. lia. }
    simpl. rewrite IH; [done | | simpl in *; lia | done].
    intros y Hy. apply Hsub. by right.
Qed.

Lemma compute_plot_raises (R : FitArgs → res RResult) (pickle_dumps : Results → bytes)
    (fs : gmap string file) (input_data : DataFrame) (save_path : string)
    (biomarkers : list string) (btm : gmap string string)
    (tissue_types : list string) (sex_column : string) (sex_labels : list string)
    (age_column : string) (disease_data : option DataFrame)
    (dtm : option (Dict.t string)) (smoothing : bool) (e : exn) :
  age_distribution_plot input_data sex_column age_column sex_labels = Raise e →
  compute_growth_curves R pickle_dumps fs input_data save_path biomarkers btm
    tissue_types sex_column sex_labels age_column disease_data dtm smoothing
  = (mkWorld fs [], Raise e).
Proof. intros H. unfold compute_growth_curves. by rewrite H. Qed.




(** ** The files [compute_growth_curves] writes *)

Lemma app_inv_head_str (a b c : string) : a +:+ b = a +:+ c → b = c.
Proof.
  induction a as [|ch a IH]; simpl; [done|]. intros [= H]. by apply IH.
Qed.

Lemma path_join_plain (a b : string) :
  Str.startswith b "/" = false →
  path_join a b = a +:+ b ∨ path_join a b = a +:+ "/" +:+ b.
Proof.
  intros Hb. unfold path_join. rewrite Hb.
  destruct (String.eqb a EmptyString || Str.endswith a "/"); [by left | by right].
Qed.

Lemma plot_path_not_pickle (save_path : string) :
  save_path +:+ "/dataset_age_distribution.png" ≠ path_join save_path "results.pkl".
Proof.
  destruct (path_join_plain save_path "results.pkl" eq_refl) as [-> | ->];
    intros H%app_inv_head_str; discriminate H.
Qed.

Lemma compute_file_effects
    (R : FitArgs → res RResult) (pickle_dumps : Results → bytes)
    (fs : gmap string file) (input_data : DataFrame) (save_path : string)
    (biomarkers : list string) (btm : gmap string string)
    (tissue_types : list string) (sex_column : string) (sex_labels : list string)
    (age_column : string) (disease_data : option DataFrame)
    (dtm : option (Dict.t string)) (smoothing : bool) :
  let out := compute_growth_curves R pickle_dumps fs input_data save_path
               biomarkers btm tissue_types sex_column sex_labels age_column
               disease_data dtm smoothing in
  let loop := combination_loop R save_path age_column sex_column smoothing dtm
                input_data disease_data biomarkers btm tissue_types sex_labels in
  let plot := save_path +:+ "/dataset_age_distribution.png" in
  let pkl := path_join save_path "results.pkl" in
  (∀ p, p ≠ plot → p ≠ pkl → files out.1 !! p = fs !! p)
  ∧ (calls out.1 ≠ [] →
     calls out.1 = r_calls loop.1 ∧ ∃ fig, files out.1 !! plot = Some (PngFile fig))
  ∧ (out.2 ≠ Ok () → files out.1 !! pkl = fs !! pkl)
  ∧ (out.2 = Ok () →
     loop.2 = Ok ()
     ∧ calls out.1 = r_calls loop.1
     ∧ (∃ fig, files out.1 !! plot = Some (PngFile fig))
     ∧ files out.1 !! pkl = Some (PickleFile (pickle_dumps (results loop.1)))).
Proof.
  intros out loop plot pkl. unfold out, compute_growth_curves.
  destruct (age_distribution_plot input_data sex_column age_column sex_labels)
    as [fig|e]; [|by repeat split].
  fold loop. fold plot. fold pkl.
  assert (plot ≠ pkl) as Hne by apply plot_path_not_pickle.
  destruct loop as [st [[]|e]]; simpl.
  - split; [intros p Hp Hq; by rewrite !lookup_insert_ne|].
    split; [intros _; split; [done|]; exists fig;
            by rewrite lookup_insert_ne, lookup_insert_eq|].
    split; [done|]. intros _. split; [done|]. split; [done|].
    split; [exists fig; by rewrite lookup_insert_ne, lookup_insert_eq|].
    by rewrite lookup_insert_eq.
  - split; [intros p Hp Hq; by rewrite lookup_insert_ne|].
    split; [intros _; split; [done|]; exists fig; by rewrite lookup_insert_eq|].
    split; [intros _; by rewrite lookup_insert_ne | done].
Qed.

(** X12.  The files of a call of [compute_growth_curves], whatever the
    script does: no path but the plot's and the pickle's is written; the
    plot is on disk whenever the script was called at all, so it is saved
    before the first fit; the pickle is left as it was when the call ends
    with an exception; and when the call returns, the plot is on disk and
    the pickle holds the results the loop ended with. *)
Theorem X12_compute_file_effects
    (R : FitArgs → res RResult) (pickle_dumps : Results → bytes)
    (fs : gmap string file) (input_data : DataFrame) (save_path : string)
    (biomarkers : list string) (btm : gmap string string)
    (tissue_types : list string) (sex_column : string) (sex_labels : list string)
    (age_column : string) (disease_data : option DataFrame)
    (dtm : option (Dict.t string)) (smoothing : bool) :
  let out := compute_growth_curves R pickle_dumps fs input_data save_path
               biomarkers btm tissue_types sex_column sex_labels age_column
               disease_data dtm smoothing in
  let loop := combination_loop R save_path age_column sex_column smoothing dtm
                input_data disease_data biomarkers btm tissue_types sex_labels in
  let plot := save_path +:+ "/dataset_age_distribution.png" in
  let pkl := path_join save_path "results.pkl" in
  (∀ p, p ≠ plot → p ≠ pkl → files out.1 !! p = fs !! p)
  ∧ (calls out.1 ≠ [] →
     calls out.1 = r_calls loop.1 ∧ ∃ fig, files out.1 !! plot = Some (PngFile fig))
  ∧ (out.2 ≠ Ok () → files out.1 !! pkl = fs !! pkl)
  ∧ (out.2 = Ok () →
     loop.2 = Ok ()
     ∧ calls out.1 = r_calls loop.1
     ∧ (∃ fig, files out.1 !! plot = Some (PngFile fig))
     ∧ files out.1 !! pkl = Some (PickleFile (pickle_dumps (results loop.1)))).
Proof. apply compute_file_effects. Qed.


(** ** The sections of the report *)

Lemma all_genders_elem (rs : Results) (s : string) :
  s ∈ all_genders rs ↔ ∃ t by_sex, rs !! t = Some by_sex ∧ is_Some (by_sex !! s).
Proof.
  unfold all_genders. rewrite elem_of_union_list. split.
  - intros (X & HX & Hs). apply list_elem_of_In, in_map_iff in HX as ([t by_sex] & <- & Hin).
    apply list_elem_of_In, elem_of_map_to_list in Hin. simpl in Hs.
    exists t, by_sex. split; [done|]. by apply elem_of_dom.
  - intros (t & by_sex & Ht & Hs). exists (dom by_sex). split; [|by apply elem_of_dom].
    apply list_elem_of_In, in_map_iff. exists (t, by_sex). split; [done|].
    by apply list_elem_of_In, elem_of_map_to_list.
Qed.

Lemma all_biomarkers_elem (rs : Results) (b : string) :
  b ∈ all_biomarkers rs ↔ ∃ t s e, results_get rs t s b = Some e.
Proof.
  unfold all_biomarkers. rewrite elem_of_union_list. split.
  - intros (X & HX & Hb). apply list_elem_of_In, in_map_iff in HX as ([t by_sex] & <- & Hin).
    apply list_elem_of_In, elem_of_map_to_list in Hin. simpl in Hb.
    apply elem_of_union_list in Hb as (Y & HY & Hb).
    apply list_elem_of_In, in_map_iff in HY as ([s by_bio] & <- & Hin').
    apply list_elem_of_In, elem_of_map_to_list in Hin'. simpl in Hb.
    apply elem_of_dom in Hb as [e He]. exists t, s, e.
    unfold results_get. by rewrite Hin, Hin'.
  - intros (t & s & e & He). unfold results_get in He.
    destruct (rs !! t) as [by_sex|] eqn:Et; [|done].
    destruct (by_sex !! s) as [by_bio|] eqn:Es; [|done].
    exists (⋃ (List.map (λ sr : string * gmap string Entry, dom sr.2)
                        (map_to_list by_sex))).
    split.
    + apply list_elem_of_In, in_map_iff. exists (t, by_sex). split; [done|].
      by apply list_elem_of_In, elem_of_map_to_list.
    + apply elem_of_union_list. exists (dom by_bio). split; [|by apply elem_of_dom].
      apply list_elem_of_In, in_map_iff. exists (s, by_bio). split; [done|].
      by apply list_elem_of_In, elem_of_map_to_list.
Qed.

Lemma biomarker_present_iff (rs : Results) (t b : string) :
  biomarker_present (all_genders rs) (default ∅ (rs !! t)) b = true
  ↔ ∃ s e, results_get rs t s b = Some e.
Proof.
  unfold biomarker_present. rewrite existsb_exists. split.
  - intros (g & _ & Hg). apply bool_decide_eq_true in Hg as [e He].
    unfold gender_data in He. rewrite <- results_get_default in He. by exists g, e.
  - intros (s & e & He). exists s. split.
    + apply list_elem_of_In, elem_of_elements, all_genders_elem.
      unfold results_get in He. destruct (rs !! t) as [by_sex|] eqn:Et; [|done].
      exists t, by_sex. split; [done|]. by destruct (by_sex !! s).
    + apply bool_decide_eq_true. exists e. unfold gender_data.
      by rewrite <- results_get_default.
Qed.

Section SectionFacts.
Variables fmt_2f fmt_6f str_float : Q → string.
Variable r_image_exists : string → bool.
Variables (fs : gmap string file) (results_folder : string).
Variable disease_tissue : option string.

Lemma heading_in_section (genders : gset string) (tissue : string)
    (tissue_data : gmap string (gmap string Entry)) (biomarker b : string)
    (sec : list flowable) :
  biomarker_section fmt_2f fmt_6f str_float r_image_exists fs results_folder
    disease_tissue genders tissue tissue_data biomarker = Ok sec →
  Paragraph ("Biomarker: " +:+ b) "Heading4" ∈ sec ↔ b = biomarker.
Proof.
  unfold biomarker_section. intros H.
  apply bind_Ok in H as (data & _ & H).
  apply bind_Ok in H as (figures & Hfig & H).
  apply bind_Ok in H as (residuals & Hres & [= <-]).
  assert (Paragraph ("Biomarker: " +:+ b) "Heading4" ∉ figures) as Hnf.
  { revert Hfig. clear. intros Hfig.
    destruct (List.existsb _ _); [|simpl in Hfig; injection Hfig as <-; apply not_elem_of_nil].
    apply bind_Ok in Hfig as (bt & _ & [= <-]).
    intros Hin. repeat (apply elem_of_cons in Hin as [Hin | Hin]; [discriminate Hin|]).
    by apply elem_of_nil in Hin. }
  assert (Paragraph ("Biomarker: " +:+ b) "Heading4" ∉ residuals) as Hnr.
  { revert Hres. clear. intros Hres.
    destruct (List.existsb _ _); [|simpl in Hres; injection Hres as <-; apply not_elem_of_nil].
    apply bind_Ok in Hres as (bt & _ & [= <-]).
    intros Hin. repeat (apply elem_of_cons in Hin as [Hin | Hin]; [discriminate Hin|]).
    by apply elem_of_nil in Hin. }
  split.
  - intros Hin. apply elem_of_cons in Hin as [Hin | Hin].
    { injection Hin as Hin. by apply app_inv_head_str in Hin. }
    do 5 (apply elem_of_cons in Hin as [Hin | Hin]; [discriminate Hin|]).
    apply elem_of_app in Hin as [Hin | Hin]; [done|].
    apply elem_of_cons in Hin as [Hin | Hin]; [discriminate Hin | done].
  - intros ->. left.
Qed.

Lemma tissue_section_headings (rs : Results) (t : string) (sect : list flowable) :
  tissue_section fmt_2f fmt_6f str_float r_image_exists fs results_folder
    disease_tissue rs t = Ok sect →
  head sect = Some (Paragraph ("Age Curves for Tissue Type: " +:+ t) "Heading3")
  ∧ ∀ b, Paragraph ("Biomarker: " +:+ b) "Heading4" ∈ sect
         ↔ ∃ s e, results_get rs t s b = Some e.
Proof.
  unfold tissue_section. intros H.
  apply bind_Ok in H as (sections & Hsec & [= <-]). split; [done|].
  apply traverse_Ok in Hsec. intros b. split.
  - intros Hin.
    do 2 (apply elem_of_cons in Hin as [Hin | Hin]; [discriminate Hin|]).
    apply list_elem_of_In, in_concat in Hin as (sec & Hsecin & Hin).
    apply list_elem_of_In in Hsecin, Hin.
    apply list_elem_of_lookup in Hsecin as [i Hi].
    destruct (Forall2_lookup_r _ _ _ _ _ Hsec Hi) as (b' & _ & Hb').
    destruct (biomarker_present (all_genders rs) (default ∅ (rs !! t)) b') eqn:Hp.
    + apply (heading_in_section _ _ _ _ b) in Hb'. apply Hb' in Hin as ->.
      by apply biomarker_present_iff.
    + injection Hb' as <-. by apply elem_of_nil in Hin.
  - intros Hentry. pose proof Hentry as (s & e & He).
    assert (b ∈ elements (all_biomarkers rs)) as Hb.
    { apply elem_of_elements, all_biomarkers_elem. eauto. }
    apply list_elem_of_lookup in Hb as [i Hi].
    destruct (Forall2_lookup_l _ _ _ _ _ Hsec Hi) as (sec & Hseci & Hsecb).
    rewrite (proj2 (biomarker_present_iff rs t b) Hentry) in Hsecb.
    right. right. apply list_elem_of_In, in_concat. exists sec.
    split; [by apply list_elem_of_In, list_elem_of_lookup; exists i|].
    apply list_elem_of_In. apply (heading_in_section _ _ _ _ b) in Hsecb.
    by apply Hsecb.
Qed.
End SectionFacts.


(** X13.  The sections of the report.  When the report can be rendered,
    its content is the front matter followed by one section per tissue of
    the loaded results; the section of a tissue starts with the heading of
    that tissue, and it has the heading of a biomarker exactly when the
    results hold an entry for that tissue and biomarker under some sex. *)
Theorem X13_report_sections
    (fmt_2f fmt_6f str_float : Q → string) (pickle_loads : bytes → res Results)
    (now : string) (r_image_exists : string → bool) (fs : gmap string file)
    (results_folder : string) (run_time : nat) (input_file : string)
    (disease_tissue : option string) :
  is_ok (report_content fmt_2f fmt_6f str_float pickle_loads now r_image_exists fs
           results_folder run_time input_file disease_tissue) = true →
  ∃ rs sections,
    load_results pickle_loads fs results_folder = Ok rs
    ∧ report_content fmt_2f fmt_6f str_float pickle_loads now r_image_exists fs
        results_folder run_time input_file disease_tissue
      = Ok (front_matter now r_image_exists fs results_folder run_time input_file
              disease_tissue ++ concat sections)
    ∧ NoDup (List.map fst (map_to_list rs))
    ∧ (∀ t, t ∈ List.map fst (map_to_list rs) ↔ is_Some (rs !! t))
    ∧ Forall2
        (λ t sect,
           head sect = Some (Paragraph ("Age Curves for Tissue Type: " +:+ t) "Heading3")
           ∧ ∀ b, Paragraph ("Biomarker: " +:+ b) "Heading4" ∈ sect
                  ↔ ∃ s e, results_get rs t s b = Some e)
        (List.map fst (map_to_list rs)) sections.
Proof.
  unfold report_content. intros Hok.
  destruct (load_results pickle_loads fs results_folder) as [rs|] eqn:Hload; [|done].
  rewrite bind_Ok_l in Hok |- *.
  destruct (traverse _ (List.map fst (map_to_list rs))) as [sections|] eqn:Hsec; [|done].
  exists rs, sections. split; [done|]. split; [done|].
  split; [apply NoDup_fst_map_to_list|]. split.
  - intros t. rewrite list_elem_of_In, in_map_iff. split.
    + intros ([t' by_sex] & <- & Hin).
      apply list_elem_of_In, elem_of_map_to_list in Hin. by eexists.
    + intros [by_sex Ht]. exists (t, by_sex). split; [done|].
      by apply list_elem_of_In, elem_of_map_to_list.
  - apply traverse_Ok in Hsec. eapply Forall2_impl; [exact Hsec|].
    intros t sect Hsect. simpl in Hsect.
    exact (tissue_section_headings _ _ _ _ _ _ _ _ _ _ Hsect).
Qed.

Lemma X13_report_sections_witness :
  ∃ rs sections,
    load_results (λ _, Ok results1) files1 "out" = Ok rs
    ∧ report_content (λ _, "120.00") (λ _, "1.000000") (λ _, "3.0")
        (λ _, Ok results1) "today" (λ _, false) files1 "out" 0 "normals.xlsx" None
      = Ok (front_matter "today" (λ _, false) files1 "out" 0 "normals.xlsx" None
              ++ concat sections)
    ∧ NoDup (List.map fst (map_to_list rs))
    ∧ (∀ t, t ∈ List.map fst (map_to_list rs) ↔ is_Some (rs !! t))
    ∧ Forall2
        (λ t sect,
           head sect = Some (Paragraph ("Age Curves for Tissue Type: " +:+ t) "Heading3")
           ∧ ∀ b, Paragraph ("Biomarker: " +:+ b) "Heading4" ∈ sect
                  ↔ ∃ s e, results_get rs t s b = Some e)
        (List.map fst (map_to_list rs)) sections.
Proof.
  apply (X13_report_sections (λ _, "120.00") (λ _, "1.000000") (λ _, "3.0")
           (λ _, Ok results1) "today" (λ _, false) files1 "out" 0 "normals.xlsx" None).
  vm_compute. reflexivity.
Defined.


(** ** The images of the report *)

Section ImageFacts.
Variables fmt_2f fmt_6f str_float : Q → string.
Variable r_image_exists : string → bool.
Variables (fs : gmap string file) (results_folder : string).
Variable disease_tissue : option string.

Lemma curve_cell_exists (biomarker gender : string) :
  Forall (λ p, path_exists r_image_exists fs p = true)
         (cell_image_paths
            (curve_cell r_image_exists fs results_folder disease_tissue biomarker gender)).
Proof.
  unfold curve_cell. cbv zeta.
  destruct (path_exists r_image_exists fs _) eqn:E; simpl; [|done].
  by constructor.
Qed.

Lemma residuals_cell_exists (biomarker gender : string) :
  Forall (λ p, path_exists r_image_exists fs p = true)
         (cell_image_paths
            (residuals_cell r_image_exists fs results_folder biomarker gender)).
Proof.
  unfold residuals_cell. cbv zeta.
  destruct (path_exists r_image_exists fs _) eqn:E; simpl; [|done].
  by constructor.
Qed.

Lemma figure_row_exists (cell : string → figure_cell) (genders : list string) :
  (∀ g, Forall (λ p, path_exists r_image_exists fs p = true) (cell_image_paths (cell g))) →
  Forall (λ p, path_exists r_image_exists fs p = true)
         (image_paths (FigureTable (List.map cell genders))).
Proof.
  intros Hcell. simpl. induction genders as [|g genders IH]; simpl; [done|].
  apply Forall_app. split; [apply Hcell | exact IH].
Qed.

Lemma biomarker_section_images (genders : gset string) (tissue : string)
    (tissue_data : gmap string (gmap string Entry)) (biomarker : string)
    (sec : list flowable) :
  biomarker_section fmt_2f fmt_6f str_float r_image_exists fs results_folder
    disease_tissue genders tissue tissue_data biomarker = Ok sec →
  Forall (λ f, Forall (λ p, path_exists r_image_exists fs p = true) (image_paths f)) sec.
Proof.
  unfold biomarker_section. intros H.
  apply bind_Ok in H as (data & _ & H).
  apply bind_Ok in H as (figures & Hfig & H).
  apply bind_Ok in H as (residuals & Hres & [= <-]).
  assert (Forall (λ f, Forall (λ p, path_exists r_image_exists fs p = true)
                         (image_paths f)) figures) as Hf.
  { revert Hfig. clear. intros Hfig.
    destruct (List.existsb _ _); [|simpl in Hfig; by injection Hfig as <-].
    apply bind_Ok in Hfig as (bt & _ & [= <-]).
    constructor; [|by repeat constructor].
    apply figure_row_exists. intros g. apply curve_cell_exists. }
  assert (Forall (λ f, Forall (λ p, path_exists r_image_exists fs p = true)
                         (image_paths f)) residuals) as Hr.
  { revert Hres. clear. intros Hres.
    destruct (List.existsb _ _); [|simpl in Hres; by injection Hres as <-].
    apply bind_Ok in Hres as (bt & _ & [= <-]).
    constructor; [|by repeat constructor].
    apply figure_row_exists. intros g. apply residuals_cell_exists. }
  do 6 (constructor; [by constructor|]).
  apply Forall_app. split; [done|]. constructor; [by constructor | done].
Qed.

Lemma tissue_section_images (rs : Results) (t : string) (sect : list flowable) :
  tissue_section fmt_2f fmt_6f str_float r_image_exists fs results_folder
    disease_tissue rs t = Ok sect →
  Forall (λ f, Forall (λ p, path_exists r_image_exists fs p = true) (image_paths f)) sect.
Proof.
  unfold tissue_section. intros H.
  apply bind_Ok in H as (sections & Hsec & [= <-]).
  do 2 (constructor; [by constructor|]).
  apply Forall_concat. apply traverse_Ok in Hsec.
  apply Forall_forall. intros sec Hin.
  apply list_elem_of_lookup in Hin as [i Hi].
  destruct (Forall2_lookup_r _ _ _ _ _ Hsec Hi) as (b & _ & Hb).
  destruct (biomarker_present _ _ b).
  - by eapply biomarker_section_images.
  - simpl in Hb. by injection Hb as <-.
Qed.
End ImageFacts.

(** X14.  The report never embeds an image that is not there: every image
    of the rendered report, the age-distribution plot as well as the curve
    and residual figures in the figure tables, is a file that exists when
    the report is built. *)
Theorem X14_report_images_exist
    (fmt_2f fmt_6f str_float : Q → string) (pickle_loads : bytes → res Results)
    (now : string) (r_image_exists : string → bool) (fs : gmap string file)
    (results_folder : string) (run_time : nat) (input_file : string)
    (disease_tissue : option string) :
  is_ok (report_content fmt_2f fmt_6f str_float pickle_loads now r_image_exists fs
           results_folder run_time input_file disease_tissue) = true →
  ∃ content,
    report_content fmt_2f fmt_6f str_float pickle_loads now r_image_exists fs
      results_folder run_time input_file disease_tissue = Ok content
    ∧ Forall (λ f, Forall (λ p, path_exists r_image_exists fs p = true) (image_paths f))
             content.
Proof.
  intros Hok.
  destruct (report_content fmt_2f fmt_6f str_float pickle_loads now r_image_exists fs
              results_folder run_time input_file disease_tissue)
    as [content|] eqn:E; [|done].
  exists content. split; [done|]. unfold report_content in E.
  apply bind_Ok in E as (rs & _ & E).
  apply bind_Ok in E as (sections & Hsec & [= <-]).
  do 3 (constructor; [by constructor|]).
  apply Forall_app. split.
  - apply Forall_app. split; [|by repeat constructor].
    destruct (path_exists r_image_exists fs _) eqn:Eage; [|done].
    constructor; [by constructor|]. constructor; [by repeat constructor|].
    by repeat constructor.
  - apply Forall_concat. apply traverse_Ok in Hsec.
    apply Forall_forall. intros sect Hin.
    apply list_elem_of_lookup in Hin as [i Hi].
    destruct (Forall2_lookup_r _ _ _ _ _ Hsec Hi) as (t & _ & Ht). simpl in Ht.
    exact (tissue_section_images _ _ _ _ _ _ _ _ _ _ Ht).
Qed.

Lemma X14_report_images_exist_witness :
  ∃ content,
    report_content (λ _, "120.00") (λ _, "1.000000") (λ _, "3.0")
      (λ _, Ok results1) "today"
      (λ p, String.eqb p "out/centile_plot_F_WM_FA.png") files1 "out" 0
      "normals.xlsx" None = Ok content
    ∧ Forall (λ f, Forall (λ p, path_exists
                                  (λ p, String.eqb p "out/centile_plot_F_WM_FA.png")
                                  files1 p = true)
                          (image_paths f))
             content.
Proof.
  apply (X14_report_images_exist (λ _, "120.00") (λ _, "1.000000") (λ _, "3.0")
           (λ _, Ok results1) "today"
           (λ p, String.eqb p "out/centile_plot_F_WM_FA.png") files1 "out" 0
           "normals.xlsx" None).
  vm_compute. reflexivity.
Defined.

(** ** When the parameter table can be rendered *)

Lemma traverse_is_ok {A B} (f : A → res B) (l : list A) :
  is_ok (traverse f l) = true ↔ Forall (λ x, is_ok (f x) = true) l.
Proof.
  split; [|apply traverse_total].
  induction l as [|x l IH]; simpl; [done|].
  destruct (f x) as [y|] eqn:E; [|done]. simpl.
  destruct (traverse f l); [|done]. intros _. constructor; [by rewrite E|]. by apply IH.
Qed.

Lemma bind_is_ok {A B} (m : res A) (k : A → res B) :
  is_ok (m ≫= k) = true ↔ ∃ a, m = Ok a ∧ is_ok (k a) = true.
Proof.
  destruct m as [a|e]; simpl.
  - split; [by exists a | by intros (a' & [= <-] & H)].
  - split; [done | by intros (a' & H & _)].
Qed.

Section TableFacts.
Variables fmt_2f fmt_6f str_float : Q → string.
Variable genders : gset string.
Variable params : string → option ModelParams.

Lemma aic_cell_is_ok (g : string) :
  is_ok (aic_cell fmt_2f params g) = true
  ↔ ∀ p, params g = Some p → wf_scalar (aic p) = true.
Proof.
  unfold aic_cell. destruct (params g) as [p|]; [|by split].
  split.
  - intros H p' [= <-]. by destruct (aic p) as [[|x [|y v]]|].
  - intros H. specialize (H p eq_refl). by destruct (aic p) as [[|x [|y v]]|].
Qed.

Lemma dist_cell_is_ok (get : ModelParams → option (list Q)) (g : string) :
  is_ok (dist_cell str_float params get g) = true
  ↔ ∀ p, params g = Some p → wf_vector (get p) = true.
Proof.
  unfold dist_cell. destruct (params g) as [p|]; [|by split].
  split.
  - intros H p' [= <-]. by destruct (get p) as [[|x v]|].
  - intros H. specialize (H p eq_refl). by destruct (get p) as [[|x v]|].
Qed.

Lemma coef_cell_is_ok (name g : string) :
  is_ok (coef_cell fmt_6f params name g) = true
  ↔ ∀ p v, params g = Some p → coefs p !! name = Some v → v ≠ [].
Proof.
  unfold coef_cell. destruct (params g) as [p|]; [|by split].
  destruct (coefs p !! name) as [v|] eqn:Ev.
  2:{ split; [|done]. intros _ p' v [= <-] Hv. congruence. }
  split.
  - intros H p' v' [= <-] Hv. rewrite Ev in Hv. injection Hv as <-. by destruct v.
  - intros H. specialize (H p v eq_refl Ev). by destruct v.
Qed.

Lemma row_is_ok (label : string) (cell : string → res string) :
  is_ok (cells ← traverse cell (sorted genders); mret (label :: cells)) = true
  ↔ ∀ g, g ∈ genders → is_ok (cell g) = true.
Proof.
  rewrite bind_is_ok. split.
  - intros (cells & Hcells & _) g Hg.
    assert (is_ok (traverse cell (sorted genders)) = true) as Hok by by rewrite Hcells.
    apply traverse_is_ok in Hok. rewrite Forall_forall in Hok. apply Hok.
    by apply sorted_spec.
  - intros H.
    assert (is_ok (traverse cell (sorted genders)) = true) as Hok.
    { apply traverse_is_ok, Forall_forall. intros g Hg. by apply H, sorted_spec. }
    destruct (traverse cell (sorted genders)) as [cells|]; [|done]. by exists cells.
Qed.

Lemma table_data_is_ok :
  is_ok (table_data fmt_2f fmt_6f str_float genders params) = true
  ↔ ∀ g p, g ∈ genders → params g = Some p → wf_params p = true.
Proof.
  unfold table_data. split.
  - intros H g p Hg Hp.
    apply bind_is_ok in H as (aic_cells & Haic & H).
    apply bind_is_ok in H as (coef_rows & Hcoef & H).
    apply bind_is_ok in H as (dist_rows & Hdist & _).
    assert (is_ok (traverse (aic_cell fmt_2f params) (sorted genders)) = true) as Ha
      by by rewrite Haic.
    assert (is_ok (traverse (coef_row fmt_6f genders params)
                            (sorted (param_names genders params))) = true) as Hc
      by by rewrite Hcoef.
    assert (is_ok (traverse (dist_row str_float genders params) dist_params) = true)
      as Hd by by rewrite Hdist.
    clear Haic Hcoef Hdist.
    rewrite traverse_is_ok, Forall_forall in Ha.
    rewrite traverse_is_ok, Forall_forall in Hc.
    rewrite traverse_is_ok in Hd. unfold dist_params in Hd.
    apply Forall_cons in Hd as [Hmu Hd]. apply Forall_cons in Hd as [Hsigma Hd].
    apply Forall_cons in Hd as [Hnu Hd]. apply Forall_cons in Hd as [Htau _].
    unfold dist_row in Hmu, Hsigma, Hnu, Htau. simpl in Hmu, Hsigma, Hnu, Htau.
    rewrite row_is_ok in Hmu, Hsigma, Hnu, Htau.
    unfold wf_params, wf_coefs. rewrite !andb_true_iff, bool_decide_eq_true.
    repeat split.
    + apply (proj1 (aic_cell_is_ok g)); [|done]. by apply Ha, sorted_spec.
    + by apply (proj1 (dist_cell_is_ok mu g) (Hmu g Hg)).
    + by apply (proj1 (dist_cell_is_ok sigma g) (Hsigma g Hg)).
    + by apply (proj1 (dist_cell_is_ok nu g) (Hnu g Hg)).
    + by apply (proj1 (dist_cell_is_ok tau g) (Htau g Hg)).
    + intros name v Hv.
      assert (name ∈ sorted (param_names genders params)) as Hname.
      { apply sorted_spec, param_names_spec. exists g, p. by rewrite Hv. }
      specialize (Hc name Hname). unfold coef_row in Hc. rewrite row_is_ok in Hc.
      by apply (proj1 (coef_cell_is_ok name g) (Hc g Hg) p v).
  - intros Hwf.
    assert (∀ g p, g ∈ genders → params g = Some p →
                   wf_scalar (aic p) = true
                   ∧ (∀ get, get ∈ [mu; sigma; nu; tau] → wf_vector (get p) = true)
                   ∧ (∀ name v, coefs p !! name = Some v → v ≠ [])) as Hinv.
    { intros g p Hg Hp. by apply wf_params_inv, (Hwf g). }
    apply bind_total.
    { apply traverse_total, Forall_forall. intros g Hg%sorted_spec.
      apply aic_cell_is_ok. intros p Hp. by apply (Hinv g p). }
    intros aic_cells. apply bind_total.
    { apply traverse_total, Forall_forall. intros name _. unfold coef_row.
      apply row_is_ok. intros g Hg. apply coef_cell_is_ok. intros p v Hp Hv.
      destruct (Hinv g p Hg Hp) as (_ & _ & Hc). by apply (Hc name). }
    intros coef_rows. apply bind_total; [|done].
    apply traverse_total. unfold dist_params.
    repeat constructor; unfold dist_row; simpl; apply row_is_ok; intros g Hg;
      apply dist_cell_is_ok; intros p Hp; destruct (Hinv g p Hg Hp) as (_ & Hd & _);
      apply Hd; repeat constructor.
Qed.
End TableFacts.

(** X15.  When the parameter table of a biomarker can be rendered: exactly
    when, for every sex of the report that has a model, the AIC is absent or
    a single number and no distribution parameter or coefficient is an
    empty vector.  Otherwise building the table raises, and with it the
    report. *)
Theorem X15_table_renders_iff_well_formed
    (fmt_2f fmt_6f str_float : Q → string) (genders : gset string)
    (params : string → option ModelParams) :
  is_ok (table_data fmt_2f fmt_6f str_float genders params) = true
  ↔ ∀ g p, g ∈ genders → params g = Some p → wf_params p = true.
Proof. apply table_data_is_ok. Qed.


(** ** [compute_growth_curves] as [main] calls it *)

Lemma plot_Ok_inv (input_data : DataFrame) (sex_column age_column : string) :
  sex_column ∈ columns input_data →
  let sex_labels := unique (cells_of input_data sex_column) in
  (age_column ∉ columns input_data →
   age_distribution_plot input_data sex_column age_column sex_labels
   = Raise (KeyError age_column))
  ∧ (age_column ∈ columns input_data → (3 < List.length sex_labels)%nat →
     age_distribution_plot input_data sex_column age_column sex_labels
     = Raise IndexError)
  ∧ (age_column ∈ columns input_data → (List.length sex_labels ≤ 3)%nat →
     ∃ fig, age_distribution_plot input_data sex_column age_column sex_labels = Ok fig).
Proof.
  intros Hsex sex_labels. split; [|split].
  - intros Hage. unfold age_distribution_plot.
    rewrite (column_Ok _ _ Hsex), bind_Ok_l. by rewrite (column_missing _ _ Hage).
  - intros Hage Hlen. unfold age_distribution_plot.
    rewrite (column_Ok _ _ Hsex), bind_Ok_l, (column_Ok _ _ Hage), bind_Ok_l.
    rewrite (hist_loop_overflow input_data sex_column age_column _ Hsex Hage 0 sex_labels);
      [done | done | | done].
    intros E. rewrite E in Hlen. simpl in Hlen. lia.
  - intros Hage Hlen. by apply plot_Ok.
Qed.



(** ** The files of a whole run *)

Lemma report_path_not_pickle (save_path : string) :
  path_join save_path "growth_curves_output_report.pdf"
  ≠ path_join save_path "results.pkl".
Proof.
  unfold path_join.
  change (Str.startswith "growth_curves_output_report.pdf" "/") with false.
  change (Str.startswith "results.pkl" "/") with false. cbv iota.
  destruct (String.eqb save_path EmptyString || Str.endswith save_path "/");
    intros H%app_inv_head_str; discriminate H.
Qed.

Lemma report_path_not_plot (save_path : string) :
  path_join save_path "growth_curves_output_report.pdf"
  ≠ save_path +:+ "/dataset_age_distribution.png".
Proof.
  destruct (path_join_plain save_path "growth_curves_output_report.pdf" eq_refl)
    as [-> | ->]; intros H%app_inv_head_str; discriminate H.
Qed.

Lemma age_plot_path (save_path : string) :
  save_path ≠ EmptyString → Str.endswith save_path "/" = false →
  path_join save_path "dataset_age_distribution.png"
  = save_path +:+ "/dataset_age_distribution.png".
Proof.
  intros Hne Hend. unfold path_join.
  change (Str.startswith "dataset_age_distribution.png" "/") with false. cbv iota.
  rewrite Hend. by destruct save_path.
Qed.

Lemma report_shows_age_plot
    (fmt_2f fmt_6f str_float : Q → string) (pickle_loads : bytes → res Results)
    (now : string) (r_image_exists : string → bool) (fs : gmap string file)
    (results_folder : string) (run_time : nat) (input_file : string)
    (disease_tissue : option string) (content : list flowable) :
  report_content fmt_2f fmt_6f str_float pickle_loads now r_image_exists fs
    results_folder run_time input_file disease_tissue = Ok content →
  is_Some (fs !! path_join results_folder "dataset_age_distribution.png") →
  Image (path_join results_folder "dataset_age_distribution.png") 6 4 ∈ content.
Proof.
  unfold report_content. intros H Hplot.
  apply bind_Ok in H as (rs & _ & H).
  apply bind_Ok in H as (sections & _ & [= <-]).
  do 3 right. apply elem_of_app. left. apply elem_of_app. left.
  unfold path_exists. rewrite bool_decide_eq_true_2 by done. simpl. right. left.
Qed.

(** X17.  The files of a whole run of [main], whatever the script does.
    No path but the plot's, the pickle's and the report's is written.  The
    plot is on disk whenever the script was called.  The report is left as
    it was when the run ends with an exception.  When the run returns, the
    save directory holds the plot, the pickle and the report, and (for a
    save path that is not empty and does not end with a slash) the report
    shows the age-distribution plot. *)
Theorem X17_files_of_a_run
    (R : FitArgs → res RResult) (pickle_dumps : Results → bytes)
    (pickle_loads : bytes → res Results) (fmt_2f fmt_6f str_float : Q → string)
    (now : string) (r_image_exists : string → bool)
    (read_excel : string → res DataFrame) (probe : r_probe) (run_time : nat)
    (fs : gmap string file) (args : Args) :
  let out := main R pickle_dumps pickle_loads fmt_2f fmt_6f str_float now
               r_image_exists read_excel probe run_time fs args in
  let plot := arg_save_path args +:+ "/dataset_age_distribution.png" in
  let pkl := path_join (arg_save_path args) "results.pkl" in
  let pdf := path_join (arg_save_path args) "growth_curves_output_report.pdf" in
  (∀ p, p ≠ plot → p ≠ pkl → p ≠ pdf → files out.1 !! p = fs !! p)
  ∧ (calls out.1 ≠ [] → ∃ fig, files out.1 !! plot = Some (PngFile fig))
  ∧ (out.2 ≠ Ok () → files out.1 !! pdf = fs !! pdf)
  ∧ (out.2 = Ok () →
     ∃ fig data content,
       files out.1 !! plot = Some (PngFile fig)
       ∧ files out.1 !! pkl = Some (PickleFile data)
       ∧ files out.1 !! pdf = Some (PdfFile content)
       ∧ (arg_save_path args ≠ EmptyString →
          Str.endswith (arg_save_path args) "/" = false →
          Image plot 6 4 ∈ content)).
Proof.
  intros out plot pkl pdf. unfold out, main.
  destruct (setup read_excel probe args) as [p|e]; [|by repeat split].
  destruct (compute_file_effects R pickle_dumps fs (p_input_data p) (arg_save_path args)
              (biomarker_columns (p_biomarkers p))
              (biomarker_tissue_map (p_biomarkers p)) (p_tissue_types p)
              (p_sex_column p) (p_sex_labels p) (age_col args) (p_disease_data p)
              (p_disease_tissue_map p) (arg_smoothing args))
    as (Hother & Hcalls & Hfail & Hdone).
  cbv zeta in Hother, Hcalls, Hfail, Hdone. fold plot in Hother, Hcalls, Hdone.
  fold pkl in Hother, Hfail, Hdone.
  assert (pdf ≠ pkl) as Hpk by apply report_path_not_pickle.
  assert (pdf ≠ plot) as Hpl by apply report_path_not_plot.
  destruct (compute_growth_curves _ _ _ _ _ _ _ _ _ _ _ _ _ _) as [w [[]|e]].
  2:{ simpl in *. split; [intros q Hq1 Hq2 _; by apply Hother|].
      split; [intros Hc; by apply Hcalls|]. split; [|done].
      intros _. by apply Hother. }
  simpl in Hother, Hcalls, Hfail, Hdone.
  destruct (Hdone eq_refl) as (_ & _ & [fig Hfig] & Hpkl).
  unfold generate_output_report.
  destruct (report_content fmt_2f fmt_6f str_float pickle_loads now r_image_exists
              (files w) (arg_save_path args) run_time (input_path args)
              (arg_disease_data args)) as [content|e] eqn:Hrep; simpl.
  - fold pdf. split; [intros q Hq1 Hq2 Hq3; rewrite lookup_insert_ne by done;
                      by apply Hother|].
    split; [intros _; exists fig; by rewrite lookup_insert_ne|].
    split; [done|]. intros _. eexists fig, _, content.
    split; [by rewrite lookup_insert_ne|].
    split; [by rewrite lookup_insert_ne|].
    split; [by rewrite lookup_insert_eq|].
    intros Hne Hend. unfold plot. rewrite <- (age_plot_path _ Hne Hend).
    apply (report_shows_age_plot _ _ _ _ _ _ _ _ _ _ _ _ Hrep).
    rewrite (age_plot_path _ Hne Hend). by eexists.
  - split; [intros q Hq1 Hq2 _; by apply Hother|].
    split; [intros _; by exists fig|]. split; [|done].
    intros _. by apply Hother.
Qed.


(** ** The run time shown in the report *)

(** X18.  The run time of the report, for a run time in whole seconds: the
    text reads [h h m min s s] with fewer than sixty minutes and fewer than
    sixty seconds, and the three numbers add up to the run time again. *)
Theorem X18_run_time_adds_up (run_time : nat) :
  ∃ h m s : nat,
    formatted_run_time run_time
    = pretty h +:+ " h " +:+ pretty m +:+ " min " +:+ pretty s +:+ " s"
    ∧ (m < 60)%nat ∧ (s < 60)%nat
    ∧ run_time = (3600 * h + 60 * m + s)%nat.
Proof.
  exists (run_time / 3600)%nat, ((run_time mod 3600) / 60)%nat,
         ((run_time mod 3600) mod 60)%nat.
  split; [done|].
  pose proof (Nat.mod_upper_bound run_time 3600) as H1.
  pose proof (Nat.div_mod_eq run_time 3600) as H2.
  pose proof (Nat.div_mod_eq (run_time mod 3600) 60) as H3.
  pose proof (Nat.mod_upper_bound (run_time mod 3600) 60) as H4.
  split; [|split; [|lia]].
  - apply Nat.Div0.div_lt_upper_bound. lia.
  - lia.
Qed.
